(** * LSAT Study Companion: the streak tracker, the Pomodoro timer and their
      localStorage adapter

    A shallow embedding of [Storage] (localStorage utilities), [Streak]
    (study streak tracker) and [Timer] (js/timer.js), and the properties of
    the streak and timer state engine proved about it; then [Countdown]
    (js/countdown.js), the choice of the day's question (js/questions.js)
    and the milestone listener of the application, with further properties.

    Conventions of the embedding.
    - JavaScript numbers that hold counters, seconds and epoch milliseconds
      are integers ([Z]), and [Math.ceil(a / 1000)] is the integer ceiling
      (the two agree on integers below 2^53); [totalMinutes], the only
      quantity kept from a division, is a rational ([Q]): the sums of the
      code are these sums for whole numbers of minutes below 2^53, and
      rounded to a double otherwise.
    - The browser is an explicit [Host]: the wall clock, the time zone, the
      contents of [localStorage] and the log of dispatched [CustomEvent]s.
      Every function runs to completion on one thread, so the clock does not
      move during a call; it moves between calls ([advance], [at_time]).
    - Exceptions are explicit: a computation is an [Outcome].
    - The DOM (display text, button states, audio) is not modelled, except
      for the sessions counter the timer writes. *)

From Stdlib Require Import ZArith QArith Lia List String Bool.
From Stdlib Require Import Qminmax.
From stdpp Require Import base gmap strings.
Import ListNotations.

Local Open Scope Z_scope.

(** ** Exceptions *)

Inductive Error : Type :=
| SyntaxError          (* JSON.parse on a text that is not JSON *)
| QuotaExceededError   (* localStorage.setItem on a full store *)
| SecurityError        (* any localStorage access when storage is denied *)
| TypeError.           (* property access on null *)

(** The completion of a call: a value, a thrown exception, or [Unmodelled]
    when the call leaves the typed view of this development (a stored
    document of another shape than the one its key holds, arithmetic on an
    [undefined] field). [Unmodelled] is never caught. *)
Inductive Outcome (A : Type) : Type :=
| Return (a : A)
| Throw (e : Error)
| Unmodelled.

Arguments Return {A} a.
Arguments Throw {A} e.
Arguments Unmodelled {A}.

#[global] Instance Outcome_ret : MRet Outcome := @Return.

#[global] Instance Outcome_bind : MBind Outcome := fun A B k c =>
  match c with
  | Return a => k a
  | Throw e => Throw e
  | Unmodelled => Unmodelled
  end.

(** [try { body } catch (error) { handler }] *)
Definition try_catch {A : Type} (body : Outcome A) (handler : Error -> Outcome A)
  : Outcome A :=
  match body with
  | Return a => Return a
  | Throw e => handler e
  | Unmodelled => Unmodelled
  end.

(** ** Dates

    An instant is a number of milliseconds since the epoch (what [Date.now()]
    returns and what an ISO string written by [toISOString()] denotes, to the
    millisecond). A date string, the result of [toDateString()], names a
    local calendar day; it is represented by the number of that day. The time
    zone is a fixed offset from UTC: the instants a call compares are taken
    at one offset, so a day of 23 or 25 hours, where daylight-saving time
    begins or ends between them, is not described. *)

Definition msPerDay : Z := 1000 * 60 * 60 * 24.

(** [new Date(instant).toDateString()] in the zone [utcOffset] (local time =
    UTC + utcOffset milliseconds). *)
Definition toDateString (utcOffset : Z) (instant : Z) : Z :=
  (instant + utcOffset) / msPerDay.

(** What the [Date] constructor is applied to in this program. *)
Inductive DateLike : Type :=
| IsoString (instant : Z)   (* "2026-06-15T09:00:00.000Z" *)
| DateString (day : Z)      (* "Mon Jun 15 2026", parsed as local midnight *)
| DateObject (instant : Z). (* a Date *)

(** [new Date(d)], as its time value. *)
Definition new_Date (utcOffset : Z) (d : DateLike) : Z :=
  match d with
  | IsoString instant => instant
  | DateString day => day * msPerDay - utcOffset
  | DateObject instant => instant
  end.

(** ** Records kept in localStorage *)

Record StreakData : Type := mkStreakData {
  currentStreak : Z;
  longestStreak : Z;
  totalDays : Z;
  lastVisit : option Z;     (* null, or an ISO string *)
  startDate : Z             (* an ISO string *)
}.

Record TimerData : Type := mkTimerData {
  sessionsToday : Z;
  totalSessions : Z;
  totalMinutes : Q;
  lastSession : option Z    (* null, or a date string *)
}.

(** JavaScript values that pass through [Storage.get] and [Storage.set]. *)
Inductive Value : Type :=
| VNull
| VString (s : string)
| VStreak (d : StreakData)
| VTimer (d : TimerData).

(** ** localStorage and JSON

    A stored item is a text. Texts are taken up to JSON: an item is either
    the serialization of a value, or a text that [JSON.parse] rejects. A
    store refuses writes as a whole ([quotaExceeded]): the size of the item
    plays no part, so a store that takes a short item and refuses a longer
    one is not described. *)
Inductive Item : Type :=
| Json (v : Value)
| NotJson (text : string).

Record LocalStorage : Type := mkLocalStorage {
  items : gmap string Item;
  accessDenied : bool;     (* every access throws SecurityError *)
  quotaExceeded : bool     (* setItem throws QuotaExceededError *)
}.

Definition getItem (ls : LocalStorage) (key : string) : Outcome (option Item) :=
  if accessDenied ls then Throw SecurityError
  else Return (items ls !! key).

Definition setItem (ls : LocalStorage) (key : string) (item : Item)
  : Outcome LocalStorage :=
  if accessDenied ls then Throw SecurityError
  else if quotaExceeded ls then Throw QuotaExceededError
  else Return (mkLocalStorage (<[key := item]> (items ls))
                              (accessDenied ls) (quotaExceeded ls)).

Definition removeItem (ls : LocalStorage) (key : string) : Outcome LocalStorage :=
  if accessDenied ls then Throw SecurityError
  else Return (mkLocalStorage (delete key (items ls))
                              (accessDenied ls) (quotaExceeded ls)).

Definition JSON_parse (item : Item) : Outcome Value :=
  match item with
  | Json v => Return v
  | NotJson _ => Throw SyntaxError
  end.

Definition JSON_stringify (v : Value) : Item := Json v.

(** Truthiness of what [getItem] returns: [null] and the empty string are
    falsy, every other string is truthy. *)
Definition truthy (item : option Item) : bool :=
  match item with
  | None => false
  | Some (NotJson ""%string) => false
  | Some _ => true
  end.

(** ** Events and the host *)

Inductive Mode : Type := Work | Break.

Inductive Event : Type :=
| streakMilestone (streak : Z)
| timerComplete (message : string) (mode : Mode).

Record Host : Type := mkHost {
  clock : Z;                 (* Date.now() *)
  utcOffset : Z;
  localStorage : LocalStorage;
  dispatched : list Event    (* document.dispatchEvent, oldest first *)
}.

Definition with_localStorage (h : Host) (ls : LocalStorage) : Host :=
  mkHost (clock h) (utcOffset h) ls (dispatched h).

Definition dispatchEvent (h : Host) (e : Event) : Host :=
  mkHost (clock h) (utcOffset h) (localStorage h) (dispatched h ++ [e]).

(** Wall-clock time passing between two calls. *)
Definition at_time (now : Z) (h : Host) : Host :=
  mkHost now (utcOffset h) (localStorage h) (dispatched h).

Definition advance (ms : Z) (h : Host) : Host := at_time (clock h + ms) h.

(** ** Storage (localStorage utilities) *)

Module Storage.

Module KEYS.
Definition STREAK_DATA : string := "lsat_streak_data"%string.
Definition TIMER_DATA : string := "lsat_timer_data"%string.
Definition ANSWERED_QUESTIONS : string := "lsat_answered_questions"%string.
Definition DISMISSED_MESSAGES : string := "lsat_dismissed_messages"%string.
Definition VERSION : string := "lsat_app_version"%string.
End KEYS.

(** [get(key, defaultValue = null)]: the [console.error] of the handler is
    not modelled. *)
Definition get (ls : LocalStorage) (key : string) (defaultValue : Value)
  : Outcome Value :=
  try_catch
    (item ← getItem ls key;
     if truthy item
     then match item with
          | Some text => JSON_parse text
          | None => Return defaultValue
          end
     else Return defaultValue)
    (fun _ => Return defaultValue).

(** [set(key, value)]: the success status and the store it leaves. *)
Definition set (ls : LocalStorage) (key : string) (value : Value)
  : Outcome (bool * LocalStorage) :=
  try_catch
    (ls' ← setItem ls key (JSON_stringify value);
     Return (true, ls'))
    (fun _ => Return (false, ls)).

Definition remove (ls : LocalStorage) (key : string) : Outcome LocalStorage :=
  try_catch (removeItem ls key) (fun _ => Return ls).

(** The default of [getStreakData], built at the time of the call. *)
Definition defaultStreakData (h : Host) : StreakData :=
  mkStreakData 0 0 0 None (clock h).

Definition getStreakData (h : Host) : Outcome Value :=
  get (localStorage h) KEYS.STREAK_DATA (VStreak (defaultStreakData h)).

Definition setStreakData (h : Host) (data : StreakData) : Outcome Host :=
  r ← set (localStorage h) KEYS.STREAK_DATA (VStreak data);
  Return (with_localStorage h (snd r)).

Definition defaultTimerData : TimerData := mkTimerData 0 0 0%Q None.

Definition getTimerData (h : Host) : Outcome Value :=
  get (localStorage h) KEYS.TIMER_DATA (VTimer defaultTimerData).

Definition setTimerData (h : Host) (data : TimerData) : Outcome Host :=
  r ← set (localStorage h) KEYS.TIMER_DATA (VTimer data);
  Return (with_localStorage h (snd r)).

(** The first property access on what [getTimerData] returned: on [null]
    it throws; on a document of another shape the fields are [undefined]
    and the call leaves the model. *)
Definition asTimerData (v : Value) : Outcome TimerData :=
  match v with
  | VTimer d => Return d
  | VNull => Throw TypeError
  | _ => Unmodelled
  end.

Definition asStreakData (v : Value) : Outcome StreakData :=
  match v with
  | VStreak d => Return d
  | VNull => Throw TypeError
  | _ => Unmodelled
  end.

Definition getTodayString (h : Host) : Z :=
  toDateString (utcOffset h) (clock h).

Definition incrementSession (h : Host) : Outcome Host :=
  v ← getTimerData h;
  data ← asTimerData v;
  let today := toDateString (utcOffset h) (clock h) in
  (* Reset daily count if it's a new day *)
  let data :=
    if decide (lastSession data = Some today) then data
    else mkTimerData 0 (totalSessions data) (totalMinutes data)
                     (lastSession data) in
  let data := mkTimerData (sessionsToday data + 1) (totalSessions data)
                          (totalMinutes data) (lastSession data) in
  let data := mkTimerData (sessionsToday data) (totalSessions data + 1)
                          (totalMinutes data) (lastSession data) in
  let data := mkTimerData (sessionsToday data) (totalSessions data)
                          (totalMinutes data) (Some today) in
  setTimerData h data.

Definition addStudyTime (h : Host) (minutes : Q) : Outcome Host :=
  v ← getTimerData h;
  data ← asTimerData v;
  let data := mkTimerData (sessionsToday data) (totalSessions data)
                          (totalMinutes data + minutes)%Q (lastSession data) in
  setTimerData h data.

(** [isToday(dateString)]: [dateString] is an ISO string or [null]. *)
Definition isToday (h : Host) (dateString : option Z) : bool :=
  match dateString with
  | None => false
  | Some iso =>
      (toDateString (utcOffset h) (new_Date (utcOffset h) (IsoString iso))
       =? getTodayString h)%Z
  end.

Definition getDaysBetween (h : Host) (date1 date2 : DateLike) : Z :=
  let d1 := new_Date (utcOffset h) date1 in
  let d2 := new_Date (utcOffset h) date2 in
  let diffTime := Z.abs (d2 - d1) in
  diffTime / (1000 * 60 * 60 * 24).

(** [Object.values(this.KEYS)], in the order of the object literal. *)
Definition KEYS_values : list string :=
  [KEYS.STREAK_DATA; KEYS.TIMER_DATA; KEYS.ANSWERED_QUESTIONS;
   KEYS.DISMISSED_MESSAGES; KEYS.VERSION].

(** [keys.forEach(key => this.remove(key))] *)
Fixpoint removeEach (keys : list string) (ls : LocalStorage)
  : Outcome LocalStorage :=
  match keys with
  | [] => Return ls
  | key :: rest =>
      ls ← remove ls key;
      removeEach rest ls
  end.

Definition clearAll (ls : LocalStorage) : Outcome LocalStorage :=
  removeEach KEYS_values ls.

(** Current version for data migration. *)
Definition VERSION : string := "1.0.0"%string.

(** [!v] is false: [null] and the empty string are falsy, objects and other
    strings are truthy. *)
Definition truthyValue (v : Value) : bool :=
  match v with
  | VNull => false
  | VString ""%string => false
  | _ => true
  end.

(** [v !== s] for a string [s]. *)
Definition differsFrom (v : Value) (s : string) : bool :=
  match v with
  | VString s' => negb (String.eqb s' s)
  | _ => true
  end.

(** [migrate(fromVersion, toVersion)]: the [console.log] is not modelled. *)
Definition migrate (ls : LocalStorage) (fromVersion : Value) (toVersion : string)
  : Outcome LocalStorage :=
  r ← set ls KEYS.VERSION (VString toVersion);
  Return (snd r).

Definition init (ls : LocalStorage) : Outcome LocalStorage :=
  storedVersion ← get ls KEYS.VERSION VNull;
  if negb (truthyValue storedVersion)
  then
    (* First time setup *)
    r ← set ls KEYS.VERSION (VString VERSION);
    Return (snd r)
  else if differsFrom storedVersion VERSION
  then
    (* Handle migrations if needed *)
    migrate ls storedVersion VERSION
  else Return ls.

(** [isAvailable()]: the probe key is written with the raw text of its own
    name, which is not JSON, and removed. The inner handler is the same
    [catch]; it is repeated so that a failure of [removeItem] keeps the store
    [setItem] left. *)
Definition isAvailable (ls : LocalStorage) : Outcome (bool * LocalStorage) :=
  let test := "__storage_test__"%string in
  try_catch
    (ls1 ← setItem ls test (NotJson test);
     try_catch
       (ls2 ← removeItem ls1 test;
        Return (true, ls2))
       (fun _ => Return (false, ls1)))
    (fun _ => Return (false, ls)).

(** Initialize storage on load: [init] when storage is available (the
    [console.warn] of the other branch is not modelled). *)
Definition onLoad (ls : LocalStorage) : Outcome LocalStorage :=
  r ← isAvailable ls;
  match r with
  | (true, ls) => init ls
  | (false, ls) => Return ls
  end.

End Storage.

(** ** Streak (study streak tracker) *)

Module Streak.

(** The [Streak] object: its [data] and the browser it runs in. *)
Record t : Type := mk {
  data : StreakData;
  host : Host
}.

Definition with_data (s : t) (d : StreakData) : t := mk d (host s).

Definition set_currentStreak (v : Z) (d : StreakData) : StreakData :=
  mkStreakData v (longestStreak d) (totalDays d) (lastVisit d) (startDate d).
Definition set_longestStreak (v : Z) (d : StreakData) : StreakData :=
  mkStreakData (currentStreak d) v (totalDays d) (lastVisit d) (startDate d).
Definition set_totalDays (v : Z) (d : StreakData) : StreakData :=
  mkStreakData (currentStreak d) (longestStreak d) v (lastVisit d) (startDate d).
Definition set_lastVisit (v : option Z) (d : StreakData) : StreakData :=
  mkStreakData (currentStreak d) (longestStreak d) (totalDays d) v (startDate d).

(** [loadStreak()]: [data] is read as a streak record here, where
    [checkStreak] makes its first property access. *)
Definition loadStreak (h : Host) : Outcome t :=
  v ← Storage.getStreakData h;
  d ← Storage.asStreakData v;
  Return (mk d h).

Definition saveStreak (s : t) : Outcome t :=
  h ← Storage.setStreakData (host s) (data s);
  Return (mk (data s) h).

Definition milestones : list Z := [3; 7; 14; 30; 50; 100].

Definition celebrateMilestone (s : t) (streak : Z) : t :=
  if existsb (Z.eqb streak) milestones
  then mk (data s) (dispatchEvent (host s) (streakMilestone streak))
  else s.

Definition startStreak (s : t) : Outcome t :=
  let d := data s in
  let d := set_currentStreak 1 d in
  let d := set_longestStreak (Z.max 1 (longestStreak d)) d in
  let d := set_totalDays 1 d in
  let d := set_lastVisit (Some (clock (host s))) d in
  s ← saveStreak (with_data s d);
  Return (celebrateMilestone s 1).

Definition incrementStreak (s : t) : Outcome t :=
  let d := data s in
  let d := set_currentStreak (currentStreak d + 1) d in
  let d := set_totalDays (totalDays d + 1) d in
  let d := set_lastVisit (Some (clock (host s))) d in
  (* Update longest streak if current is higher *)
  let d := if currentStreak d >? longestStreak d
           then set_longestStreak (currentStreak d) d
           else d in
  s ← saveStreak (with_data s d);
  Return (celebrateMilestone s (currentStreak (data s))).

Definition resetStreak (s : t) : Outcome t :=
  let d := data s in
  let d := set_currentStreak 1 d in
  let d := set_totalDays (totalDays d + 1) d in
  let d := set_lastVisit (Some (clock (host s))) d in
  saveStreak (with_data s d).

Definition checkStreak (s : t) : Outcome t :=
  let today := Storage.getTodayString (host s) in
  let lastVisit := lastVisit (data s) in
  match lastVisit with
  | None =>
      (* If this is the first visit *)
      startStreak s
  | Some iso =>
      (* If already visited today, do nothing *)
      if Storage.isToday (host s) lastVisit then Return s
      else
        (* Calculate days since last visit *)
        let daysSinceLastVisit :=
          Storage.getDaysBetween (host s) (IsoString iso) (DateString today) in
        if daysSinceLastVisit =? 1 then incrementStreak s
        else if daysSinceLastVisit >? 1 then resetStreak s
        else Return s
  end%Z.

Definition getCurrentStreak (s : t) : Z := currentStreak (data s).
Definition getLongestStreak (s : t) : Z := longestStreak (data s).
Definition getTotalDays (s : t) : Z := totalDays (data s).

Definition resetAll (s : t) : Outcome t :=
  saveStreak (with_data s (mkStreakData 0 0 0 None (clock (host s)))).

Definition isStreakAtRisk (s : t) : bool :=
  match lastVisit (data s) with
  | None => false
  | Some iso =>
      (Storage.getDaysBetween (host s) (IsoString iso)
                              (DateObject (clock (host s))) =? 0)%Z
  end.

(** [init()]: load, reconcile (the display is not modelled). *)
Definition init (h : Host) : Outcome t :=
  s ← loadStreak h;
  checkStreak s.

(** [checkStreak()] called once the wall clock reads [now]. *)
Definition checkStreak_at (now : Z) (s : t) : Outcome t :=
  checkStreak (mk (data s) (at_time now (host s))).

End Streak.

(** ** Timer (Pomodoro study timer) *)

Module Timer.

Record State : Type := mkState {
  isRunning : bool;
  isPaused : bool;
  mode : Mode;
  timeRemaining : Z;        (* seconds *)
  interval : bool;          (* a setInterval handle is held *)
  startTime : option Z;
  pausedTime : Z;
  endTime : option Z
}.

(** Timer durations (in seconds). *)
Record Durations : Type := mkDurations {
  work : Z;
  break : Z
}.

(** [durations[mode]] *)
Definition duration (d : Durations) (m : Mode) : Z :=
  match m with
  | Work => work d
  | Break => break d
  end.

(** The [Timer] object: [state], [durations], the text of the sessions
    counter ([elements.sessionsCount]) and the browser it runs in. *)
Record t : Type := mk {
  state : State;
  durations : Durations;
  sessionsCount : option Z;
  host : Host
}.

Definition initialState : State :=
  mkState false false Work (25 * 60) false None 0 None.

Definition initialDurations : Durations := mkDurations (25 * 60) (5 * 60).

Definition with_state (x : t) (st : State) : t :=
  mk st (durations x) (sessionsCount x) (host x).

Definition with_host (x : t) (h : Host) : t :=
  mk (state x) (durations x) (sessionsCount x) h.

Definition set_isRunning (v : bool) (st : State) : State :=
  mkState v (isPaused st) (mode st) (timeRemaining st) (interval st)
          (startTime st) (pausedTime st) (endTime st).
Definition set_isPaused (v : bool) (st : State) : State :=
  mkState (isRunning st) v (mode st) (timeRemaining st) (interval st)
          (startTime st) (pausedTime st) (endTime st).
Definition set_mode (v : Mode) (st : State) : State :=
  mkState (isRunning st) (isPaused st) v (timeRemaining st) (interval st)
          (startTime st) (pausedTime st) (endTime st).
Definition set_timeRemaining (v : Z) (st : State) : State :=
  mkState (isRunning st) (isPaused st) (mode st) v (interval st)
          (startTime st) (pausedTime st) (endTime st).
Definition set_interval (v : bool) (st : State) : State :=
  mkState (isRunning st) (isPaused st) (mode st) (timeRemaining st) v
          (startTime st) (pausedTime st) (endTime st).
Definition set_startTime (v : option Z) (st : State) : State :=
  mkState (isRunning st) (isPaused st) (mode st) (timeRemaining st)
          (interval st) v (pausedTime st) (endTime st).
Definition set_endTime (v : option Z) (st : State) : State :=
  mkState (isRunning st) (isPaused st) (mode st) (timeRemaining st)
          (interval st) (startTime st) (pausedTime st) v.

(** [Math.ceil(a / b)] for integers [a] and [b > 0]. *)
Definition ceil_div (a b : Z) : Z := - ((- a) / b).

(** [!startTime]: [null] and [0] are falsy. *)
Definition falsy (x : option Z) : bool :=
  match x with
  | None => true
  | Some v => v =? 0
  end.

(** [loadTimerData()]: shows [sessionsToday] of the stored statistics. *)
Definition loadTimerData (x : t) : Outcome t :=
  v ← Storage.getTimerData (host x);
  data ← Storage.asTimerData v;
  Return (mk (state x) (durations x) (Some (sessionsToday data)) (host x)).

Definition start (x : t) : t :=
  let st := state x in
  if isRunning st then x
  else
    let st := set_isRunning true st in
    let st := set_isPaused false st in
    (* Record start time (or resume time) *)
    let st :=
      if falsy (startTime st)
      then
        (* First start - record the target end time: startTime is now *)
        let st := set_startTime (Some (clock (host x))) st in
        set_endTime (Some (clock (host x) + timeRemaining st * 1000)) st
      else
        (* Resuming from pause - adjust end time *)
        set_endTime (Some (clock (host x) + timeRemaining st * 1000)) st in
    (* Start countdown *)
    let st := set_interval true st in
    with_state x st.

Definition pause (x : t) : t :=
  let st := state x in
  if negb (isRunning st) then x
  else
    let st := set_isRunning false st in
    let st := set_isPaused true st in
    (* Stop interval *)
    let st := if interval st then set_interval false st else st in
    with_state x st.

Definition reset (x : t) : t :=
  (* Stop timer *)
  let x := pause x in
  (* Reset time and clear start time *)
  let st := state x in
  let st := set_timeRemaining (duration (durations x) (mode st)) st in
  let st := set_startTime None st in
  let st := set_endTime None st in
  let st := set_isPaused false st in
  with_state x st.

Definition changeMode (x : t) (m : Mode) : t :=
  (* Stop current timer *)
  let x := pause x in
  (* Update mode *)
  let st := state x in
  let st := set_mode m st in
  let st := set_timeRemaining (duration (durations x) m) st in
  (* Reset timing state *)
  let st := set_startTime None st in
  let st := set_endTime None st in
  let st := set_isPaused false st in
  with_state x st.

Definition showCompletionMessage (x : t) (message : string) : t :=
  with_host x (dispatchEvent (host x) (timerComplete message (mode (state x)))).

Definition workCompleteMessage : string :=
  "Work session complete! Time for a break? 🎉"%string.
Definition breakCompleteMessage : string :=
  "Break complete! Ready to get back to studying? 💪"%string.

(** [complete()]: the notification sound is not modelled. *)
Definition complete (x : t) : Outcome t :=
  (* Stop timer *)
  let x := pause x in
  match mode (state x) with
  | Work =>
      (* If work session completed, increment counter *)
      h ← Storage.incrementSession (host x);
      h ← Storage.addStudyTime h (inject_Z (work (durations x)) / 60)%Q;
      x ← loadTimerData (with_host x h);
      (* Suggest break *)
      let x := showCompletionMessage x workCompleteMessage in
      (* Auto-switch to break mode *)
      Return (changeMode x Break)
  | Break =>
      (* Break completed, switch back to work *)
      let x := showCompletionMessage x breakCompleteMessage in
      (* Auto-switch to work mode *)
      Return (changeMode x Work)
  end.

(** [tick()]. It runs from the interval [start] creates and from the
    visibility handler of a running timer, so after [start] has set
    [endTime]. Without an [endTime] ([undefined] before the first start,
    [null] after a reset) the subtraction is not on two numbers ([NaN] from
    [undefined], [-now] from [null]), and the call leaves the model. *)
Definition tick (x : t) : Outcome t :=
  match endTime (state x) with
  | None => Unmodelled
  | Some endTime =>
      (* Calculate time remaining based on actual time *)
      let now := clock (host x) in
      let timeLeft := Z.max 0 (ceil_div (endTime - now) 1000) in
      let x := with_state x (set_timeRemaining timeLeft (state x)) in
      (* Check if timer completed *)
      if timeRemaining (state x) <=? 0 then complete x
      else Return x
  end.

Definition getStats (x : t) : Outcome Value := Storage.getTimerData (host x).

Definition setDurations (x : t) (workMinutes breakMinutes : Z) : t :=
  let d := durations x in
  let d := mkDurations (workMinutes * 60) (break d) in
  let d := mkDurations (work d) (breakMinutes * 60) in
  (* Reset timer with new duration *)
  reset (mk (state x) d (sessionsCount x) (host x)).

(** [applySettings()]: the two inputs after [parseInt], [None] for [NaN]. *)
Definition applySettings (x : t) (workMinutes breakMinutes : option Z) : t :=
  match workMinutes, breakMinutes with
  | Some w, Some b =>
      if (w >? 0) && (b >? 0) then setDurations x w b else x
  | _, _ => x
  end.

(** [init()]: the timer before any user action. *)
Definition init (h : Host) : Outcome t :=
  loadTimerData (mk initialState initialDurations None h).

(** A call made once the wall clock reads [now]. *)
Definition at_time (now : Z) (x : t) : t := with_host x (at_time now (host x)).

End Timer.

(** ** Countdown (js/countdown.js)

    The display holds the numbers the code computes, before [formatNumber]
    and [toFixed] turn them into text. The clock reading of [new Date()] is
    the argument [now]. *)

Module Countdown.

Inductive ProgressText : Type :=
| StudyPeriod (daysElapsed daysRemaining : Z) (percentage : Q)
| TestDay.

(** What the page shows: the four counters, the width of the progress bar
    in percent, and the progress text. *)
Record Display : Type := mkDisplay {
  days : Z;
  hours : Z;
  minutes : Z;
  seconds : Z;
  progressBar : Q;
  progressText : ProgressText
}.

(** The [Countdown] object. [targetDate] and [startDate] are time values
    ([null] before [init] counts as 0 in the subtractions). [scheduled] is
    the set of interval handles of this object that the browser still runs,
    [nextHandle] the handle the next [setInterval] returns. *)
Record t : Type := mk {
  targetDate : Z;
  startDate : Z;
  interval : option nat;
  scheduled : gset nat;
  nextHandle : nat;
  display : Display
}.

Definition with_display (c : t) (d : Display) : t :=
  mk (targetDate c) (startDate c) (interval c) (scheduled c) (nextHandle c) d.

(** [clearInterval(handle)]: nothing happens for [null]. *)
Definition clearInterval (c : t) (handle : option nat) : t :=
  match handle with
  | Some id =>
      mk (targetDate c) (startDate c) (interval c) (scheduled c ∖ {[id]})
         (nextHandle c) (display c)
  | None => c
  end.

Definition displayCompleted (c : t) : t :=
  with_display c (mkDisplay 0 0 0 0 100%Q TestDay).

(** [updateProgress(now)], given the four counters of the same update. With
    [totalTime = 0] the quotient is not a finite number and the call leaves
    the model. *)
Definition updateProgress (c : t) (now : Z) (d h m s : Z) : Outcome t :=
  let totalTime := targetDate c - startDate c in
  let elapsed := now - startDate c in
  if totalTime =? 0 then Unmodelled
  else
    let percentage :=
      Qmin (inject_Z elapsed / inject_Z totalTime * 100)%Q 100%Q in
    let daysTotal := totalTime / (1000 * 60 * 60 * 24) in
    let daysElapsed := elapsed / (1000 * 60 * 60 * 24) in
    let daysRemaining := daysTotal - daysElapsed in
    Return (with_display c
              (mkDisplay d h m s percentage
                         (StudyPeriod daysElapsed daysRemaining percentage))).

Definition update (c : t) (now : Z) : Outcome t :=
  let timeDiff := targetDate c - now in
  (* Check if countdown has ended *)
  if timeDiff <=? 0
  then Return (clearInterval (displayCompleted c) (interval c))
  else
    (* Calculate time units *)
    let days := timeDiff / (1000 * 60 * 60 * 24) in
    let hours := Z.rem timeDiff (1000 * 60 * 60 * 24) / (1000 * 60 * 60) in
    let minutes := Z.rem timeDiff (1000 * 60 * 60) / (1000 * 60) in
    let seconds := Z.rem timeDiff (1000 * 60) / 1000 in
    updateProgress c now days hours minutes seconds.

(** [init(lsatDate)], for a date string that parses to the time value
    [lsatDate]: the first [update] and the interval. *)
Definition init (c : t) (lsatDate : Z) (now : Z) : Outcome t :=
  let c := mk lsatDate now (interval c) (scheduled c) (nextHandle c) (display c) in
  c ← update c now;
  Return (mk (targetDate c) (startDate c) (Some (nextHandle c))
             (scheduled c ∪ {[nextHandle c]}) (S (nextHandle c)) (display c)).

(** [getDaysUntil()] *)
Definition getDaysUntil (c : t) (now : Z) : Z :=
  let timeDiff := targetDate c - now in
  Timer.ceil_div timeDiff (1000 * 60 * 60 * 24).

Definition stop (c : t) : t :=
  match interval c with
  | Some id =>
      let c := clearInterval c (Some id) in
      mk (targetDate c) (startDate c) None (scheduled c) (nextHandle c) (display c)
  | None => c
  end.

Definition restart (c : t) (newDate : Z) (now : Z) : Outcome t :=
  init (stop c) newDate now.

(** The object before [init]: no dates, no interval. *)
Definition initial : t :=
  mk 0 0 None ∅ 0%nat (mkDisplay 0 0 0 0 0%Q TestDay).

End Countdown.

(** ** Questions (js/questions.js): the day's question *)

Module Questions.

(** [new Date(2024, 0, 1)]: local midnight of January 1, 2024, day 19723.
    [offsetJan1] is the offset from UTC the zone of the browser had on that
    day; under daylight-saving time it is not the offset of today. *)
Definition epochStart (offsetJan1 : Z) : Z :=
  new_Date offsetJan1 (DateString 19723).

(** [getDailyQuestionIndex()] for [length] questions; [None] is [NaN], the
    remainder by 0. *)
Definition getDailyQuestionIndex (h : Host) (offsetJan1 : Z) (length : Z)
  : option Z :=
  let today := clock h in
  let daysSinceEpoch := (today - epochStart offsetJan1) / (1000 * 60 * 60 * 24) in
  if length =? 0 then None
  else Some (Z.rem daysSinceEpoch length).

(** [getQuestionDate(index)]: today moved by whole days; [None] is an
    invalid date. *)
Definition getQuestionDate (h : Host) (offsetJan1 : Z) (length : Z) (index : Z)
  : option Z :=
  match getDailyQuestionIndex h offsetJan1 length with
  | Some todayIndex =>
      let daysDifference := index - todayIndex in
      Some (clock h + daysDifference * msPerDay)
  | None => None
  end.

Inductive DateLabel : Type :=
| Today
| Yesterday
| Tomorrow
| LocaleDate (day : Z).    (* "Jan 1, 2024", the local day of the date *)

(** [formatDate(date)] *)
Definition formatDate (h : Host) (date : Z) : DateLabel :=
  let today := clock h in
  let yesterday := today - msPerDay in
  let tomorrow := today + msPerDay in
  let day := toDateString (utcOffset h) in
  if day date =? day today then Today
  else if day date =? day yesterday then Yesterday
  else if day date =? day tomorrow then Tomorrow
  else LocaleDate (day date).

End Questions.

(** ** App: the listener of [streakMilestone] *)

Module App.

(** The table [messages] of [handleStreakMilestone]. *)
Definition messages (streak : Z) : option string :=
  if streak =? 3 then Some "Amazing! You've built a 3-day streak! 🎉"%string
  else if streak =? 7
  then Some "Incredible! One week of consistent studying! 🔥"%string
  else if streak =? 14
  then Some "Two weeks strong! Your dedication is inspiring! 💪"%string
  else if streak =? 30 then Some "WOW! 30 days! You're unstoppable! 🌟"%string
  else if streak =? 50
  then Some "FIFTY DAYS! That's extraordinary commitment! 🏆"%string
  else if streak =? 100
  then Some "ONE HUNDRED DAYS!!! You're a studying legend! 👑"%string
  else None.

(** [handleStreakMilestone(detail)]: the message it logs, if any. *)
Definition handleStreakMilestone (e : Event) : option string :=
  match e with
  | streakMilestone streak => messages streak
  | _ => None
  end.

End App.

(** * Definitions used to state the properties *)

(** The store a [Storage.set] leaves: the item is written when the store
    accepts the write, and nothing changes otherwise. *)
Definition written (ls : LocalStorage) (key : string) (v : Value) : LocalStorage :=
  if accessDenied ls || quotaExceeded ls then ls
  else mkLocalStorage (<[key := Json v]> (items ls))
                      (accessDenied ls) (quotaExceeded ls).

(** A store that works: reads and writes are accepted. *)
Definition operational (ls : LocalStorage) : Prop :=
  accessDenied ls = false /\ quotaExceeded ls = false.

(** An empty store that works, and a browser holding it. *)
Definition emptyStorage : LocalStorage := mkLocalStorage ∅ false false.

Definition freshHost (now offset : Z) : Host := mkHost now offset emptyStorage [].

(** A store whose timer key holds a text that is not JSON, and a store that
    refuses every write. *)
Definition corruptStorage : LocalStorage :=
  mkLocalStorage {[ Storage.KEYS.TIMER_DATA := NotJson "{oops"%string ]} false false.

Definition fullStorage : LocalStorage := mkLocalStorage ∅ false true.

(** *** Streak *)

(** The browser after [saveStreak]. *)
Definition saved (s : Streak.t) : Host :=
  with_localStorage (Streak.host s)
    (written (localStorage (Streak.host s)) Storage.KEYS.STREAK_DATA
             (VStreak (Streak.data s))).

(** The three counters of a streak record. *)
Definition counters (s : Streak.t) : Z * Z * Z :=
  (currentStreak (Streak.data s), longestStreak (Streak.data s),
   totalDays (Streak.data s)).

(** A first visit at [t0] with nothing stored, then [checkStreak] again at
    [t1] and at [t3]: the counters after each of the three calls. *)
Definition three_visits (offset t0 t1 t3 : Z)
  : Outcome ((Z * Z * Z) * (Z * Z * Z) * (Z * Z * Z)) :=
  let h := freshHost t0 offset in
  s0 ← Streak.checkStreak (Streak.mk (Storage.defaultStreakData h) h);
  s1 ← Streak.checkStreak_at t1 s0;
  s3 ← Streak.checkStreak_at t3 s1;
  Return (counters s0, counters s1, counters s3).

(** Local midnight and local noon of a calendar day. *)
Definition midnight (offset day : Z) : Z := day * msPerDay - offset.
Definition noon (offset day : Z) : Z := midnight offset day + 12 * 60 * 60 * 1000.

(** The events a change of [currentStreak] from [old] to [new] calls for: one
    [streakMilestone] when the streak moved to 3, 7, 14, 30, 50 or 100, none
    otherwise. *)
Definition milestone_events (old new : Z) : list Event :=
  if negb (new =? old)
     && ((new =? 3) || (new =? 7) || (new =? 14)
         || (new =? 30) || (new =? 50) || (new =? 100))
  then [streakMilestone new]
  else [].

(** A record of a two-day streak whose last visit was at 00:00 UTC of day 1,
    and the browser at 12:00 UTC of day 2 whose store holds it: a store that
    takes writes, or one that has since filled up and refuses them. *)
Definition twoDayStreak : StreakData :=
  mkStreakData 2 2 2 (Some (midnight 0 1)) (midnight 0 0).

Definition thirdDay (full : bool) : Host :=
  mkHost (noon 0 2) 0
    (mkLocalStorage {[ Storage.KEYS.STREAK_DATA := Json (VStreak twoDayStreak) ]}
                    false full)
    [].

(** Records obtained from the default record by the three updates, applied in
    any order and at any time. *)
Inductive updated : Streak.t -> Prop :=
| updated_default h : updated (Streak.mk (Storage.defaultStreakData h) h)
| updated_later s h : updated s -> updated (Streak.mk (Streak.data s) h)
| updated_start s s' :
    updated s -> Streak.startStreak s = Return s' -> updated s'
| updated_increment s s' :
    updated s -> Streak.incrementStreak s = Return s' -> updated s'
| updated_reset s s' :
    updated s -> Streak.resetStreak s = Return s' -> updated s'.

(** The same, with [resetStreak] applied only to a record that holds a
    visit ([lastVisit] is set). *)
Inductive updated_visited : Streak.t -> Prop :=
| visited_default h : updated_visited (Streak.mk (Storage.defaultStreakData h) h)
| visited_later s h : updated_visited s -> updated_visited (Streak.mk (Streak.data s) h)
| visited_start s s' :
    updated_visited s -> Streak.startStreak s = Return s' -> updated_visited s'
| visited_increment s s' :
    updated_visited s -> Streak.incrementStreak s = Return s' -> updated_visited s'
| visited_reset s s' :
    updated_visited s -> lastVisit (Streak.data s) <> None ->
    Streak.resetStreak s = Return s' -> updated_visited s'.

(** Records obtained from the default record by [checkStreak], which selects
    the update; between two calls the browser (clock, store) may change. *)
Inductive reconciled : Streak.t -> Prop :=
| reconciled_default h : reconciled (Streak.mk (Storage.defaultStreakData h) h)
| reconciled_later s h : reconciled s -> reconciled (Streak.mk (Streak.data s) h)
| reconciled_check s s' :
    reconciled s -> Streak.checkStreak s = Return s' -> reconciled s'.

(** What [checkStreak] maintains. *)
Definition streak_inv (d : StreakData) : Prop :=
  currentStreak d <= longestStreak d /\
  (lastVisit d <> None -> 1 <= longestStreak d).

(** The record after a first visit at noon of day 0, in UTC. *)
Definition visitedOnce : Streak.t :=
  Streak.mk (mkStreakData 1 1 1 (Some (noon 0 0)) (noon 0 0))
            (saved (Streak.mk (mkStreakData 1 1 1 (Some (noon 0 0)) (noon 0 0))
                              (freshHost (noon 0 0) 0))).

(** *** Timer *)

(** [tick()] at each of the given instants, in turn. *)
Fixpoint tick_each (instants : list Z) (x : Timer.t) : Outcome Timer.t :=
  match instants with
  | [] => Return x
  | now :: rest =>
      x ← Timer.tick (Timer.at_time now x);
      tick_each rest x
  end.

(** [start()] now; ticks at [earlier] and then at [last]; [pause()] at
    [paused]; no tick until [start()] again at [resumed]; a [tick()] [e]
    milliseconds after that. *)
Definition pause_resume (x : Timer.t) (earlier : list Z)
  (last paused resumed e : Z) : Outcome Timer.t :=
  let x := Timer.start x in
  x ← tick_each (earlier ++ [last]) x;
  let x := Timer.pause (Timer.at_time paused x) in
  let x := Timer.start (Timer.at_time resumed x) in
  Timer.tick (Timer.at_time (resumed + e) x).

(** The timer as [init] leaves it in a browser with nothing stored. *)
Definition idleTimer (now : Z) : Timer.t :=
  Timer.mk Timer.initialState Timer.initialDurations (Some 0) (freshHost now 0).

(** [sessionsToday] after a session that ends on the day [today]. *)
Definition next_sessionsToday (d : TimerData) (today : Z) : Z :=
  (if decide (lastSession d = Some today) then sessionsToday d else 0) + 1.

(** The statistics [getTimerData] finds in the store. *)
Definition stats (h : Host) (d : TimerData) : Prop :=
  Storage.getTimerData h = Return (VTimer d).

(** [start()] when the clock reads 0, and a [tick()] when it reads 1500000. *)
Definition work_session (x : Timer.t) : Outcome Timer.t :=
  Timer.tick (Timer.at_time 1500000 (Timer.start (Timer.at_time 0 x))).

(** Statistics left by three sessions on the day before day 0, and an idle
    25-minute work timer in a browser that holds them. *)
Definition staleStats : TimerData := mkTimerData 3 7 75%Q (Some (-1)).

Definition staleTimer : Timer.t :=
  Timer.mk Timer.initialState Timer.initialDurations (Some 3)
    (mkHost 0 0
       (mkLocalStorage {[ Storage.KEYS.TIMER_DATA := Json (VTimer staleStats) ]}
                       false false)
       []).

(** A paused work timer with five seconds left: started at 0 with 1500
    seconds, ticked at 1495000, paused. *)
Definition fiveSecondsLeft : Timer.t :=
  Timer.mk (Timer.mkState false true Work 5 false (Some 0) 0 (Some 1500000))
           Timer.initialDurations (Some 0) (freshHost 1495000 0).

(** A break that runs, two minutes into its five, in the browser of
    [staleTimer]: [staleTimer] switched to break mode, started at 0 and
    ticked at 180000. *)
Definition runningBreak : Timer.t :=
  Timer.mk (Timer.mkState true false Break 120 true (Some 0) 0 (Some 300000))
           Timer.initialDurations (Some 3)
           (at_time 180000 (Timer.host staleTimer)).

(** *** Further statements *)

(** [incrementSession()] at each of the given instants, in turn. *)
Fixpoint incrementSession_each (instants : list Z) (h : Host) : Outcome Host :=
  match instants with
  | [] => Return h
  | now :: rest =>
      h ← Storage.incrementSession (at_time now h);
      incrementSession_each rest h
  end.

(** The order of the three counters of a streak record, and what a visit
    leaves. *)
Definition streak_order (d : StreakData) : Prop :=
  0 <= currentStreak d /\
  currentStreak d <= longestStreak d /\
  longestStreak d <= totalDays d /\
  (lastVisit d <> None -> 1 <= currentStreak d) /\
  (lastVisit d = None -> totalDays d = 0).

(** The number of calendar days from the day of [iso] to today. *)
Definition calendar_days (h : Host) (iso : Z) : Z :=
  Storage.getTodayString h - toDateString (utcOffset h) iso.

(** [new Date(today)] for the date string of today: the local midnight
    that starts today. *)
Definition todayMidnight (h : Host) : Z :=
  new_Date (utcOffset h) (DateString (Storage.getTodayString h)).

(** Whether [iso] is a local midnight, to the millisecond. *)
Definition at_midnight (h : Host) (iso : Z) : bool :=
  (iso + utcOffset h) mod msPerDay =? 0.

(** A record of a seven-day streak whose last visit was at 23:00 UTC of
    day 9, seen at 09:00 UTC of day 10 and of day 11, on an empty store. *)
Definition weekStreak : StreakData :=
  mkStreakData 6 6 6 (Some (midnight 0 9 + 82800000)) 0.

Definition nextMorning : Streak.t :=
  Streak.mk weekStreak (freshHost (midnight 0 10 + 32400000) 0).

Definition secondMorning : Streak.t :=
  Streak.mk weekStreak (freshHost (midnight 0 11 + 32400000) 0).

(** Timers obtained from [Timer.init] by the buttons ([start], [pause],
    [reset]), the mode selector, the settings form and the ticks; between
    two calls the browser (clock, store) may change. *)
Inductive operated : Timer.t -> Prop :=
| operated_init h x : Timer.init h = Return x -> operated x
| operated_later x h : operated x -> operated (Timer.with_host x h)
| operated_start x : operated x -> operated (Timer.start x)
| operated_pause x : operated x -> operated (Timer.pause x)
| operated_reset x : operated x -> operated (Timer.reset x)
| operated_changeMode x m : operated x -> operated (Timer.changeMode x m)
| operated_applySettings x w b :
    operated x -> operated (Timer.applySettings x w b)
| operated_tick x x' :
    operated x -> Timer.isRunning (Timer.state x) = true ->
    Timer.tick x = Return x' -> operated x'.

(** What the operations of the timer maintain. *)
Definition timer_inv (x : Timer.t) : Prop :=
  let st := Timer.state x in
  (Timer.isRunning st = true -> Timer.isPaused st = false) /\
  Timer.interval st = Timer.isRunning st /\
  (Timer.isRunning st = true \/ Timer.isPaused st = true ->
   Timer.endTime st <> None) /\
  0 <= Timer.timeRemaining st /\
  0 < Timer.work (Timer.durations x) /\
  0 < Timer.break (Timer.durations x).

(** A work session run to its end, then the break started at [resumed] and
    run to its end. *)
Definition pomodoro_cycle (x : Timer.t) (resumed : Z) : Outcome Timer.t :=
  let x := Timer.start x in
  let workEnd := clock (Timer.host x) + Timer.timeRemaining (Timer.state x) * 1000 in
  x ← Timer.tick (Timer.at_time workEnd x);
  let x := Timer.start (Timer.at_time resumed x) in
  let breakEnd := resumed + Timer.timeRemaining (Timer.state x) * 1000 in
  Timer.tick (Timer.at_time breakEnd x).

(** The time left that the four counters of a display stand for, in
    milliseconds, the part of a second they drop not counted. *)
Definition shown_time (d : Countdown.Display) : Z :=
  Countdown.days d * msPerDay + Countdown.hours d * 3600000
  + Countdown.minutes d * 60000 + Countdown.seconds d * 1000.

(** A countdown whose only interval still scheduled, if any, is the one it
    holds, with handles below the next one to be given out. *)
Definition tidy (c : Countdown.t) : Prop :=
  (forall id, id ∈ Countdown.scheduled c -> Countdown.interval c = Some id) /\
  (forall id, Countdown.interval c = Some id -> (id < Countdown.nextHandle c)%nat).

(** 00:30 of July 1, 2024 (day 19905) in New York: daylight-saving time,
    four hours behind UTC, five hours behind on January 1. *)
Definition newYorkJuly : Host :=
  freshHost (midnight (-14400000) 19905 + 1800000) (-14400000).

(** A countdown to an instant ninety days and a half after its start at 0. *)
Definition ninetyDays : Z := 90 * msPerDay + 12 * 3600000.

(** * Properties *)

(** ** Storage *)

Lemma get_getItem_throws ls key d e :
  getItem ls key = Throw e -> Storage.get ls key d = Return d.
Proof. intros H. unfold Storage.get. rewrite H. reflexivity. Qed.

Lemma get_missing ls key d :
  getItem ls key = Return None -> Storage.get ls key d = Return d.
Proof. intros H. unfold Storage.get. rewrite H. reflexivity. Qed.

Lemma get_unparsable ls key d item e :
  getItem ls key = Return (Some item) -> JSON_parse item = Throw e ->
  Storage.get ls key d = Return d.
Proof.
  intros H Hp. unfold Storage.get. rewrite H. cbn.
  destruct item as [v | text]; [discriminate |].
  destruct text; reflexivity.
Qed.

Lemma get_parsed ls key d v :
  getItem ls key = Return (Some (Json v)) -> Storage.get ls key d = Return v.
Proof. intros H. unfold Storage.get. rewrite H. reflexivity. Qed.

Lemma get_returns ls key d : exists v, Storage.get ls key d = Return v.
Proof.
  unfold Storage.get, getItem. destruct (accessDenied ls); cbn; [eauto |].
  destruct (items ls !! key) as [[v | text] |]; cbn; eauto.
  destruct text; cbn; eauto.
Qed.

Lemma set_written ls key v :
  Storage.set ls key v
  = Return (negb (accessDenied ls || quotaExceeded ls), written ls key v).
Proof.
  unfold Storage.set, setItem, written.
  destruct (accessDenied ls), (quotaExceeded ls); reflexivity.
Qed.

Lemma set_setItem_throws ls key v e :
  setItem ls key (JSON_stringify v) = Throw e ->
  Storage.set ls key v = Return (false, ls).
Proof. intros H. unfold Storage.set. rewrite H. reflexivity. Qed.

Lemma set_setItem_returns ls key v ls' :
  setItem ls key (JSON_stringify v) = Return ls' ->
  Storage.set ls key v = Return (true, ls').
Proof. intros H. unfold Storage.set. rewrite H. reflexivity. Qed.

Lemma get_operational ls key d :
  operational ls ->
  Storage.get ls key d
  = Return (match items ls !! key with
            | Some (Json v) => v
            | _ => d
            end).
Proof.
  intros [Hread _]. unfold Storage.get, getItem. rewrite Hread. cbn.
  destruct (items ls !! key) as [[v | text] |]; [reflexivity | | reflexivity].
  destruct text; reflexivity.
Qed.

Lemma written_operational ls key v :
  operational ls ->
  written ls key v
  = mkLocalStorage (<[key := Json v]> (items ls)) false false.
Proof. intros [Hread Hwrite]. unfold written. rewrite Hread, Hwrite. reflexivity. Qed.

Lemma operational_written ls key v :
  operational ls -> operational (written ls key v).
Proof. intros H. rewrite (written_operational ls key v H). split; reflexivity. Qed.

(** C9. A read that fails (the store throws, the key is missing, or the
    stored text does not deserialize) returns the caller's default and no
    exception leaves [get]; a write that fails returns [false], leaves the
    store as it was, and no exception leaves [set]; a write that succeeds
    returns [true]. *)
Theorem storage_fails_soft (ls : LocalStorage) (key : string) (d v : Value) :
  (forall e, getItem ls key = Throw e -> Storage.get ls key d = Return d) /\
  (getItem ls key = Return None -> Storage.get ls key d = Return d) /\
  (forall item e, getItem ls key = Return (Some item) ->
                  JSON_parse item = Throw e -> Storage.get ls key d = Return d) /\
  (exists r, Storage.get ls key d = Return r) /\
  (forall e, setItem ls key (JSON_stringify v) = Throw e ->
             Storage.set ls key v = Return (false, ls)) /\
  (forall ls', setItem ls key (JSON_stringify v) = Return ls' ->
               Storage.set ls key v = Return (true, ls')) /\
  (exists ok ls', Storage.set ls key v = Return (ok, ls')).
Proof.
  repeat split.
  - intros e. apply get_getItem_throws.
  - apply get_missing.
  - intros item e. apply get_unparsable.
  - apply get_returns.
  - intros e. apply set_setItem_throws.
  - intros ls'. apply set_setItem_returns.
  - rewrite set_written. eauto.
Qed.

Lemma storage_fails_soft_witness :
  Storage.get corruptStorage Storage.KEYS.TIMER_DATA VNull = Return VNull /\
  Storage.get emptyStorage Storage.KEYS.TIMER_DATA VNull = Return VNull /\
  Storage.set fullStorage Storage.KEYS.TIMER_DATA (VString "x"%string)
  = Return (false, fullStorage) /\
  Storage.set emptyStorage Storage.KEYS.TIMER_DATA (VString "x"%string)
  = Return (true, written emptyStorage Storage.KEYS.TIMER_DATA (VString "x"%string)).
Proof.
  split; [| split; [| split]].
  - pose proof (storage_fails_soft corruptStorage Storage.KEYS.TIMER_DATA
                  VNull VNull) as (_ & _ & H & _).
    apply (H (NotJson "{oops"%string) SyntaxError); reflexivity.
  - pose proof (storage_fails_soft emptyStorage Storage.KEYS.TIMER_DATA
                  VNull VNull) as (_ & H & _).
    apply H. reflexivity.
  - pose proof (storage_fails_soft fullStorage Storage.KEYS.TIMER_DATA
                  VNull (VString "x"%string)) as (_ & _ & _ & _ & H & _).
    apply (H QuotaExceededError). reflexivity.
  - pose proof (storage_fails_soft emptyStorage Storage.KEYS.TIMER_DATA
                  VNull (VString "x"%string)) as (_ & _ & _ & _ & _ & H & _).
    apply H. reflexivity.
Defined.

(** ** Streak *)

Lemma saveStreak_eq s :
  Streak.saveStreak s = Return (Streak.mk (Streak.data s) (saved s)).
Proof.
  unfold Streak.saveStreak, Storage.setStreakData, saved.
  rewrite set_written. reflexivity.
Qed.

Lemma saved_dispatched s : dispatched (saved s) = dispatched (Streak.host s).
Proof. reflexivity. Qed.

Lemma startStreak_eq s :
  let d := mkStreakData 1 (Z.max 1 (longestStreak (Streak.data s))) 1
                        (Some (clock (Streak.host s)))
                        (startDate (Streak.data s)) in
  Streak.startStreak s
  = Return (Streak.mk d (saved (Streak.mk d (Streak.host s)))).
Proof. unfold Streak.startStreak. rewrite saveStreak_eq. reflexivity. Qed.

Lemma incrementStreak_eq s :
  let d := mkStreakData (currentStreak (Streak.data s) + 1)
                        (Z.max (longestStreak (Streak.data s))
                               (currentStreak (Streak.data s) + 1))
                        (totalDays (Streak.data s) + 1)
                        (Some (clock (Streak.host s)))
                        (startDate (Streak.data s)) in
  Streak.incrementStreak s
  = Return (Streak.celebrateMilestone
              (Streak.mk d (saved (Streak.mk d (Streak.host s))))
              (currentStreak (Streak.data s) + 1)).
Proof.
  unfold Streak.incrementStreak. rewrite saveStreak_eq.
  destruct s as [[c l n v sd] h]; cbn.
  destruct (c + 1 >? l) eqn:E; cbn.
  - rewrite Z.max_r by lia. reflexivity.
  - rewrite Z.max_l by lia. reflexivity.
Qed.

Lemma resetStreak_eq s :
  let d := mkStreakData 1 (longestStreak (Streak.data s))
                        (totalDays (Streak.data s) + 1)
                        (Some (clock (Streak.host s)))
                        (startDate (Streak.data s)) in
  Streak.resetStreak s
  = Return (Streak.mk d (saved (Streak.mk d (Streak.host s)))).
Proof. unfold Streak.resetStreak. rewrite saveStreak_eq. reflexivity. Qed.

Lemma celebrateMilestone_data s n :
  Streak.data (Streak.celebrateMilestone s n) = Streak.data s.
Proof. unfold Streak.celebrateMilestone. destruct (existsb _ _); reflexivity. Qed.

Lemma celebrateMilestone_dispatched s n :
  dispatched (Streak.host (Streak.celebrateMilestone s n))
  = dispatched (Streak.host s)
    ++ (if existsb (Z.eqb n) Streak.milestones then [streakMilestone n] else []).
Proof.
  unfold Streak.celebrateMilestone. destruct (existsb _ _); cbn.
  - reflexivity.
  - symmetry. apply app_nil_r.
Qed.

(** [checkStreak] always returns. *)
Lemma checkStreak_returns s : exists s', Streak.checkStreak s = Return s'.
Proof.
  unfold Streak.checkStreak.
  destruct (lastVisit (Streak.data s)) as [iso |].
  - destruct (Storage.isToday _ _); [eauto |].
    destruct (_ =? 1); [rewrite incrementStreak_eq; eauto |].
    destruct (_ >? 1); [rewrite resetStreak_eq; eauto | eauto].
  - rewrite startStreak_eq. eauto.
Qed.

Lemma isToday_same_day h iso :
  toDateString (utcOffset h) iso = toDateString (utcOffset h) (clock h) ->
  Storage.isToday h (Some iso) = true.
Proof.
  intros Hday. unfold Storage.isToday, Storage.getTodayString, new_Date.
  rewrite Hday. apply Z.eqb_refl.
Qed.

(** The second branch of [checkStreak]: already visited today. *)
Lemma checkStreak_visited_today s :
  Storage.isToday (Streak.host s) (lastVisit (Streak.data s)) = true ->
  Streak.checkStreak s = Return s.
Proof.
  intros Htoday. unfold Streak.checkStreak.
  destruct (lastVisit (Streak.data s)) as [iso |]; [| discriminate Htoday].
  rewrite Htoday. reflexivity.
Qed.

(** C5. When [lastVisit] falls on the calendar day of the call, [checkStreak]
    changes nothing: the record, the store and the event log are as before. *)
Theorem checkStreak_same_day (s : Streak.t) (iso : Z) :
  lastVisit (Streak.data s) = Some iso ->
  toDateString (utcOffset (Streak.host s)) iso
  = toDateString (utcOffset (Streak.host s)) (clock (Streak.host s)) ->
  Streak.checkStreak s = Return s.
Proof.
  intros Hv Hday. apply checkStreak_visited_today.
  rewrite Hv. apply isToday_same_day. exact Hday.
Qed.

Lemma checkStreak_same_day_witness :
  Streak.checkStreak_at (noon 0 0 + 3600000) visitedOnce
  = Return (Streak.mk (Streak.data visitedOnce)
                      (at_time (noon 0 0 + 3600000) (Streak.host visitedOnce))).
Proof.
  apply (checkStreak_same_day
           (Streak.mk (Streak.data visitedOnce)
                      (at_time (noon 0 0 + 3600000) (Streak.host visitedOnce)))
           (noon 0 0)); reflexivity.
Defined.

(** Two calls on one calendar day: whatever the first did, the second changes
    nothing. *)
Lemma checkStreak_twice_same_day (s s1 : Streak.t) (now : Z) :
  Streak.checkStreak s = Return s1 ->
  toDateString (utcOffset (Streak.host s)) now
  = toDateString (utcOffset (Streak.host s)) (clock (Streak.host s)) ->
  Streak.checkStreak_at now s1
  = Return (Streak.mk (Streak.data s1) (at_time now (Streak.host s1))).
Proof.
  intros Hfirst Hday. unfold Streak.checkStreak_at.
  assert (forall d h,
            lastVisit d = Some (clock (Streak.host s)) ->
            utcOffset h = utcOffset (Streak.host s) ->
            Streak.checkStreak (Streak.mk d (at_time now h))
            = Return (Streak.mk d (at_time now h))) as Hfresh.
  { intros d h Hv Hoff.
    apply checkStreak_visited_today. cbn [Streak.data Streak.host].
    rewrite Hv. apply isToday_same_day.
    cbn [at_time utcOffset clock]. rewrite Hoff. symmetry. exact Hday. }
  revert Hfirst. unfold Streak.checkStreak at 1.
  destruct (lastVisit (Streak.data s)) as [iso |] eqn:Hv.
  - destruct (Storage.isToday (Streak.host s) (Some iso)) eqn:Htoday.
    { intros [= <-]. apply checkStreak_visited_today.
      cbn [Streak.data Streak.host]. rewrite Hv. apply isToday_same_day.
      unfold Storage.isToday, Storage.getTodayString, new_Date in Htoday.
      apply Z.eqb_eq in Htoday. cbn [at_time utcOffset clock].
      rewrite Hday. exact Htoday. }
    destruct (_ =? 1) eqn:E1.
    { rewrite incrementStreak_eq. intros [= <-].
      rewrite celebrateMilestone_data. apply Hfresh; [reflexivity |].
      unfold Streak.celebrateMilestone. destruct (existsb _ _); reflexivity. }
    destruct (_ >? 1) eqn:E2.
    { rewrite resetStreak_eq. intros [= <-]. apply Hfresh; reflexivity. }
    intros [= <-]. unfold Streak.checkStreak. cbn [Streak.data Streak.host].
    rewrite Hv.
    replace (Storage.isToday (at_time now (Streak.host s)) (Some iso)) with false.
    2:{ rewrite <- Htoday. unfold Storage.isToday, Storage.getTodayString.
        cbn [at_time utcOffset clock]. rewrite Hday. reflexivity. }
    replace (Storage.getTodayString (at_time now (Streak.host s)))
      with (Storage.getTodayString (Streak.host s))
      by (unfold Storage.getTodayString; cbn [at_time utcOffset clock];
          symmetry; exact Hday).
    change (Storage.getDaysBetween (at_time now (Streak.host s)))
      with (Storage.getDaysBetween (Streak.host s)).
    rewrite E1, E2. reflexivity.
  - rewrite startStreak_eq. intros [= <-]. apply Hfresh; reflexivity.
Qed.

Lemma milestones_listed n :
  existsb (Z.eqb n) Streak.milestones
  = (n =? 3) || (n =? 7) || (n =? 14) || (n =? 30) || (n =? 50) || (n =? 100).
Proof.
  unfold Streak.milestones. cbn [existsb].
  destruct (n =? 3), (n =? 7), (n =? 14), (n =? 30), (n =? 50), (n =? 100);
    reflexivity.
Qed.

Lemma milestone_events_same c : milestone_events c c = [].
Proof. unfold milestone_events. rewrite Z.eqb_refl. reflexivity. Qed.

Lemma milestone_events_one c : milestone_events c 1 = [].
Proof. unfold milestone_events. cbn. rewrite andb_false_r. reflexivity. Qed.

Lemma milestone_events_succ c :
  milestone_events c (c + 1)
  = if existsb (Z.eqb (c + 1)) Streak.milestones
    then [streakMilestone (c + 1)] else [].
Proof.
  rewrite milestones_listed. unfold milestone_events.
  replace (c + 1 =? c) with false by (symmetry; apply Z.eqb_neq; lia).
  reflexivity.
Qed.

(** What [loadStreak] reads from a store that holds a streak record, and
    what it must have read when the record it returns holds a visit. *)
Lemma loadStreak_stored h d :
  accessDenied (localStorage h) = false ->
  items (localStorage h) !! Storage.KEYS.STREAK_DATA = Some (Json (VStreak d)) ->
  Streak.loadStreak h = Return (Streak.mk d h).
Proof.
  intros Hread Hitem.
  unfold Streak.loadStreak, Storage.getStreakData, Storage.get, getItem.
  rewrite Hread. cbn. rewrite Hitem. reflexivity.
Qed.

Lemma loadStreak_visited h s :
  Streak.loadStreak h = Return s ->
  lastVisit (Streak.data s) <> None ->
  accessDenied (localStorage h) = false /\
  items (localStorage h) !! Storage.KEYS.STREAK_DATA
  = Some (Json (VStreak (Streak.data s))) /\
  Streak.host s = h.
Proof.
  unfold Streak.loadStreak, Storage.getStreakData, Storage.get, getItem.
  destruct (accessDenied (localStorage h)); cbn.
  { intros [= <-] Hv. exfalso. apply Hv. reflexivity. }
  destruct (items (localStorage h) !! Storage.KEYS.STREAK_DATA)
    as [[v | text] |]; cbn.
  - destruct v as [| str | d | d]; cbn; try discriminate.
    intros [= <-] _. repeat split; reflexivity.
  - destruct text; cbn; intros [= <-] Hv; exfalso; apply Hv; reflexivity.
  - intros [= <-] Hv. exfalso. apply Hv. reflexivity.
Qed.

(** [checkStreak] either changes nothing, on a record that holds a visit, or
    hands the record it leaves to [saveStreak]. *)
Lemma checkStreak_stored s s' :
  Streak.checkStreak s = Return s' ->
  (s' = s /\ lastVisit (Streak.data s) <> None) \/
  localStorage (Streak.host s')
  = written (localStorage (Streak.host s)) Storage.KEYS.STREAK_DATA
            (VStreak (Streak.data s')).
Proof.
  unfold Streak.checkStreak.
  destruct (lastVisit (Streak.data s)) as [iso |] eqn:Hv.
  - assert (lastVisit (Streak.data s) <> None) as Hset by congruence.
    destruct (Storage.isToday _ _); [intros [= <-]; left; auto |].
    destruct (_ =? 1).
    { rewrite incrementStreak_eq. intros [= <-]. right.
      unfold Streak.celebrateMilestone. destruct (existsb _ _); reflexivity. }
    destruct (_ >? 1).
    { rewrite resetStreak_eq. intros [= <-]. right. reflexivity. }
    intros [= <-]; left; auto.
  - rewrite startStreak_eq. intros [= <-]. right. reflexivity.
Qed.

(** [checkStreak] leaves a record that holds a visit. *)
Lemma checkStreak_visited s s' :
  Streak.checkStreak s = Return s' -> lastVisit (Streak.data s') <> None.
Proof.
  unfold Streak.checkStreak.
  destruct (lastVisit (Streak.data s)) as [iso |] eqn:Hv.
  - assert (lastVisit (Streak.data s) <> None) as Hset by congruence.
    destruct (Storage.isToday _ _); [intros [= <-]; exact Hset |].
    destruct (_ =? 1).
    { rewrite incrementStreak_eq. intros [= <-].
      rewrite celebrateMilestone_data. discriminate. }
    destruct (_ >? 1); [rewrite resetStreak_eq; intros [= <-]; discriminate |].
    intros [= <-]; exact Hset.
  - rewrite startStreak_eq. intros [= <-]. discriminate.
Qed.

(** When the store holds the record a reconciliation left, loading and
    reconciling again on the same calendar day changes nothing. *)
Lemma init_after_checkStreak s s' now :
  Streak.checkStreak s = Return s' ->
  Streak.loadStreak (Streak.host s') = Return s' ->
  toDateString (utcOffset (Streak.host s)) now
  = toDateString (utcOffset (Streak.host s)) (clock (Streak.host s)) ->
  Streak.init (at_time now (Streak.host s'))
  = Return (Streak.mk (Streak.data s') (at_time now (Streak.host s'))).
Proof.
  intros Hrun Hload Hday.
  destruct (loadStreak_visited _ s' Hload (checkStreak_visited s s' Hrun))
    as (Hread & Hitem & _).
  unfold Streak.init.
  rewrite (loadStreak_stored (at_time now (Streak.host s')) (Streak.data s'))
    by assumption.
  cbn [mbind Outcome_bind].
  exact (checkStreak_twice_same_day s s' now Hrun Hday).
Qed.

(** The store holds the record a reconciliation left when it accepts writes
    and the record was changed, or was the stored one. *)
Lemma checkStreak_kept s s' :
  Streak.checkStreak s = Return s' ->
  operational (localStorage (Streak.host s)) ->
  Streak.data s' <> Streak.data s \/ Streak.loadStreak (Streak.host s) = Return s ->
  Streak.loadStreak (Streak.host s') = Return s'.
Proof.
  intros Hrun Hop Hcase.
  destruct (checkStreak_stored s s' Hrun) as [[-> Hv] | Hst].
  - destruct Hcase as [Hne | Hload]; [contradiction | exact Hload].
  - destruct s' as [d' h']. cbn [Streak.data Streak.host] in *.
    apply loadStreak_stored; rewrite Hst;
      rewrite written_operational by exact Hop; cbn [accessDenied items].
    + reflexivity.
    + apply lookup_insert_eq.
Qed.

(** C7, as amended. [checkStreak] publishes one [streakMilestone] event,
    carrying the new streak, exactly when it moved [currentStreak] to one of
    3, 7, 14, 30, 50, 100, and publishes nothing otherwise. A repeat on the
    calendar day of the call changes and publishes nothing: on the same
    object whatever the store does, and after a reload when the store holds
    the record the call left, which it does when it accepts writes and the
    record was changed or was the stored one. *)
Theorem checkStreak_milestone_once (s : Streak.t) :
  exists s',
    Streak.checkStreak s = Return s' /\
    dispatched (Streak.host s')
    = dispatched (Streak.host s)
      ++ milestone_events (currentStreak (Streak.data s))
                          (currentStreak (Streak.data s')) /\
    (Storage.isToday (Streak.host s) (lastVisit (Streak.data s)) = true ->
     dispatched (Streak.host s') = dispatched (Streak.host s)) /\
    (forall now,
       toDateString (utcOffset (Streak.host s)) now
       = toDateString (utcOffset (Streak.host s)) (clock (Streak.host s)) ->
       Streak.checkStreak_at now s'
       = Return (Streak.mk (Streak.data s') (at_time now (Streak.host s')))) /\
    (Streak.loadStreak (Streak.host s') = Return s' ->
     forall now,
       toDateString (utcOffset (Streak.host s)) now
       = toDateString (utcOffset (Streak.host s)) (clock (Streak.host s)) ->
       Streak.init (at_time now (Streak.host s'))
       = Return (Streak.mk (Streak.data s') (at_time now (Streak.host s')))) /\
    (operational (localStorage (Streak.host s)) ->
     Streak.data s' <> Streak.data s
     \/ Streak.loadStreak (Streak.host s) = Return s ->
     Streak.loadStreak (Streak.host s') = Return s').
Proof.
  destruct (checkStreak_returns s) as (s' & Hrun).
  exists s'. split; [exact Hrun |].
  split; [| split; [| split; [| split]]].
  - revert Hrun. unfold Streak.checkStreak.
    destruct (lastVisit (Streak.data s)) as [iso |] eqn:Hv.
    + destruct (Storage.isToday _ _).
      { intros [= <-]. rewrite milestone_events_same, app_nil_r. reflexivity. }
      destruct (_ =? 1).
      { rewrite incrementStreak_eq. intros [= <-].
        rewrite celebrateMilestone_dispatched, celebrateMilestone_data. cbn.
        rewrite milestone_events_succ. reflexivity. }
      destruct (_ >? 1).
      { rewrite resetStreak_eq. intros [= <-]. cbn.
        rewrite milestone_events_one, app_nil_r. reflexivity. }
      intros [= <-]. rewrite milestone_events_same, app_nil_r. reflexivity.
    + rewrite startStreak_eq. intros [= <-]. cbn.
      rewrite milestone_events_one, app_nil_r. reflexivity.
  - intros Htoday. rewrite (checkStreak_visited_today s Htoday) in Hrun.
    injection Hrun as <-. reflexivity.
  - intros now Hday. exact (checkStreak_twice_same_day s s' now Hrun Hday).
  - intros Hload now Hday.
    exact (init_after_checkStreak s s' now Hrun Hload Hday).
  - exact (checkStreak_kept s s' Hrun).
Qed.

Lemma checkStreak_milestone_once_witness :
  exists s',
    Streak.checkStreak (Streak.mk twoDayStreak (thirdDay false)) = Return s' /\
    counters s' = (3, 3, 3) /\
    dispatched (Streak.host s') = [streakMilestone 3] /\
    Streak.init (at_time (noon 0 2 + 3600000) (Streak.host s'))
    = Return (Streak.mk (Streak.data s')
                        (at_time (noon 0 2 + 3600000) (Streak.host s'))).
Proof.
  destruct (checkStreak_milestone_once (Streak.mk twoDayStreak (thirdDay false)))
    as (s' & Hrun & Hevents & _ & _ & Hreload & Hkept).
  assert (counters s' = (3, 3, 3)) as Hcounters.
  { vm_compute in Hrun. injection Hrun as <-. reflexivity. }
  exists s'. split; [exact Hrun |]. split; [exact Hcounters |]. split.
  - rewrite Hevents. injection Hcounters as -> _ _. reflexivity.
  - apply Hreload; [| reflexivity].
    apply Hkept; [split; reflexivity | right; reflexivity].
Defined.

(** C7, as stated, fails when the store refuses the write: the visit of day
    2 moves the streak from 2 to 3 in memory only, and a reload one hour
    later finds the record of day 1, moves the streak to 3 again and
    publishes the milestone a second time on the same calendar day. *)
Lemma milestone_republished_on_reload :
  exists s1 s2,
    Streak.init (thirdDay true) = Return s1 /\
    counters s1 = (3, 3, 3) /\
    dispatched (Streak.host s1) = [streakMilestone 3] /\
    Streak.init (at_time (noon 0 2 + 3600000) (Streak.host s1)) = Return s2 /\
    counters s2 = (3, 3, 3) /\
    dispatched (Streak.host s2) = [streakMilestone 3; streakMilestone 3].
Proof.
  eexists. eexists.
  split; [vm_compute; reflexivity |].
  split; [reflexivity |]. split; [reflexivity |].
  split; [vm_compute; reflexivity |].
  split; reflexivity.
Qed.

(** *** The invariant [longestStreak >= currentStreak] *)

Lemma startStreak_inv s s' :
  Streak.startStreak s = Return s' -> streak_inv (Streak.data s').
Proof.
  rewrite startStreak_eq. intros [= <-]. split; cbn; lia.
Qed.

Lemma incrementStreak_inv s s' :
  streak_inv (Streak.data s) -> lastVisit (Streak.data s) <> None ->
  Streak.incrementStreak s = Return s' -> streak_inv (Streak.data s').
Proof.
  intros [Hle Hone] Hv. rewrite incrementStreak_eq. intros [= <-].
  rewrite celebrateMilestone_data. specialize (Hone Hv). split; cbn; lia.
Qed.

Lemma resetStreak_inv s s' :
  streak_inv (Streak.data s) -> lastVisit (Streak.data s) <> None ->
  Streak.resetStreak s = Return s' -> streak_inv (Streak.data s').
Proof.
  intros [Hle Hone] Hv. rewrite resetStreak_eq. intros [= <-].
  specialize (Hone Hv). split; cbn; lia.
Qed.

Lemma checkStreak_inv s s' :
  streak_inv (Streak.data s) ->
  Streak.checkStreak s = Return s' -> streak_inv (Streak.data s').
Proof.
  intros Hinv. unfold Streak.checkStreak.
  destruct (lastVisit (Streak.data s)) as [iso |] eqn:Hv.
  - assert (lastVisit (Streak.data s) <> None) as Hset by congruence.
    destruct (Storage.isToday _ _); [intros [= <-]; exact Hinv |].
    destruct (_ =? 1); [apply incrementStreak_inv; assumption |].
    destruct (_ >? 1); [apply resetStreak_inv; assumption |].
    intros [= <-]; exact Hinv.
  - apply startStreak_inv.
Qed.

Lemma reconciled_inv s : reconciled s -> streak_inv (Streak.data s).
Proof.
  induction 1 as [h | s h _ IH | s s' _ IH Hrun].
  - split; cbn; [lia | congruence].
  - exact IH.
  - exact (checkStreak_inv s s' IH Hrun).
Qed.

(** What the three updates maintain when [resetStreak] comes after a
    visit. *)
Lemma updated_visited_inv s :
  updated_visited s ->
  0 <= currentStreak (Streak.data s) <= longestStreak (Streak.data s) /\
  (lastVisit (Streak.data s) <> None -> 1 <= longestStreak (Streak.data s)).
Proof.
  induction 1 as [h | s h _ IH | s s' _ IH Hrun | s s' _ IH Hrun
                  | s s' _ IH Hv Hrun].
  - cbn. split; [lia | congruence].
  - exact IH.
  - revert Hrun. rewrite startStreak_eq. intros [= <-]. cbn. lia.
  - revert Hrun. rewrite incrementStreak_eq. intros [= <-].
    rewrite celebrateMilestone_data. cbn. lia.
  - revert Hrun. rewrite resetStreak_eq. intros [= <-].
    destruct IH as [_ Hone]. specialize (Hone Hv). cbn. lia.
Qed.

(** The records [checkStreak] reaches are among them. *)
Lemma reconciled_updated_visited s : reconciled s -> updated_visited s.
Proof.
  induction 1 as [h | s h _ IH | s s' _ IH Hrun].
  - apply visited_default.
  - apply visited_later. exact IH.
  - revert Hrun. unfold Streak.checkStreak.
    destruct (lastVisit (Streak.data s)) as [iso |] eqn:Hv.
    + assert (lastVisit (Streak.data s) <> None) as Hset by congruence.
      destruct (Storage.isToday _ _); [intros [= <-]; exact IH |].
      destruct (_ =? 1); [apply visited_increment; exact IH |].
      destruct (_ >? 1); [apply visited_reset; assumption |].
      intros [= <-]; exact IH.
    + apply visited_start. exact IH.
Qed.

(** Before any visit the record holds the counters of the default record, so
    there [resetStreak] always leaves [currentStreak = 1] above
    [longestStreak = 0]: the condition on [resetStreak] cannot be dropped
    for any record. *)
Lemma updated_unvisited s :
  updated s -> lastVisit (Streak.data s) = None ->
  currentStreak (Streak.data s) = 0 /\ longestStreak (Streak.data s) = 0.
Proof.
  induction 1 as [h | s h _ IH | s s' _ _ Hrun | s s' _ _ Hrun | s s' _ _ Hrun].
  - intros _. split; reflexivity.
  - exact IH.
  - revert Hrun. rewrite startStreak_eq. intros [= <-]. discriminate.
  - revert Hrun. rewrite incrementStreak_eq. intros [= <-].
    rewrite celebrateMilestone_data. discriminate.
  - revert Hrun. rewrite resetStreak_eq. intros [= <-]. discriminate.
Qed.

Lemma resetStreak_unvisited s s' :
  updated s -> lastVisit (Streak.data s) = None ->
  Streak.resetStreak s = Return s' ->
  longestStreak (Streak.data s') < currentStreak (Streak.data s').
Proof.
  intros Hup Hv. destruct (updated_unvisited s Hup Hv) as [_ Hl].
  rewrite resetStreak_eq. intros [= <-]. cbn. lia.
Qed.

(** C6, as amended. Every record obtained from the default record by
    [startStreak], [incrementStreak] and [resetStreak], the last applied only
    to a record whose [lastVisit] is set, has
    [longestStreak >= currentStreak]. *)
Theorem updated_visited_longest_ge_current (s : Streak.t) :
  updated_visited s ->
  longestStreak (Streak.data s) >= currentStreak (Streak.data s).
Proof.
  intros H. destruct (updated_visited_inv s H) as [Hle _]. lia.
Qed.

Lemma updated_visited_longest_ge_current_witness :
  exists s,
    updated_visited s /\
    counters s = (1, 2, 3) /\
    longestStreak (Streak.data s) >= currentStreak (Streak.data s).
Proof.
  pose (h := freshHost 0 0).
  assert (exists s, updated_visited s /\ counters s = (1, 2, 3))
    as (s & Hreach & Hcounters).
  { eexists. split.
    - eapply visited_reset;
        [eapply visited_increment;
           [eapply visited_start; [apply (visited_default h) | reflexivity]
           | reflexivity]
        | discriminate
        | reflexivity].
    - reflexivity. }
  exists s. split; [exact Hreach |]. split; [exact Hcounters |].
  exact (updated_visited_longest_ge_current s Hreach).
Defined.

(** C6, as stated, fails: [resetStreak] applied to the default record leaves
    [currentStreak = 1] above [longestStreak = 0]. *)
Lemma updated_longest_ge_current_fails :
  ~ (forall s, updated s ->
               longestStreak (Streak.data s) >= currentStreak (Streak.data s)).
Proof.
  intros H.
  pose (h := freshHost 0 0).
  pose (d := mkStreakData 1 0 1 (Some 0) 0).
  assert (updated (Streak.mk d (saved (Streak.mk d h)))) as Hup.
  { apply (updated_reset (Streak.mk (Storage.defaultStreakData h) h)).
    - apply updated_default.
    - reflexivity. }
  specialize (H _ Hup). cbn in H. lia.
Qed.

(** *** The day count of [checkStreak] *)

Lemma msPerDay_pos : 0 < msPerDay.
Proof. reflexivity. Qed.

Lemma toDateString_midnight offset day :
  toDateString offset (midnight offset day) = day.
Proof.
  unfold toDateString, midnight.
  replace (day * msPerDay - offset + offset) with (day * msPerDay) by lia.
  apply Z.div_mul. discriminate.
Qed.

(** Between a last visit on an earlier calendar day and the midnight that
    starts today, [getDaysBetween] counts the full days: one less than the
    number of calendar days, unless the last visit was at midnight sharp. *)
Lemma getDaysBetween_today h iso :
  toDateString (utcOffset h) iso < Storage.getTodayString h ->
  Storage.getDaysBetween h (IsoString iso) (DateString (Storage.getTodayString h))
  = Storage.getTodayString h - toDateString (utcOffset h) iso
    - (if (iso + utcOffset h) mod msPerDay =? 0 then 0 else 1).
Proof.
  unfold Storage.getDaysBetween, Storage.getTodayString, toDateString, new_Date.
  set (T := (clock h + utcOffset h) / msPerDay).
  set (a := iso + utcOffset h).
  change (1000 * 60 * 60 * 24) with msPerDay.
  intros Hlt.
  pose proof msPerDay_pos as HD.
  pose proof (Z.div_mod a msPerDay ltac:(lia)) as Ha.
  pose proof (Z.mod_pos_bound a msPerDay HD) as Hr.
  set (L := a / msPerDay) in *. set (r := a mod msPerDay) in *.
  replace (T * msPerDay - utcOffset h - iso)
    with ((T - L) * msPerDay - r) by (unfold a in Ha; lia).
  assert (0 < (T - L) * msPerDay - r) as Hpos by nia.
  rewrite Z.abs_eq by lia.
  destruct (r =? 0) eqn:Hr0.
  - apply Z.eqb_eq in Hr0. rewrite Hr0, Z.sub_0_r, Z.sub_0_r.
    apply Z.div_mul. lia.
  - apply Z.eqb_neq in Hr0. symmetry.
    apply (Z.div_unique_pos _ _ _ (msPerDay - r)); lia.
Qed.

Lemma isToday_other_day h iso :
  toDateString (utcOffset h) iso <> Storage.getTodayString h ->
  Storage.isToday h (Some iso) = false.
Proof. intros H. cbn. apply Z.eqb_neq. exact H. Qed.

(** A visit on the calendar day after the last one does nothing, unless the
    last visit was at local midnight sharp: the day count is 0. *)
Lemma checkStreak_next_day_ignored (s : Streak.t) (iso : Z) :
  lastVisit (Streak.data s) = Some iso ->
  Storage.getTodayString (Streak.host s)
  = toDateString (utcOffset (Streak.host s)) iso + 1 ->
  (iso + utcOffset (Streak.host s)) mod msPerDay <> 0 ->
  Streak.checkStreak s = Return s.
Proof.
  intros Hv Hnext Hr. unfold Streak.checkStreak. rewrite Hv.
  rewrite isToday_other_day by lia.
  rewrite getDaysBetween_today by lia.
  apply Z.eqb_neq in Hr. rewrite Hr, Hnext.
  replace (_ - _ - 1) with 0 by lia. reflexivity.
Qed.

(** A visit two calendar days after the last one (one day missed) continues
    the streak, unless the last visit was at local midnight sharp. *)
Lemma checkStreak_missed_day_continues (s : Streak.t) (iso : Z) :
  lastVisit (Streak.data s) = Some iso ->
  Storage.getTodayString (Streak.host s)
  = toDateString (utcOffset (Streak.host s)) iso + 2 ->
  (iso + utcOffset (Streak.host s)) mod msPerDay <> 0 ->
  Streak.checkStreak s = Streak.incrementStreak s.
Proof.
  intros Hv Hnext Hr. unfold Streak.checkStreak. rewrite Hv.
  rewrite isToday_other_day by lia.
  rewrite getDaysBetween_today by lia.
  apply Z.eqb_neq in Hr. rewrite Hr, Hnext.
  replace (_ - _ - 1) with 1 by lia. reflexivity.
Qed.

(** After a last visit at local midnight sharp the day count is the number
    of calendar days. *)
Lemma checkStreak_after_midnight (s : Streak.t) (day : Z) :
  lastVisit (Streak.data s)
  = Some (midnight (utcOffset (Streak.host s)) day) ->
  day < Storage.getTodayString (Streak.host s) ->
  Streak.checkStreak s
  = if Storage.getTodayString (Streak.host s) - day =? 1
    then Streak.incrementStreak s
    else Streak.resetStreak s.
Proof.
  intros Hv Hlt. unfold Streak.checkStreak. rewrite Hv.
  pose proof (toDateString_midnight (utcOffset (Streak.host s)) day) as Hday.
  rewrite isToday_other_day by lia.
  rewrite getDaysBetween_today by lia.
  rewrite Hday.
  replace ((midnight _ day + _) mod msPerDay) with 0.
  - cbn [Z.eqb]. rewrite Z.sub_0_r.
    destruct (_ =? 1) eqn:E1; [reflexivity |].
    apply Z.eqb_neq in E1.
    replace (_ >? 1) with true by (symmetry; apply Z.gtb_lt; lia).
    reflexivity.
  - unfold midnight.
    replace (day * msPerDay - utcOffset (Streak.host s) + utcOffset (Streak.host s))
      with (day * msPerDay) by lia.
    symmetry. apply Z.mod_mul. discriminate.
Qed.

Lemma toDateString_noon offset day : toDateString offset (noon offset day) = day.
Proof.
  unfold toDateString, noon, midnight.
  replace (day * msPerDay - offset + 12 * 60 * 60 * 1000 + offset)
    with (12 * 60 * 60 * 1000 + day * msPerDay) by lia.
  rewrite Z.div_add by discriminate. reflexivity.
Qed.

Lemma noon_not_midnight offset day : (noon offset day + offset) mod msPerDay <> 0.
Proof.
  unfold noon, midnight.
  replace (day * msPerDay - offset + 12 * 60 * 60 * 1000 + offset)
    with (12 * 60 * 60 * 1000 + day * msPerDay) by lia.
  rewrite Z.mod_add by discriminate. discriminate.
Qed.

Lemma checkStreak_first s :
  lastVisit (Streak.data s) = None -> Streak.checkStreak s = Streak.startStreak s.
Proof. intros H. unfold Streak.checkStreak. rewrite H. reflexivity. Qed.

(** *** Three visits: day 0, day 1, day 3 *)

Section ThreeVisits.

Local Arguments toDateString : simpl never.
Local Arguments midnight : simpl never.
Local Arguments noon : simpl never.
Local Arguments Streak.checkStreak : simpl never.
Local Arguments written : simpl never.

Variables offset day : Z.

Local Ltac today :=
  unfold Storage.getTodayString; cbn;
  rewrite ?toDateString_midnight, ?toDateString_noon.

(** The scenario of C1 holds when every visit is at local midnight sharp:
    the counters are (1,1,1) after day 0, (2,2,2) after day 1 and (1,2,3)
    after day 3. *)
Lemma three_visits_at_midnight :
  three_visits offset (midnight offset day) (midnight offset (day + 1))
               (midnight offset (day + 3))
  = Return ((1, 1, 1), (2, 2, 2), (1, 2, 3)).
Proof.
  unfold three_visits, Streak.checkStreak_at.
  rewrite checkStreak_first by reflexivity.
  rewrite startStreak_eq. cbn.
  rewrite (checkStreak_after_midnight _ day)
    by (try reflexivity; today; lia).
  today.
  replace (day + 1 - day =? 1) with true by (symmetry; apply Z.eqb_eq; lia).
  rewrite incrementStreak_eq. cbn.
  rewrite (checkStreak_after_midnight _ (day + 1))
    by (try reflexivity; today; lia).
  today.
  replace (day + 3 - (day + 1) =? 1) with false
    by (symmetry; apply Z.eqb_neq; lia).
  rewrite resetStreak_eq. reflexivity.
Qed.

(** At another time of day it fails; here with every visit at local noon.
    The visit of day 1 changes nothing, and the visit of day 3 resets a
    streak that never grew. *)
Lemma three_visits_at_noon :
  three_visits offset (noon offset day) (noon offset (day + 1))
               (noon offset (day + 3))
  = Return ((1, 1, 1), (1, 1, 1), (1, 1, 2)).
Proof.
  unfold three_visits, Streak.checkStreak_at.
  rewrite checkStreak_first by reflexivity.
  rewrite startStreak_eq. cbn.
  rewrite (checkStreak_next_day_ignored _ (noon offset day))
    by (try reflexivity; try apply noon_not_midnight; today; lia).
  cbn.
  unfold Streak.checkStreak. cbn [Streak.data lastVisit Streak.host].
  rewrite isToday_other_day by (today; lia).
  rewrite getDaysBetween_today by (today; lia).
  today.
  pose proof (noon_not_midnight offset day) as Hr.
  apply Z.eqb_neq in Hr. rewrite Hr.
  replace (day + 3 - day - 1) with 2 by lia.
  change (2 =? 1) with false. change (2 >? 1) with true. cbv iota.
  rewrite resetStreak_eq. reflexivity.
Qed.

End ThreeVisits.

(** C1, evaluated with the three visits at 12:00 UTC on days 0, 1 and 3: the
    counters are (1,1,1), (1,1,1) and (1,1,2), where the scenario expects
    (1,1,1), (2,2,2) and (1,2,3). *)
Theorem three_visits_noon_utc :
  three_visits 0 43200000 129600000 302400000
  = Return ((1, 1, 1), (1, 1, 1), (1, 1, 2)).
Proof. vm_compute. reflexivity. Qed.

(** ** Timer *)

(** *** The ceiling of a quotient *)

Lemma ceil_div_bounds a b :
  0 < b -> a <= b * Timer.ceil_div a b < a + b.
Proof.
  intros Hb. unfold Timer.ceil_div.
  pose proof (Z.div_mod (- a) b ltac:(lia)) as Hdm.
  pose proof (Z.mod_pos_bound (- a) b Hb) as Hr.
  lia.
Qed.

Lemma ceil_div_unique a b n :
  0 < b -> a <= b * n < a + b -> Timer.ceil_div a b = n.
Proof.
  intros Hb Hn. pose proof (ceil_div_bounds a b Hb) as Hc. nia.
Qed.

Lemma ceil_div_pos a b : 0 < b -> 0 < a -> 0 < Timer.ceil_div a b.
Proof. intros Hb Ha. pose proof (ceil_div_bounds a b Hb). nia. Qed.

Lemma ceil_div_nonpos a b : 0 < b -> a <= 0 -> Timer.ceil_div a b <= 0.
Proof. intros Hb Ha. pose proof (ceil_div_bounds a b Hb). nia. Qed.

(** *** [tick] *)

Lemma set_timeRemaining_twice a b st :
  Timer.set_timeRemaining a (Timer.set_timeRemaining b st)
  = Timer.set_timeRemaining a st.
Proof. reflexivity. Qed.

Lemma tick_eq x E :
  Timer.endTime (Timer.state x) = Some E ->
  Timer.tick x
  = let v := Z.max 0 (Timer.ceil_div (E - clock (Timer.host x)) 1000) in
    let x' := Timer.with_state x (Timer.set_timeRemaining v (Timer.state x)) in
    if v <=? 0 then Timer.complete x' else Return x'.
Proof. intros H. unfold Timer.tick. rewrite H. reflexivity. Qed.

(** While time is left, [tick] only stores the seconds left. *)
Lemma tick_counting x E :
  Timer.endTime (Timer.state x) = Some E ->
  clock (Timer.host x) < E ->
  Timer.tick x
  = Return (Timer.with_state x
              (Timer.set_timeRemaining
                 (Timer.ceil_div (E - clock (Timer.host x)) 1000)
                 (Timer.state x))).
Proof.
  intros H Hlt. rewrite (tick_eq x E H). cbv zeta.
  pose proof (ceil_div_pos (E - clock (Timer.host x)) 1000) as Hpos.
  rewrite Z.max_r by lia.
  replace (_ <=? 0) with false by (symmetry; apply Z.leb_gt; lia).
  reflexivity.
Qed.

(** [pause] stops a running timer and leaves any other as it is. *)
Lemma pause_eq x :
  Timer.pause x
  = if Timer.isRunning (Timer.state x)
    then Timer.with_state x
           (Timer.mkState false true (Timer.mode (Timer.state x))
              (Timer.timeRemaining (Timer.state x)) false
              (Timer.startTime (Timer.state x))
              (Timer.pausedTime (Timer.state x))
              (Timer.endTime (Timer.state x)))
    else x.
Proof.
  unfold Timer.pause. destruct x as [[run paused m tr iv st pt en] d c h].
  cbn. destruct run; [| reflexivity]. destruct iv; reflexivity.
Qed.

Lemma pause_mode x :
  Timer.mode (Timer.state (Timer.pause x)) = Timer.mode (Timer.state x).
Proof. rewrite pause_eq. destruct (Timer.isRunning _); reflexivity. Qed.

(** [complete] flips the mode, so it never returns the timer it was given. *)
Lemma complete_changes x : Timer.complete x <> Return x.
Proof.
  unfold Timer.complete.
  rewrite pause_mode.
  destruct (Timer.mode (Timer.state x)) eqn:E.
  - destruct (Storage.incrementSession _) as [h1 | |]; [| discriminate ..].
    cbn [mbind Outcome_bind].
    destruct (Storage.addStudyTime _ _) as [h2 | |]; [| discriminate ..].
    cbn [mbind Outcome_bind].
    destruct (Timer.loadTimerData _) as [x1 | |]; [| discriminate ..].
    cbn [mbind Outcome_bind].
    intros [= Hx]. rewrite <- Hx in E. discriminate E.
  - intros [= Hx]. rewrite <- Hx in E. discriminate E.
Qed.

(** C4. With an end time [E], [tick] stores max(0, ceil((E - now) / 1000)),
    the least whole number of seconds that covers the time left; the value
    stored before plays no part; [complete] is invoked when the stored value
    is 0, and only then. *)
Theorem tick_from_endTime (x : Timer.t) (E : Z) :
  Timer.endTime (Timer.state x) = Some E ->
  let now := clock (Timer.host x) in
  let v := Z.max 0 (Timer.ceil_div (E - now) 1000) in
  let x' := Timer.with_state x (Timer.set_timeRemaining v (Timer.state x)) in
  (0 <= v /\ E - now <= 1000 * v /\
   forall n, 0 <= n -> E - now <= 1000 * n -> v <= n) /\
  (forall r, Timer.tick (Timer.with_state x
                           (Timer.set_timeRemaining r (Timer.state x)))
             = Timer.tick x) /\
  (v = 0 -> Timer.tick x = Timer.complete x') /\
  (v <> 0 -> Timer.tick x = Return x' /\ Timer.tick x <> Timer.complete x').
Proof.
  intros HE now v x'.
  pose proof (ceil_div_bounds (E - now) 1000 ltac:(lia)) as Hc.
  assert (Timer.tick x = if v <=? 0 then Timer.complete x' else Return x')
    as Htick by (rewrite (tick_eq x E HE); reflexivity).
  split; [| split; [| split]].
  - split; [lia |]. split; [lia |].
    intros n Hn Hcover. apply Z.max_lub; [exact Hn |]. nia.
  - intros r. rewrite Htick.
    rewrite (tick_eq (Timer.with_state x
                        (Timer.set_timeRemaining r (Timer.state x))) E HE).
    reflexivity.
  - intros Hv. rewrite Htick, Hv. reflexivity.
  - intros Hv. rewrite Htick.
    replace (v <=? 0) with false by (symmetry; apply Z.leb_gt; lia).
    split; [reflexivity |].
    intros Heq. apply (complete_changes x'). symmetry. exact Heq.
Qed.

Lemma tick_from_endTime_witness :
  Timer.tick (Timer.at_time 1000 (Timer.start (idleTimer 0)))
  = Return (Timer.with_state (Timer.at_time 1000 (Timer.start (idleTimer 0)))
              (Timer.set_timeRemaining 1499
                 (Timer.state (Timer.start (idleTimer 0))))).
Proof.
  pose proof (tick_from_endTime
                (Timer.at_time 1000 (Timer.start (idleTimer 0))) 1500000
                eq_refl) as (_ & _ & _ & H).
  apply H. discriminate.
Defined.

(** *** [reset] and [setDurations] *)

Lemma reset_eq x :
  Timer.reset x
  = Timer.with_state x
      (Timer.mkState false false (Timer.mode (Timer.state x))
         (Timer.duration (Timer.durations x) (Timer.mode (Timer.state x)))
         (Timer.interval (Timer.state x) && negb (Timer.isRunning (Timer.state x)))
         None (Timer.pausedTime (Timer.state x)) None).
Proof.
  unfold Timer.reset. rewrite pause_eq.
  destruct x as [[run paused m tr iv st pt en] d c h].
  destruct run, iv; reflexivity.
Qed.

Lemma changeMode_eq x m :
  Timer.changeMode x m
  = Timer.with_state x
      (Timer.mkState false false m (Timer.duration (Timer.durations x) m)
         (Timer.interval (Timer.state x) && negb (Timer.isRunning (Timer.state x)))
         None (Timer.pausedTime (Timer.state x)) None).
Proof.
  unfold Timer.changeMode. rewrite pause_eq.
  destruct x as [[run paused m0 tr iv st pt en] d c h].
  destruct run, iv; reflexivity.
Qed.

(** C10. [reset] keeps the mode, the durations and the browser (the clock,
    the store with the persisted statistics, the event log); its result does
    not depend on what the store holds; in the state it stops the timer
    ([isRunning] and [isPaused] false, the interval released), clears
    [startTime] and [endTime] and sets [timeRemaining] to the duration of
    the current mode: the work duration in work mode, the break duration in
    break mode. *)
Theorem reset_frame (x : Timer.t) :
  Timer.mode (Timer.state (Timer.reset x)) = Timer.mode (Timer.state x) /\
  Timer.durations (Timer.reset x) = Timer.durations x /\
  Timer.host (Timer.reset x) = Timer.host x /\
  Storage.getTimerData (Timer.host (Timer.reset x))
  = Storage.getTimerData (Timer.host x) /\
  (forall h, Timer.reset (Timer.with_host x h)
             = Timer.with_host (Timer.reset x) h) /\
  Timer.sessionsCount (Timer.reset x) = Timer.sessionsCount x /\
  Timer.pausedTime (Timer.state (Timer.reset x))
  = Timer.pausedTime (Timer.state x) /\
  Timer.isRunning (Timer.state (Timer.reset x)) = false /\
  Timer.isPaused (Timer.state (Timer.reset x)) = false /\
  Timer.interval (Timer.state (Timer.reset x))
  = Timer.interval (Timer.state x) && negb (Timer.isRunning (Timer.state x)) /\
  Timer.startTime (Timer.state (Timer.reset x)) = None /\
  Timer.endTime (Timer.state (Timer.reset x)) = None /\
  Timer.timeRemaining (Timer.state (Timer.reset x))
  = match Timer.mode (Timer.state x) with
    | Work => Timer.work (Timer.durations x)
    | Break => Timer.break (Timer.durations x)
    end.
Proof.
  repeat match goal with |- _ /\ _ => split end;
    try (rewrite reset_eq; reflexivity).
  intros h. rewrite !reset_eq. reflexivity.
Qed.

(** [reset] on a break that runs with 120 of its 300 seconds left, and on a
    work timer with 5 of its 1500 seconds left: back to 300 seconds in break
    mode and to 1500 in work mode, stopped, the three stale sessions of the
    store still there. *)
Lemma reset_frame_witness :
  Timer.timeRemaining (Timer.state (Timer.reset runningBreak)) = 300 /\
  Timer.mode (Timer.state (Timer.reset runningBreak)) = Break /\
  Timer.isRunning (Timer.state (Timer.reset runningBreak)) = false /\
  Timer.endTime (Timer.state (Timer.reset runningBreak)) = None /\
  Storage.getTimerData (Timer.host (Timer.reset runningBreak))
  = Return (VTimer staleStats) /\
  Timer.timeRemaining (Timer.state (Timer.reset fiveSecondsLeft)) = 1500 /\
  Timer.mode (Timer.state (Timer.reset fiveSecondsLeft)) = Work.
Proof.
  pose proof (reset_frame runningBreak)
    as (Hmode & _ & _ & Hstats & _ & _ & _ & Hrun & _ & _ & _ & Hend & Hleft).
  pose proof (reset_frame fiveSecondsLeft)
    as (Hmode' & _ & _ & _ & _ & _ & _ & _ & _ & _ & _ & _ & Hleft').
  split; [rewrite Hleft; reflexivity |].
  split; [rewrite Hmode; reflexivity |].
  split; [exact Hrun |].
  split; [exact Hend |].
  split; [rewrite Hstats; reflexivity |].
  split; [rewrite Hleft'; reflexivity | rewrite Hmode'; reflexivity].
Defined.

Lemma setDurations_eq x w b :
  Timer.setDurations x w b
  = Timer.reset (Timer.mk (Timer.state x) (Timer.mkDurations (w * 60) (b * 60))
                          (Timer.sessionsCount x) (Timer.host x)).
Proof. reflexivity. Qed.



(** [setDurations] itself does not check its arguments. *)
Lemma setDurations_unchecked x :
  Timer.durations (Timer.setDurations x 0 (-5)) = Timer.mkDurations 0 (-300).
Proof. rewrite setDurations_eq, reset_eq. reflexivity. Qed.

(** [applySettings] leaves the timer alone when an input is not a positive
    number. *)
Lemma applySettings_rejects x w b :
  (forall n, w = Some n -> n <= 0) \/ (forall n, b = Some n -> n <= 0) ->
  Timer.applySettings x w b = x.
Proof.
  intros H. unfold Timer.applySettings.
  destruct w as [wn |], b as [bn |]; try reflexivity.
  destruct H as [H | H].
  - specialize (H wn eq_refl).
    destruct (wn >? 0) eqn:E; [apply Z.gtb_lt in E; lia | reflexivity].
  - specialize (H bn eq_refl).
    destruct (bn >? 0) eqn:E; [apply Z.gtb_lt in E; lia |].
    rewrite andb_false_r. reflexivity.
Qed.

(** *** Pause and resume *)

Lemma start_eq x :
  Timer.isRunning (Timer.state x) = false ->
  Timer.start x
  = Timer.with_state x
      (Timer.mkState true false (Timer.mode (Timer.state x))
         (Timer.timeRemaining (Timer.state x)) true
         (if Timer.falsy (Timer.startTime (Timer.state x))
          then Some (clock (Timer.host x))
          else Timer.startTime (Timer.state x))
         (Timer.pausedTime (Timer.state x))
         (Some (clock (Timer.host x)
                + Timer.timeRemaining (Timer.state x) * 1000))).
Proof.
  intros H. unfold Timer.start. rewrite H.
  destruct x as [[run paused m tr iv st pt en] d c h]. cbn.
  destruct (Timer.falsy st); reflexivity.
Qed.

(** Ticks before the end time leave the timer as it was, except for the
    clock and for [timeRemaining], which the last tick sets. *)
Lemma tick_each_counting earlier last x E :
  Timer.endTime (Timer.state x) = Some E ->
  Forall (fun now => now < E) earlier -> last < E ->
  tick_each (earlier ++ [last]) x
  = Return (Timer.at_time last
              (Timer.with_state x
                 (Timer.set_timeRemaining (Timer.ceil_div (E - last) 1000)
                                          (Timer.state x)))).
Proof.
  intros HE Hearlier Hlast. revert x HE.
  induction Hearlier as [| now rest Hnow _ IH]; intros x HE; cbn [app tick_each].
  - rewrite (tick_counting _ E) by assumption. reflexivity.
  - rewrite (tick_counting _ E) by assumption. cbn [mbind Outcome_bind].
    rewrite IH by exact HE. reflexivity.
Qed.

(** C2. A timer started with [R > 5] seconds left, ticked during the first
    five seconds and a last time in the sixth, paused, left for any length of
    time ([resumed] is any later or earlier clock reading; ten seconds in the
    scenario), started again and ticked within the first second after that,
    has [R - 5] seconds left and is running: the time spent paused is not
    counted. *)
Theorem pause_resume_keeps_remaining
  (x : Timer.t) (R : Z) (earlier : list Z) (last paused resumed e : Z) :
  Timer.isRunning (Timer.state x) = false ->
  Timer.timeRemaining (Timer.state x) = R ->
  5 < R ->
  Forall (fun now => now < clock (Timer.host x) + 6000) earlier ->
  clock (Timer.host x) + 5000 <= last < clock (Timer.host x) + 6000 ->
  0 <= e < 1000 ->
  exists x',
    pause_resume x earlier last paused resumed e = Return x' /\
    Timer.timeRemaining (Timer.state x') = R - 5 /\
    Timer.timeRemaining (Timer.state x') <> R - 15 /\
    Timer.isRunning (Timer.state x') = true.
Proof.
  intros Hidle HR H5 Hearlier Hlast He.
  set (t0 := clock (Timer.host x)) in *.
  unfold pause_resume. rewrite (start_eq x Hidle). fold t0. rewrite HR.
  generalize (if Timer.falsy (Timer.startTime (Timer.state x))
              then Some t0 else Timer.startTime (Timer.state x)).
  intros started.
  rewrite (tick_each_counting earlier last _ (t0 + R * 1000));
    [| reflexivity
     | eapply Forall_impl; [exact Hearlier | cbn; intros; lia]
     | lia].
  cbn [mbind Outcome_bind].
  replace (Timer.ceil_div (t0 + R * 1000 - last) 1000) with (R - 5)
    by (symmetry; apply ceil_div_unique; lia).
  rewrite pause_eq. cbn.
  destruct (Timer.falsy started);
    (rewrite (tick_counting _ (resumed + (R - 5) * 1000));
       [| reflexivity | cbn; lia]);
    (eexists; split; [reflexivity |]); cbn;
    (replace (Timer.ceil_div (resumed + (R - 5) * 1000 - (resumed + e)) 1000)
       with (R - 5) by (symmetry; apply ceil_div_unique; lia));
    (split; [reflexivity | split; [lia | reflexivity]]).
Qed.

Lemma pause_resume_keeps_remaining_witness :
  exists x',
    pause_resume (idleTimer 0) [1000; 2000; 3000; 4000] 5000 5000 15000 0
    = Return x' /\
    Timer.timeRemaining (Timer.state x') = 1495.
Proof.
  destruct (pause_resume_keeps_remaining (idleTimer 0) 1500
              [1000; 2000; 3000; 4000] 5000 5000 15000 0)
    as (x' & Hrun & Hleft & _).
  - reflexivity.
  - reflexivity.
  - reflexivity.
  - repeat constructor.
  - cbn. lia.
  - lia.
  - exists x'. split; [exact Hrun | exact Hleft].
Defined.

(** C2, as stated for every [R], fails when no more than five seconds are
    left: the tick of the fifth second completes the session, [pause] finds
    nothing to stop, and the second [start] begins the break, so 300 seconds
    are left where the claim expects 0. *)
Lemma pause_resume_five_seconds_left :
  Timer.timeRemaining (Timer.state fiveSecondsLeft) = 5 /\
  exists x',
    pause_resume fiveSecondsLeft
      [1496000; 1497000; 1498000; 1499000] 1500000 1500000 1510000 0
    = Return x' /\
    Timer.timeRemaining (Timer.state x') = 300 /\
    Timer.timeRemaining (Timer.state x') <> 5 - 5.
Proof.
  split; [reflexivity |].
  eexists. split; [vm_compute; reflexivity |].
  split; [reflexivity | discriminate].
Qed.

(** *** Completion of a work session *)

(** What was written is what is read back. *)
Lemma stats_written h d :
  operational (localStorage h) ->
  stats (with_localStorage h
           (written (localStorage h) Storage.KEYS.TIMER_DATA (VTimer d))) d.
Proof.
  intros Hop. unfold stats, Storage.getTimerData. cbn [localStorage with_localStorage].
  rewrite get_operational by (apply operational_written; exact Hop).
  rewrite written_operational by exact Hop. cbn [items].
  rewrite lookup_insert_eq. reflexivity.
Qed.

Lemma setTimerData_eq h d :
  Storage.setTimerData h d
  = Return (with_localStorage h
              (written (localStorage h) Storage.KEYS.TIMER_DATA (VTimer d))).
Proof. unfold Storage.setTimerData. rewrite set_written. reflexivity. Qed.

Lemma incrementSession_eq h d :
  stats h d ->
  Storage.incrementSession h
  = Storage.setTimerData h
      (mkTimerData (next_sessionsToday d (Storage.getTodayString h))
                   (totalSessions d + 1) (totalMinutes d)
                   (Some (Storage.getTodayString h))).
Proof.
  intros Hd. unfold Storage.incrementSession. rewrite Hd.
  cbn [mbind Outcome_bind Storage.asTimerData].
  unfold next_sessionsToday, Storage.getTodayString.
  destruct (decide _); reflexivity.
Qed.

Lemma addStudyTime_eq h d minutes :
  stats h d ->
  Storage.addStudyTime h minutes
  = Storage.setTimerData h
      (mkTimerData (sessionsToday d) (totalSessions d)
                   (totalMinutes d + minutes)%Q (lastSession d)).
Proof. intros Hd. unfold Storage.addStudyTime. rewrite Hd. reflexivity. Qed.

Lemma loadTimerData_eq x d :
  stats (Timer.host x) d ->
  Timer.loadTimerData x
  = Return (Timer.mk (Timer.state x) (Timer.durations x)
                     (Some (sessionsToday d)) (Timer.host x)).
Proof. intros Hd. unfold Timer.loadTimerData. rewrite Hd. reflexivity. Qed.

(** The statistics after a completed work session of [work] seconds that
    ends on the day [today]. *)
Lemma complete_work x d :
  Timer.mode (Timer.state x) = Work ->
  operational (localStorage (Timer.host x)) ->
  stats (Timer.host x) d ->
  let today := Storage.getTodayString (Timer.host x) in
  let d' := mkTimerData (next_sessionsToday d today) (totalSessions d + 1)
              (totalMinutes d + inject_Z (Timer.work (Timer.durations x)) / 60)%Q
              (Some today) in
  exists h',
    Timer.complete x
    = Return (Timer.changeMode
                (Timer.mk (Timer.state (Timer.pause x)) (Timer.durations x)
                          (Some (sessionsToday d'))
                          (dispatchEvent h'
                             (timerComplete Timer.workCompleteMessage Work)))
                Break) /\
    stats h' d' /\
    dispatched h' = dispatched (Timer.host x) /\
    clock h' = clock (Timer.host x).
Proof.
  intros Hmode Hop Hd today d'.
  unfold Timer.complete. rewrite pause_mode, Hmode.
  assert (Timer.host (Timer.pause x) = Timer.host x) as Hhost
    by (rewrite pause_eq; destruct (Timer.isRunning _); reflexivity).
  assert (Timer.durations (Timer.pause x) = Timer.durations x) as Hdur
    by (rewrite pause_eq; destruct (Timer.isRunning _); reflexivity).
  rewrite Hhost, Hdur.
  rewrite (incrementSession_eq _ d Hd), setTimerData_eq.
  cbn [mbind Outcome_bind].
  set (d1 := mkTimerData _ _ _ _).
  pose proof (stats_written (Timer.host x) d1 Hop) as Hd1.
  rewrite (addStudyTime_eq _ d1 _ Hd1), setTimerData_eq.
  cbn [mbind Outcome_bind].
  set (h1 := with_localStorage (Timer.host x) _) in *.
  assert (operational (localStorage h1)) as Hop1
    by (apply operational_written; exact Hop).
  pose proof (stats_written h1 d' Hop1) as Hd'.
  change (mkTimerData (sessionsToday d1) (totalSessions d1)
            (totalMinutes d1 + inject_Z (Timer.work (Timer.durations x)) / 60)%Q
            (lastSession d1)) with d'.
  set (h2 := with_localStorage h1 _) in *.
  rewrite (loadTimerData_eq _ d') by exact Hd'.
  cbn [mbind Outcome_bind].
  exists h2. split; [| split; [exact Hd' | split; reflexivity]].
  unfold Timer.showCompletionMessage, Timer.with_host. cbn.
  rewrite pause_mode, Hmode, Hdur. reflexivity.
Qed.

(** C3, as amended. A work timer with durations 1500 and 300 seconds, started
    at t = 0 and ticked at t = 1500000 ms, in a browser whose store accepts
    reads and writes: the tick stores 0 and invokes [complete]; one
    [timerComplete] event is dispatched; in the persisted statistics
    [totalSessions] grows by 1, [sessionsToday] grows by 1 from its stored
    value if [lastSession] is today and from 0 otherwise, [totalMinutes]
    grows by 25; the mode is break, 300 seconds are left, and the timer is
    idle. *)
Theorem work_session_completes (x : Timer.t) (d : TimerData) :
  Timer.isRunning (Timer.state x) = false ->
  Timer.mode (Timer.state x) = Work ->
  Timer.timeRemaining (Timer.state x) = 1500 ->
  Timer.durations x = Timer.mkDurations 1500 300 ->
  operational (localStorage (Timer.host x)) ->
  stats (Timer.host x) d ->
  let today := toDateString (utcOffset (Timer.host x)) 1500000 in
  let ticking := Timer.at_time 1500000 (Timer.start (Timer.at_time 0 x)) in
  exists x' d',
    work_session x
    = Timer.complete
        (Timer.with_state ticking
           (Timer.set_timeRemaining 0 (Timer.state ticking))) /\
    work_session x = Return x' /\
    dispatched (Timer.host x')
    = dispatched (Timer.host x) ++ [timerComplete Timer.workCompleteMessage Work] /\
    stats (Timer.host x') d' /\
    sessionsToday d' = next_sessionsToday d today /\
    totalSessions d' = totalSessions d + 1 /\
    (totalMinutes d' == totalMinutes d + 25)%Q /\
    lastSession d' = Some today /\
    Timer.sessionsCount x' = Some (sessionsToday d') /\
    Timer.mode (Timer.state x') = Break /\
    Timer.timeRemaining (Timer.state x') = 300 /\
    Timer.isRunning (Timer.state x') = false /\
    Timer.isPaused (Timer.state x') = false /\
    Timer.interval (Timer.state x') = false /\
    Timer.startTime (Timer.state x') = None /\
    Timer.endTime (Timer.state x') = None.
Proof.
  intros Hidle Hmode HR Hdur Hop Hd today ticking.
  assert (Timer.endTime (Timer.state ticking) = Some 1500000) as HE.
  { unfold ticking. rewrite start_eq by exact Hidle. cbn. rewrite HR. reflexivity. }
  assert (work_session x
          = Timer.complete
              (Timer.with_state ticking
                 (Timer.set_timeRemaining 0 (Timer.state ticking)))) as Htick.
  { unfold work_session. fold ticking. rewrite (tick_eq ticking 1500000 HE).
    reflexivity. }
  set (done := Timer.with_state ticking _) in *.
  assert (Timer.durations done = Timer.mkDurations 1500 300) as Hdur'.
  { unfold done, ticking. rewrite start_eq by exact Hidle. exact Hdur. }
  destruct (complete_work done d) as (h' & Hrun & Hd' & Hlog & Hclock).
  - unfold done, ticking. rewrite start_eq by exact Hidle. exact Hmode.
  - unfold done, ticking. rewrite start_eq by exact Hidle. exact Hop.
  - unfold done, ticking. rewrite start_eq by exact Hidle. exact Hd.
  - rewrite Hdur' in Hrun, Hd'. cbn [Timer.work] in Hrun, Hd'.
    replace (Storage.getTodayString (Timer.host done)) with today in Hrun, Hd'
      by (unfold done, ticking; rewrite start_eq by exact Hidle; reflexivity).
    rewrite changeMode_eq in Hrun.
    eexists. eexists.
    split; [exact Htick |]. split; [rewrite Htick; exact Hrun |].
    split.
    { cbn. rewrite Hlog. unfold done, ticking.
      rewrite start_eq by exact Hidle. reflexivity. }
    split; [exact Hd' |].
    split; [reflexivity |]. split; [reflexivity |].
    split.
    { cbn [totalMinutes]. apply Qplus_comp; reflexivity. }
    cbn. rewrite pause_eq. unfold done, ticking.
    rewrite start_eq by exact Hidle. cbn.
    repeat split; reflexivity.
Qed.

Lemma work_session_completes_witness :
  exists x' d',
    work_session (idleTimer 0) = Return x' /\
    stats (Timer.host x') d' /\
    sessionsToday d' = 1 /\
    totalSessions d' = 1 /\
    (totalMinutes d' == 25)%Q /\
    Timer.mode (Timer.state x') = Break /\
    Timer.timeRemaining (Timer.state x') = 300 /\
    Timer.isRunning (Timer.state x') = false.
Proof.
  destruct (work_session_completes (idleTimer 0) Storage.defaultTimerData)
    as (x' & d' & _ & Hrun & _ & Hd' & Htoday & Htotal & Hminutes & _ & _
        & Hmode & Hleft & Hidle & _).
  - reflexivity.
  - reflexivity.
  - reflexivity.
  - reflexivity.
  - split; reflexivity.
  - reflexivity.
  - exists x', d'.
    split; [exact Hrun |]. split; [exact Hd' |].
    split; [rewrite Htoday; reflexivity |].
    split; [rewrite Htotal; reflexivity |].
    split; [rewrite Hminutes; reflexivity |].
    split; [exact Hmode |]. split; [exact Hleft | exact Hidle].
Defined.

(** C3, as stated, fails when the stored statistics are of an earlier day:
    [sessionsToday] goes from 3 to 1, not to 4. *)
Lemma work_session_stale_stats :
  stats (Timer.host staleTimer) staleStats /\
  sessionsToday staleStats = 3 /\
  exists x' d',
    work_session staleTimer = Return x' /\
    stats (Timer.host x') d' /\
    sessionsToday d' = 1 /\
    sessionsToday d' <> sessionsToday staleStats + 1.
Proof.
  split; [reflexivity |]. split; [reflexivity |].
  eexists. eexists.
  split; [vm_compute; reflexivity |].
  split; [vm_compute; reflexivity |].
  split; [reflexivity | discriminate].
Qed.

(** ** The inputs of the examples are states of the program *)

(** With nothing stored, [loadStreak] yields the default record. *)
Lemma loadStreak_fresh now offset :
  Streak.loadStreak (freshHost now offset)
  = Return (Streak.mk (Storage.defaultStreakData (freshHost now offset))
                      (freshHost now offset)).
Proof. reflexivity. Qed.

(** [visitedOnce] is what the first [init] at noon of day 0 leaves. *)
Lemma visitedOnce_reached :
  Streak.init (freshHost (noon 0 0) 0) = Return visitedOnce.
Proof. vm_compute. reflexivity. Qed.

(** With nothing stored, [Timer.init] yields [idleTimer]. *)
Lemma idleTimer_reached now : Timer.init (freshHost now 0) = Return (idleTimer now).
Proof. reflexivity. Qed.

(** [runningBreak] is [staleTimer] switched to break mode, started at 0 and
    ticked at 180000. *)
Lemma runningBreak_reached :
  Timer.tick (Timer.at_time 180000
                (Timer.start (Timer.changeMode staleTimer Break)))
  = Return runningBreak.
Proof. vm_compute. reflexivity. Qed.

(** [thirdDay] is what two visits at midnight of day 0 and of day 1 leave,
    seen at noon of day 2. *)
Lemma thirdDay_reached :
  (s0 ← Streak.init (freshHost (midnight 0 0) 0);
   s1 ← Streak.init (at_time (midnight 0 1) (Streak.host s0));
   Return (Streak.data s1, at_time (noon 0 2) (Streak.host s1)))
  = Return (twoDayStreak, thirdDay false).
Proof. vm_compute. reflexivity. Qed.

(** [fiveSecondsLeft] is [idleTimer] started at 0, ticked at 1495000 and
    paused. *)
Lemma fiveSecondsLeft_reached :
  (x ← Timer.tick (Timer.at_time 1495000 (Timer.start (idleTimer 0)));
   Return (Timer.pause x))
  = Return fiveSecondsLeft.
Proof. vm_compute. reflexivity. Qed.

(** * Further properties *)

(** ** Storage: reading, writing, removing *)

(** What [get] returns is decided by whether the store throws and by the
    item under the key. *)
Lemma get_eq ls key d :
  Storage.get ls key d
  = Return (if accessDenied ls then d
            else match items ls !! key with
                 | Some (Json v) => v
                 | _ => d
                 end).
Proof.
  unfold Storage.get, getItem. destruct (accessDenied ls); [reflexivity |].
  cbn. destruct (items ls !! key) as [[v | text] |]; [reflexivity | | reflexivity].
  destruct text; reflexivity.
Qed.

Lemma remove_eq ls key :
  Storage.remove ls key
  = Return (if accessDenied ls then ls
            else mkLocalStorage (delete key (items ls))
                                (accessDenied ls) (quotaExceeded ls)).
Proof.
  unfold Storage.remove, removeItem. destruct (accessDenied ls); reflexivity.
Qed.

(** X1. What [set] stored is what [get] returns: after a successful
    [set(key, v)], [get(key, d)] returns [v]; after a failed one the store is
    as before; in both cases every other key reads as before. *)
Theorem get_after_set (ls : LocalStorage) (key other : string) (v d : Value) :
  exists ok ls',
    Storage.set ls key v = Return (ok, ls') /\
    (ok = true -> Storage.get ls' key d = Return v) /\
    (ok = false -> ls' = ls) /\
    (other <> key -> Storage.get ls' other d = Storage.get ls other d).
Proof.
  rewrite set_written. eexists. eexists. split; [reflexivity |].
  unfold written. rewrite !get_eq.
  destruct (accessDenied ls) eqn:Hdenied, (quotaExceeded ls) eqn:Hfull; cbn;
    rewrite ?Hdenied; (split; [| split]); try discriminate; try reflexivity;
    intros H.
  - rewrite lookup_insert_eq. reflexivity.
  - rewrite lookup_insert_ne by congruence. reflexivity.
Qed.

Lemma get_after_set_witness :
  exists ls',
    Storage.set emptyStorage Storage.KEYS.VERSION (VString "1.0.0"%string)
    = Return (true, ls') /\
    Storage.get ls' Storage.KEYS.VERSION VNull = Return (VString "1.0.0"%string).
Proof.
  destruct (get_after_set emptyStorage Storage.KEYS.VERSION
              Storage.KEYS.TIMER_DATA (VString "1.0.0"%string) VNull)
    as (ok & ls' & Hset & Hget & _).
  assert (ok = true) as Hok by (vm_compute in Hset; congruence).
  exists ls'. split; [rewrite Hset, Hok; reflexivity | exact (Hget Hok)].
Defined.

(** X2. After [remove(key)], [get(key, d)] returns the default [d], whether
    the removal succeeded or was swallowed, and every other key reads as
    before; [remove] never throws. *)
Theorem get_after_remove (ls : LocalStorage) (key other : string) (d : Value) :
  exists ls',
    Storage.remove ls key = Return ls' /\
    Storage.get ls' key d = Return d /\
    (other <> key -> Storage.get ls' other d = Storage.get ls other d).
Proof.
  rewrite remove_eq. eexists. split; [reflexivity |].
  rewrite !get_eq.
  destruct (accessDenied ls) eqn:Hdenied; cbn; rewrite ?Hdenied.
  - split; reflexivity.
  - rewrite lookup_delete_eq. split; [reflexivity |].
    intros H. rewrite lookup_delete_ne by congruence. reflexivity.
Qed.

Lemma get_after_remove_witness :
  exists ls',
    Storage.remove corruptStorage Storage.KEYS.TIMER_DATA = Return ls' /\
    Storage.get ls' Storage.KEYS.VERSION VNull
    = Storage.get corruptStorage Storage.KEYS.VERSION VNull.
Proof.
  destruct (get_after_remove corruptStorage Storage.KEYS.TIMER_DATA
              Storage.KEYS.VERSION VNull) as (ls' & Hremove & _ & Hother).
  exists ls'. split; [exact Hremove | apply Hother; discriminate].
Defined.

(** X3. [clearAll] never throws; afterwards every key of the application
    reads as its default, and the keys of other applications hold what they
    held. *)
Theorem clearAll_clears (ls : LocalStorage) (d : Value) :
  exists ls',
    Storage.clearAll ls = Return ls' /\
    (forall key, In key Storage.KEYS_values -> Storage.get ls' key d = Return d) /\
    (forall key, ~ In key Storage.KEYS_values ->
                 items ls' !! key = items ls !! key).
Proof.
  unfold Storage.clearAll, Storage.KEYS_values, Storage.removeEach.
  destruct ls as [m denied full]. destruct denied.
  - exists (mkLocalStorage m true full). split; [reflexivity |].
    split; [| reflexivity].
    intros key _. rewrite get_eq. reflexivity.
  - eexists. split; [reflexivity |]. split.
    + intros key Hkey. rewrite get_eq. cbn [accessDenied items].
      cbn in Hkey.
      destruct Hkey as [<- | [<- | [<- | [<- | [<- | []]]]]];
        repeat (rewrite lookup_delete_eq
                || rewrite lookup_delete_ne by discriminate);
        reflexivity.
    + intros key Hkey. cbn [items].
      rewrite !lookup_delete_ne by (intros <-; apply Hkey; cbn; tauto).
      reflexivity.
Qed.

Lemma clearAll_clears_witness :
  exists ls',
    Storage.clearAll corruptStorage = Return ls' /\
    Storage.get ls' Storage.KEYS.TIMER_DATA (VTimer Storage.defaultTimerData)
    = Return (VTimer Storage.defaultTimerData).
Proof.
  destruct (clearAll_clears corruptStorage (VTimer Storage.defaultTimerData))
    as (ls' & Hclear & Hkeys & _).
  exists ls'. split; [exact Hclear |].
  apply Hkeys. cbn. tauto.
Defined.

(** X4. [init] never throws. On a store that accepts reads and writes it
    leaves the version key at "1.0.0", whatever the key held (nothing, an
    older version, a text that is not JSON), touches no other key, and a
    second [init] changes nothing. On a store that refuses the write it
    changes nothing. *)
Theorem init_sets_version (ls : LocalStorage) :
  exists ls',
    Storage.init ls = Return ls' /\
    (operational ls ->
     Storage.get ls' Storage.KEYS.VERSION VNull
     = Return (VString Storage.VERSION) /\
     Storage.init ls' = Return ls' /\
     forall key, key <> Storage.KEYS.VERSION ->
                 items ls' !! key = items ls !! key) /\
    (~ operational ls -> ls' = ls).
Proof.
  assert (forall ls0, operational ls0 ->
            items ls0 !! Storage.KEYS.VERSION
            = Some (Json (VString Storage.VERSION)) ->
            Storage.init ls0 = Return ls0) as Hdone.
  { intros ls0 [Hread _] Hitem. unfold Storage.init.
    rewrite get_eq, Hread, Hitem. reflexivity. }
  assert (forall ls0, operational ls0 ->
            let ls1 := written ls0 Storage.KEYS.VERSION (VString Storage.VERSION) in
            Storage.get ls1 Storage.KEYS.VERSION VNull
            = Return (VString Storage.VERSION) /\
            Storage.init ls1 = Return ls1 /\
            forall key, key <> Storage.KEYS.VERSION ->
                        items ls1 !! key = items ls0 !! key) as Hwritten.
  { intros ls0 Hop ls1. subst ls1.
    pose proof (operational_written ls0 Storage.KEYS.VERSION
                  (VString Storage.VERSION) Hop) as Hop1.
    rewrite (written_operational _ _ _ Hop) in *.
    split; [rewrite get_eq; cbn; rewrite lookup_insert_eq; reflexivity |].
    split; [apply Hdone; [exact Hop1 | cbn; apply lookup_insert_eq] |].
    intros key Hkey. cbn. apply lookup_insert_ne. congruence. }
  assert (forall ls0, ~ operational ls0 ->
            written ls0 Storage.KEYS.VERSION (VString Storage.VERSION) = ls0)
    as Hrefused.
  { intros ls0 Hno. unfold written.
    destruct (accessDenied ls0) eqn:Ha, (quotaExceeded ls0) eqn:Hq;
      try reflexivity.
    exfalso. apply Hno. split; assumption. }
  unfold Storage.init, Storage.migrate. rewrite get_eq.
  set (stored := if accessDenied ls then VNull else _).
  cbn [mbind Outcome_bind].
  destruct (negb (Storage.truthyValue stored)) eqn:Hfalsy.
  { rewrite set_written. cbn [mbind Outcome_bind snd].
    eexists. split; [reflexivity |].
    split; [apply Hwritten | apply Hrefused]. }
  destruct (Storage.differsFrom stored Storage.VERSION) eqn:Hdiffers.
  { rewrite set_written. cbn [mbind Outcome_bind snd].
    eexists. split; [reflexivity |].
    split; [apply Hwritten | apply Hrefused]. }
  exists ls. split; [reflexivity |]. split; [| reflexivity].
  intros Hop. destruct Hop as [Hread Hwrite].
  assert (items ls !! Storage.KEYS.VERSION
          = Some (Json (VString Storage.VERSION))) as Hitem.
  { subst stored. rewrite Hread in Hdiffers.
    destruct (items ls !! Storage.KEYS.VERSION) as [[v | text] |];
      try discriminate Hdiffers.
    destruct v as [| s | |]; try discriminate Hdiffers.
    cbn in Hdiffers. apply negb_false_iff, String.eqb_eq in Hdiffers.
    rewrite Hdiffers. reflexivity. }
  split; [rewrite get_eq, Hread, Hitem; reflexivity |].
  split; [apply Hdone; [split; assumption | exact Hitem] | reflexivity].
Qed.

Lemma init_sets_version_witness :
  exists ls',
    Storage.init emptyStorage = Return ls' /\
    Storage.get ls' Storage.KEYS.VERSION VNull
    = Return (VString "1.0.0"%string) /\
    Storage.init ls' = Return ls'.
Proof.
  destruct (init_sets_version emptyStorage) as (ls' & Hinit & Hop & _).
  destruct (Hop ltac:(split; reflexivity)) as (Hversion & Hagain & _).
  exists ls'. split; [exact Hinit |]. split; [exact Hversion | exact Hagain].
Defined.

(** X5. [isAvailable] never throws and leaves no trace: it answers true
    exactly when the store takes the probe item, every key but the probe key
    holds what it held, the probe key is absent after a successful probe,
    and after a failed one the store is as it was. *)
Theorem isAvailable_probe (ls : LocalStorage) :
  exists ok ls',
    Storage.isAvailable ls = Return (ok, ls') /\
    (ok = true <->
     exists ls1,
       setItem ls "__storage_test__"%string (NotJson "__storage_test__"%string)
       = Return ls1) /\
    (forall key, key <> "__storage_test__"%string ->
                 items ls' !! key = items ls !! key) /\
    (ok = true -> items ls' !! "__storage_test__"%string = None) /\
    (ok = false -> ls' = ls).
Proof.
  unfold Storage.isAvailable, setItem, removeItem.
  destruct ls as [m denied full]. destruct denied, full; cbn.
  1-3: (eexists; eexists; split; [reflexivity |];
        split; [split; [discriminate | intros [? ?]; discriminate] |];
        split; [reflexivity |];
        split; [discriminate | reflexivity]).
  eexists. eexists. split; [reflexivity |].
  split; [split; eauto |].
  split; [intros key Hkey; cbn;
          rewrite lookup_delete_ne, lookup_insert_ne by congruence;
          reflexivity |].
  split; [intros _; cbn; apply lookup_delete_eq | discriminate].
Qed.

Lemma isAvailable_probe_witness :
  exists ok ls',
    Storage.isAvailable corruptStorage = Return (ok, ls') /\
    ok = true /\
    items ls' !! "__storage_test__"%string = None /\
    items ls' !! Storage.KEYS.TIMER_DATA = Some (NotJson "{oops"%string).
Proof.
  destruct (isAvailable_probe corruptStorage)
    as (ok & ls' & Hprobe & Hok & Hkept & Hgone & _).
  assert (ok = true) as Hyes by (apply Hok; eexists; reflexivity).
  exists ok, ls'. split; [exact Hprobe |]. split; [exact Hyes |].
  split; [exact (Hgone Hyes) |].
  rewrite Hkept by discriminate. reflexivity.
Defined.

(** ** Storage: dates *)

(** X6. [getDaysBetween] counts the full 24-hour periods between its two
    dates: it is never negative, does not depend on the order of the dates,
    and is 0 exactly when the dates are less than 24 hours apart, whatever
    calendar days they fall on. *)
Theorem getDaysBetween_full_periods (h : Host) (date1 date2 : DateLike) :
  let n := Storage.getDaysBetween h date1 date2 in
  let apart := Z.abs (new_Date (utcOffset h) date2 - new_Date (utcOffset h) date1) in
  0 <= n /\
  n * msPerDay <= apart < (n + 1) * msPerDay /\
  Storage.getDaysBetween h date2 date1 = n /\
  (n = 0 <-> apart < msPerDay).
Proof.
  intros n apart.
  assert (n = apart / msPerDay) as Hn by reflexivity.
  pose proof msPerDay_pos as HD.
  assert (0 <= apart) as Hnonneg by apply Z.abs_nonneg.
  pose proof (Z.div_mod apart msPerDay ltac:(lia)) as Hdm.
  pose proof (Z.mod_pos_bound apart msPerDay HD) as Hr.
  rewrite <- Hn in Hdm.
  split; [rewrite Hn; apply Z.div_pos; lia |].
  split; [lia |].
  split.
  - rewrite Hn. unfold Storage.getDaysBetween, apart.
    change (1000 * 60 * 60 * 24) with msPerDay.
    f_equal. rewrite <- Z.abs_opp. f_equal. lia.
  - split; [intros H0; rewrite H0 in Hdm; lia |].
    intros Hsmall. rewrite Hn. apply Z.div_small. lia.
Qed.

(** X7. [isToday] accepts exactly the instants of today's calendar day, from
    local midnight to the next local midnight, and rejects [null]. *)
Theorem isToday_window (h : Host) (iso : Z) :
  let today := Storage.getTodayString h in
  (Storage.isToday h (Some iso) = true <->
   midnight (utcOffset h) today <= iso < midnight (utcOffset h) (today + 1)) /\
  Storage.isToday h None = false /\
  Storage.isToday h (Some (clock h)) = true.
Proof.
  intros today. split; [| split; [reflexivity |]].
  - unfold Storage.isToday, new_Date. fold today.
    rewrite Z.eqb_eq. unfold toDateString, midnight.
    pose proof msPerDay_pos as HD.
    pose proof (Z.div_mod (iso + utcOffset h) msPerDay ltac:(lia)) as Hdm.
    pose proof (Z.mod_pos_bound (iso + utcOffset h) msPerDay HD) as Hr.
    split.
    + intros Hday. rewrite Hday in Hdm. lia.
    + intros Hwin. symmetry.
      apply (Z.div_unique_pos _ _ _ (iso + utcOffset h - today * msPerDay)); lia.
  - unfold Storage.isToday, Storage.getTodayString, new_Date. apply Z.eqb_refl.
Qed.

(** ** Storage: the timer statistics *)

Lemma incrementSession_step h d now :
  operational (localStorage h) -> stats h d ->
  exists h',
    Storage.incrementSession (at_time now h) = Return h' /\
    stats h' (mkTimerData (next_sessionsToday d (toDateString (utcOffset h) now))
                          (totalSessions d + 1) (totalMinutes d)
                          (Some (toDateString (utcOffset h) now))) /\
    operational (localStorage h') /\
    utcOffset h' = utcOffset h /\
    dispatched h' = dispatched h.
Proof.
  intros Hop Hd.
  rewrite (incrementSession_eq (at_time now h) d) by exact Hd.
  rewrite setTimerData_eq. eexists. split; [reflexivity |].
  split; [apply (stats_written (at_time now h)); exact Hop |].
  split; [apply operational_written; exact Hop |].
  split; reflexivity.
Qed.

Lemma incrementSession_each_same_day instants : forall h d today,
  operational (localStorage h) -> stats h d ->
  lastSession d = Some today ->
  Forall (fun now => toDateString (utcOffset h) now = today) instants ->
  exists h' d',
    incrementSession_each instants h = Return h' /\
    stats h' d' /\
    sessionsToday d' = sessionsToday d + Z.of_nat (length instants) /\
    totalSessions d' = totalSessions d + Z.of_nat (length instants) /\
    totalMinutes d' = totalMinutes d /\
    lastSession d' = Some today /\
    dispatched h' = dispatched h.
Proof.
  induction instants as [| now rest IH]; intros h d today Hop Hd Hlast Hday.
  - exists h, d. cbn. repeat split; try assumption; lia.
  - apply Forall_cons_1 in Hday as [Hnow Hrest].
    destruct (incrementSession_step h d now Hop Hd)
      as (h1 & Hrun & Hd1 & Hop1 & Hoff & Hlog).
    rewrite Hnow in Hd1.
    destruct (IH h1 _ today Hop1 Hd1 eq_refl) as
      (h' & d' & Hrest' & Hd' & Htoday & Htotal & Hminutes & Hlast' & Hlog').
    { rewrite Hoff. exact Hrest. }
    exists h', d'. cbn [incrementSession_each]. rewrite Hrun.
    cbn [mbind Outcome_bind]. split; [exact Hrest' |].
    split; [exact Hd' |].
    cbn [sessionsToday totalSessions totalMinutes] in Htoday, Htotal, Hminutes.
    unfold next_sessionsToday in Htoday.
    destruct (decide (lastSession d = Some today)); [| contradiction].
    cbn [length]. rewrite Nat2Z.inj_succ.
    repeat split; try assumption; try lia. congruence.
Qed.

(** X8. Sessions completed on one calendar day are counted one by one:
    after [k + 1] calls of [incrementSession] on the day [today], on a store
    that accepts reads and writes, [sessionsToday] is [k] more than after
    the first call (which starts from the stored count if [lastSession] is
    today, from 0 otherwise), [totalSessions] has grown by [k + 1],
    [lastSession] is today and [totalMinutes] is untouched. *)
Theorem incrementSession_counts
  (h : Host) (d : TimerData) (today first : Z) (rest : list Z) :
  operational (localStorage h) ->
  stats h d ->
  Forall (fun now => toDateString (utcOffset h) now = today) (first :: rest) ->
  exists h' d',
    incrementSession_each (first :: rest) h = Return h' /\
    stats h' d' /\
    sessionsToday d' = next_sessionsToday d today + Z.of_nat (length rest) /\
    totalSessions d' = totalSessions d + 1 + Z.of_nat (length rest) /\
    totalMinutes d' = totalMinutes d /\
    lastSession d' = Some today.
Proof.
  intros Hop Hd Hday. apply Forall_cons_1 in Hday as [Hfirst Hrest].
  destruct (incrementSession_step h d first Hop Hd)
    as (h1 & Hrun & Hd1 & Hop1 & Hoff & _).
  rewrite Hfirst in Hd1.
  destruct (incrementSession_each_same_day rest h1 _ today Hop1 Hd1 eq_refl)
    as (h' & d' & Hrest' & Hd' & Htoday & Htotal & Hminutes & Hlast & _).
  { rewrite Hoff. exact Hrest. }
  exists h', d'. cbn [incrementSession_each]. rewrite Hrun.
  cbn [mbind Outcome_bind].
  repeat split; assumption.
Qed.

Lemma incrementSession_counts_witness :
  exists h' d',
    incrementSession_each [1500000; 3300000] (Timer.host staleTimer) = Return h' /\
    stats h' d' /\
    sessionsToday d' = 2 /\
    totalSessions d' = 9.
Proof.
  destruct (incrementSession_counts (Timer.host staleTimer) staleStats 0
              1500000 [3300000])
    as (h' & d' & Hrun & Hd' & Htoday & Htotal & _).
  - split; reflexivity.
  - reflexivity.
  - repeat constructor.
  - exists h', d'. split; [exact Hrun |]. split; [exact Hd' |].
    split; [rewrite Htoday; reflexivity | rewrite Htotal; reflexivity].
Defined.

(** X9. [addStudyTime] accumulates whole minutes: on a store that accepts
    reads and writes and holds a whole number [n] of minutes, adding [a] and
    then [b] whole minutes (all below 2^53, where the sums of the code are
    exact) leaves [totalMinutes] at [n + a + b] and the session counters and
    [lastSession] as they were. *)
Theorem addStudyTime_accumulates (h : Host) (d : TimerData) (n a b : Z) :
  operational (localStorage h) ->
  stats h d ->
  (totalMinutes d == inject_Z n)%Q ->
  Z.abs n + Z.abs a + Z.abs b < 2 ^ 53 ->
  exists h' d',
    (h1 ← Storage.addStudyTime h (inject_Z a);
     Storage.addStudyTime h1 (inject_Z b)) = Return h' /\
    stats h' d' /\
    (totalMinutes d' == inject_Z (n + a + b))%Q /\
    sessionsToday d' = sessionsToday d /\
    totalSessions d' = totalSessions d /\
    lastSession d' = lastSession d.
Proof.
  intros Hop Hd Hn _.
  rewrite (addStudyTime_eq h d (inject_Z a) Hd), setTimerData_eq.
  cbn [mbind Outcome_bind].
  set (d1 := mkTimerData _ _ _ _).
  pose proof (stats_written h d1 Hop) as Hd1.
  set (h1 := with_localStorage h _) in *.
  assert (operational (localStorage h1)) as Hop1
    by (apply operational_written; exact Hop).
  rewrite (addStudyTime_eq h1 d1 (inject_Z b) Hd1), setTimerData_eq.
  eexists. eexists. split; [reflexivity |].
  split; [apply (stats_written h1); exact Hop1 |].
  split; [cbn; rewrite Hn, !inject_Z_plus; ring |]. repeat split; reflexivity.
Qed.

Lemma addStudyTime_accumulates_witness :
  exists h' d',
    (h1 ← Storage.addStudyTime (Timer.host staleTimer) 25%Q;
     Storage.addStudyTime h1 50%Q) = Return h' /\
    stats h' d' /\
    (totalMinutes d' == 150)%Q /\
    totalSessions d' = 7.
Proof.
  destruct (addStudyTime_accumulates (Timer.host staleTimer) staleStats
              75 25 50) as (h' & d' & Hrun & Hd' & Hminutes & _ & Hsessions & _).
  - split; reflexivity.
  - reflexivity.
  - reflexivity.
  - reflexivity.
  - exists h', d'. split; [exact Hrun |]. split; [exact Hd' |].
    split; [rewrite Hminutes; reflexivity | rewrite Hsessions; reflexivity].
Defined.

(** ** Streak *)

Lemma checkStreak_order s s' :
  streak_order (Streak.data s) ->
  Streak.checkStreak s = Return s' -> streak_order (Streak.data s').
Proof.
  intros (H0 & Hcl & Hlt & Hvisited & Hnever). unfold Streak.checkStreak.
  destruct (lastVisit (Streak.data s)) as [iso |] eqn:Hv.
  - assert (1 <= currentStreak (Streak.data s)) as H1
      by (apply Hvisited; congruence).
    assert (streak_order (Streak.data s)) as Hsame.
    { repeat split; [exact H0 | exact Hcl | exact Hlt | |];
        rewrite Hv; [intros _; exact H1 | discriminate]. }
    destruct (Storage.isToday _ _); [intros [= <-]; exact Hsame |].
    destruct (_ =? 1).
    { rewrite incrementStreak_eq. intros [= <-].
      rewrite celebrateMilestone_data.
      repeat split; cbn; try lia; discriminate. }
    destruct (_ >? 1).
    { rewrite resetStreak_eq. intros [= <-].
      repeat split; cbn; try lia; discriminate. }
    intros [= <-]; exact Hsame.
  - rewrite startStreak_eq. intros [= <-].
    specialize (Hnever eq_refl).
    repeat split; cbn; try lia; discriminate.
Qed.

(** X10. In every record obtained from the default record by calls of
    [checkStreak], 0 <= currentStreak <= longestStreak <= totalDays; the
    streak is at least 1 once a visit is recorded, and no day is counted
    before. *)
Theorem reconciled_order (s : Streak.t) :
  reconciled s -> streak_order (Streak.data s).
Proof.
  induction 1 as [h | s h _ IH | s s' _ IH Hrun].
  - repeat split; cbn; try lia. congruence.
  - exact IH.
  - exact (checkStreak_order s s' IH Hrun).
Qed.

Lemma reconciled_order_witness :
  reconciled visitedOnce /\ streak_order (Streak.data visitedOnce).
Proof.
  assert (reconciled visitedOnce) as H.
  { apply (reconciled_check
             (Streak.mk (Storage.defaultStreakData (freshHost (noon 0 0) 0))
                        (freshHost (noon 0 0) 0))).
    - apply reconciled_default.
    - reflexivity. }
  split; [exact H | exact (reconciled_order visitedOnce H)].
Defined.

(** X11. Whatever the record, [checkStreak] returns, keeps [startDate], never
    lowers [longestStreak], and either keeps [lastVisit] or sets it to the
    time of the call; the clock, the time zone and the events already
    dispatched are kept. *)
Theorem checkStreak_keeps (s : Streak.t) :
  exists s',
    Streak.checkStreak s = Return s' /\
    startDate (Streak.data s') = startDate (Streak.data s) /\
    longestStreak (Streak.data s) <= longestStreak (Streak.data s') /\
    (lastVisit (Streak.data s') = lastVisit (Streak.data s) \/
     lastVisit (Streak.data s') = Some (clock (Streak.host s))) /\
    clock (Streak.host s') = clock (Streak.host s) /\
    utcOffset (Streak.host s') = utcOffset (Streak.host s) /\
    firstn (length (dispatched (Streak.host s))) (dispatched (Streak.host s'))
    = dispatched (Streak.host s).
Proof.
  assert (forall l : list Event, firstn (length l) l = l) as Hall
    by (intros l; apply firstn_all).
  assert (forall (l : list Event) e, firstn (length l) (l ++ [e]) = l) as Hmore.
  { intros l e. rewrite firstn_app, Nat.sub_diag, firstn_all. cbn.
    apply app_nil_r. }
  unfold Streak.checkStreak.
  destruct (lastVisit (Streak.data s)) as [iso |] eqn:Hv.
  - destruct (Storage.isToday _ _).
    { exists s. rewrite Hv. repeat split; auto; lia. }
    destruct (_ =? 1).
    { rewrite incrementStreak_eq. eexists. split; [reflexivity |].
      rewrite celebrateMilestone_data. unfold Streak.celebrateMilestone.
      destruct (existsb _ _); cbn; repeat split; auto; lia. }
    destruct (_ >? 1).
    { rewrite resetStreak_eq. eexists. split; [reflexivity |].
      cbn. repeat split; auto; lia. }
    exists s. rewrite Hv. repeat split; auto; lia.
  - rewrite startStreak_eq. eexists. split; [reflexivity |].
    cbn. repeat split; auto; lia.
Qed.

Lemma loadStreak_saved d h :
  operational (localStorage h) ->
  Streak.loadStreak (saved (Streak.mk d h)) = Return (Streak.mk d (saved (Streak.mk d h))).
Proof.
  intros Hop. unfold Streak.loadStreak, Storage.getStreakData, saved.
  cbn [Streak.host Streak.data localStorage with_localStorage].
  rewrite get_eq, written_operational by exact Hop. cbn.
  rewrite lookup_insert_eq. reflexivity.
Qed.

Lemma loadStreak_dispatched h e :
  Streak.loadStreak (dispatchEvent h e)
  = (s ← Streak.loadStreak h;
     Return (Streak.mk (Streak.data s) (dispatchEvent (Streak.host s) e))).
Proof.
  unfold Streak.loadStreak, Storage.getStreakData, Storage.defaultStreakData.
  cbn [localStorage dispatchEvent clock].
  destruct (Storage.get _ _ _) as [v | |]; [| reflexivity ..].
  cbn. destruct (Storage.asStreakData v); reflexivity.
Qed.

(** X12. A visit that changes the record is persisted: on a store that
    accepts reads and writes, [loadStreak] after such a [checkStreak] reads
    the record back. On a store that refuses, the record changes in memory
    only: the store is as it was, and the visit is lost at the next load. *)
Theorem checkStreak_persists (s s' : Streak.t) :
  Streak.checkStreak s = Return s' ->
  Streak.data s' <> Streak.data s ->
  (operational (localStorage (Streak.host s)) ->
   Streak.loadStreak (Streak.host s') = Return s') /\
  (~ operational (localStorage (Streak.host s)) ->
   localStorage (Streak.host s') = localStorage (Streak.host s)).
Proof.
  assert (forall d, ~ operational (localStorage (Streak.host s)) ->
            localStorage (saved (Streak.mk d (Streak.host s)))
            = localStorage (Streak.host s)) as Hrefused.
  { intros d Hno. unfold saved, written. cbn.
    destruct (accessDenied _) eqn:Ha, (quotaExceeded _) eqn:Hq; try reflexivity.
    exfalso. apply Hno. split; assumption. }
  unfold Streak.checkStreak.
  destruct (lastVisit (Streak.data s)) as [iso |] eqn:Hv.
  - destruct (Storage.isToday _ _); [intros [= <-] Hne; contradiction |].
    destruct (_ =? 1).
    { rewrite incrementStreak_eq. intros [= <-] _.
      unfold Streak.celebrateMilestone.
      destruct (existsb _ _); cbn [Streak.host Streak.data]; split.
      - intros Hop. rewrite loadStreak_dispatched, loadStreak_saved by exact Hop.
        reflexivity.
      - apply Hrefused.
      - apply loadStreak_saved.
      - apply Hrefused. }
    destruct (_ >? 1).
    { rewrite resetStreak_eq. intros [= <-] _. split.
      - apply loadStreak_saved.
      - apply Hrefused. }
    intros [= <-] Hne; contradiction.
  - rewrite startStreak_eq. intros [= <-] _. split.
    + apply loadStreak_saved.
    + apply Hrefused.
Qed.

Lemma checkStreak_persists_witness :
  Streak.loadStreak (Streak.host visitedOnce) = Return visitedOnce.
Proof.
  pose proof (checkStreak_persists
                (Streak.mk (Storage.defaultStreakData (freshHost (noon 0 0) 0))
                           (freshHost (noon 0 0) 0))
                visitedOnce eq_refl ltac:(discriminate)) as [H _].
  apply H. split; reflexivity.
Defined.

(** X13. [resetAll] starts over: it never throws, the record is the default
    one dated now, and the next [checkStreak], whenever it comes, starts a
    streak with all three counters at 1, whatever the record held. *)
Theorem resetAll_starts_over (s : Streak.t) (now : Z) :
  exists s1 s2,
    Streak.resetAll s = Return s1 /\
    Streak.data s1 = mkStreakData 0 0 0 None (clock (Streak.host s)) /\
    Streak.checkStreak_at now s1 = Return s2 /\
    counters s2 = (1, 1, 1) /\
    lastVisit (Streak.data s2) = Some now /\
    startDate (Streak.data s2) = clock (Streak.host s) /\
    dispatched (Streak.host s2) = dispatched (Streak.host s).
Proof.
  unfold Streak.resetAll. rewrite saveStreak_eq.
  eexists. eexists. split; [reflexivity |]. split; [reflexivity |].
  unfold Streak.checkStreak_at. rewrite checkStreak_first by reflexivity.
  rewrite startStreak_eq. split; [reflexivity |].
  repeat split; reflexivity.
Qed.

(** X14. [isStreakAtRisk] is true exactly when a visit is recorded less than
    24 hours from now: on which calendar day it was plays no part, and right
    after a visit the answer is true. *)
Theorem isStreakAtRisk_within_a_day (s : Streak.t) :
  (Streak.isStreakAtRisk s = true <->
   exists iso, lastVisit (Streak.data s) = Some iso /\
               Z.abs (clock (Streak.host s) - iso) < msPerDay) /\
  (lastVisit (Streak.data s) = Some (clock (Streak.host s)) ->
   Streak.isStreakAtRisk s = true).
Proof.
  assert (forall iso,
            (Storage.getDaysBetween (Streak.host s) (IsoString iso)
                                    (DateObject (clock (Streak.host s))) =? 0)
            = true <-> Z.abs (clock (Streak.host s) - iso) < msPerDay) as Hnear.
  { intros iso. rewrite Z.eqb_eq. unfold Storage.getDaysBetween, new_Date.
    change (1000 * 60 * 60 * 24) with msPerDay.
    pose proof msPerDay_pos as HD.
    pose proof (Z.abs_nonneg (clock (Streak.host s) - iso)) as Hnonneg.
    split.
    - intros H0. apply Z.div_small_iff in H0; lia.
    - intros Hsmall. apply Z.div_small. lia. }
  unfold Streak.isStreakAtRisk. split.
  - destruct (lastVisit (Streak.data s)) as [iso |].
    + rewrite Hnear. split.
      * intros H. exists iso. split; [reflexivity | exact H].
      * intros (iso' & [= <-] & H). exact H.
    + split; [discriminate | intros (iso & Hv & _); discriminate].
  - intros ->. apply Hnear. rewrite Z.sub_diag. reflexivity.
Qed.

Lemma isStreakAtRisk_within_a_day_witness :
  Streak.isStreakAtRisk visitedOnce = true /\
  Streak.isStreakAtRisk nextMorning = true.
Proof.
  split.
  - pose proof (isStreakAtRisk_within_a_day visitedOnce) as [_ H].
    apply H. reflexivity.
  - pose proof (isStreakAtRisk_within_a_day nextMorning) as [H _].
    apply H. eexists. split; [reflexivity |]. reflexivity.
Defined.

(** X15. What [checkStreak] does with a last visit that is not of today is
    decided by the time from it to the local midnight that starts today:
    less than 24 hours, nothing changes; from 24 to less than 48 hours, the
    streak continues; 48 hours or more, it is reset. *)
Theorem checkStreak_by_full_days (s : Streak.t) (iso : Z) :
  lastVisit (Streak.data s) = Some iso ->
  Storage.isToday (Streak.host s) (Some iso) = false ->
  let apart := Z.abs (todayMidnight (Streak.host s) - iso) in
  (apart < msPerDay -> Streak.checkStreak s = Return s) /\
  (msPerDay <= apart < 2 * msPerDay ->
   Streak.checkStreak s = Streak.incrementStreak s) /\
  (2 * msPerDay <= apart -> Streak.checkStreak s = Streak.resetStreak s).
Proof.
  intros Hv Htoday apart.
  assert (Streak.checkStreak s
          = if apart / msPerDay =? 1 then Streak.incrementStreak s
            else if apart / msPerDay >? 1 then Streak.resetStreak s
            else Return s) as Hcheck.
  { unfold Streak.checkStreak. rewrite Hv, Htoday. reflexivity. }
  pose proof msPerDay_pos as HD.
  pose proof (Z.abs_nonneg (todayMidnight (Streak.host s) - iso)) as Hnonneg.
  fold apart in Hnonneg. clearbody apart.
  split; [| split].
  - intros Hnear. rewrite Hcheck, Z.div_small by lia. reflexivity.
  - intros Hone. rewrite Hcheck.
    replace (apart / msPerDay) with 1
      by (apply (Z.div_unique_pos apart msPerDay 1 (apart - msPerDay)); lia).
    reflexivity.
  - intros Hfar. rewrite Hcheck.
    assert (2 <= apart / msPerDay) as Hdays
      by (apply Z.div_le_lower_bound; lia).
    replace (apart / msPerDay =? 1) with false
      by (symmetry; apply Z.eqb_neq; lia).
    replace (apart / msPerDay >? 1) with true
      by (symmetry; apply Z.gtb_lt; lia).
    reflexivity.
Qed.

Lemma checkStreak_by_full_days_witness :
  Streak.checkStreak nextMorning = Return nextMorning /\
  Streak.checkStreak secondMorning = Streak.incrementStreak secondMorning /\
  exists s',
    Streak.incrementStreak secondMorning = Return s' /\
    counters s' = (7, 7, 7).
Proof.
  split; [| split].
  - pose proof (checkStreak_by_full_days nextMorning
                  (midnight 0 9 + 82800000) eq_refl eq_refl) as (H & _).
    apply H. reflexivity.
  - pose proof (checkStreak_by_full_days secondMorning
                  (midnight 0 9 + 82800000) eq_refl eq_refl) as (_ & H & _).
    apply H. split; [discriminate | reflexivity].
  - eexists. split; [vm_compute; reflexivity | reflexivity].
Defined.

(** X30. In calendar days, for a zone that keeps one offset from UTC from
    the last visit to today: [checkStreak] acts on the calendar days since
    the last visit, less one unless the last visit was at midnight sharp. So
    a visit on the next calendar day changes nothing, a visit after one
    missed day continues the streak, and a visit three or more calendar days
    later resets it. *)
Theorem checkStreak_by_calendar_days (s : Streak.t) (iso : Z) :
  lastVisit (Streak.data s) = Some iso ->
  1 <= calendar_days (Streak.host s) iso ->
  let periods :=
    calendar_days (Streak.host s) iso
    - (if at_midnight (Streak.host s) iso then 0 else 1) in
  Streak.checkStreak s
  = (if periods =? 0 then Return s
     else if periods =? 1 then Streak.incrementStreak s
     else Streak.resetStreak s) /\
  (calendar_days (Streak.host s) iso = 1 ->
   at_midnight (Streak.host s) iso = false ->
   Streak.checkStreak s = Return s) /\
  (calendar_days (Streak.host s) iso = 2 ->
   at_midnight (Streak.host s) iso = false ->
   Streak.checkStreak s = Streak.incrementStreak s) /\
  (3 <= calendar_days (Streak.host s) iso ->
   Streak.checkStreak s = Streak.resetStreak s).
Proof.
  intros Hv Hdays periods.
  assert (Streak.checkStreak s
          = (if periods =? 0 then Return s
             else if periods =? 1 then Streak.incrementStreak s
             else Streak.resetStreak s)) as Hcheck.
  { assert (0 <= periods) as Hnonneg
      by (unfold periods; destruct (at_midnight _ _); lia).
    unfold Streak.checkStreak. rewrite Hv.
    rewrite isToday_other_day by (unfold calendar_days in Hdays; lia).
    rewrite getDaysBetween_today by (unfold calendar_days in Hdays; lia).
    replace (Storage.getTodayString (Streak.host s)
             - toDateString (utcOffset (Streak.host s)) iso
             - (if (iso + utcOffset (Streak.host s)) mod msPerDay =? 0
                then 0 else 1))
      with periods by reflexivity.
    clearbody periods.
    destruct (periods =? 1) eqn:E1.
    - apply Z.eqb_eq in E1. rewrite E1. reflexivity.
    - apply Z.eqb_neq in E1.
      destruct (periods >? 1) eqn:E2.
      + apply Z.gtb_lt in E2.
        replace (periods =? 0) with false by (symmetry; apply Z.eqb_neq; lia).
        reflexivity.
      + assert (periods = 0) as -> by (pose proof (Zgt_cases periods 1) as Hc;
                                        rewrite E2 in Hc; lia).
        reflexivity. }
  split; [exact Hcheck |].
  split; [| split].
  - intros H1 Hmid. rewrite Hcheck. unfold periods. rewrite H1, Hmid. reflexivity.
  - intros H2 Hmid. rewrite Hcheck. unfold periods. rewrite H2, Hmid. reflexivity.
  - intros H3. rewrite Hcheck.
    assert (2 <= periods) as Hp
      by (unfold periods; destruct (at_midnight _ _); lia).
    replace (periods =? 0) with false by (symmetry; apply Z.eqb_neq; lia).
    replace (periods =? 1) with false by (symmetry; apply Z.eqb_neq; lia).
    reflexivity.
Qed.

Lemma checkStreak_by_calendar_days_witness :
  Streak.checkStreak nextMorning = Return nextMorning /\
  exists s',
    Streak.checkStreak secondMorning = Return s' /\
    counters s' = (7, 7, 7) /\
    dispatched (Streak.host s') = [streakMilestone 7].
Proof.
  split.
  - pose proof (checkStreak_by_calendar_days nextMorning
                  (midnight 0 9 + 82800000) eq_refl ltac:(vm_compute; discriminate))
      as (_ & H & _).
    apply H; reflexivity.
  - pose proof (checkStreak_by_calendar_days secondMorning
                  (midnight 0 9 + 82800000) eq_refl ltac:(vm_compute; discriminate))
      as (_ & _ & H & _).
    rewrite H by reflexivity.
    eexists. split; [vm_compute; reflexivity |]. split; reflexivity.
Defined.

(** X16. The listener has a message for every milestone the streak tracker
    announces, and for no other streak: every event [checkStreak] dispatches
    finds its message in [handleStreakMilestone]. *)
Theorem milestones_have_messages (s : Streak.t) :
  (forall n, In n Streak.milestones <-> App.messages n <> None) /\
  exists s' events,
    Streak.checkStreak s = Return s' /\
    dispatched (Streak.host s') = dispatched (Streak.host s) ++ events /\
    Forall (fun e => App.handleStreakMilestone e <> None) events.
Proof.
  assert (forall n, existsb (Z.eqb n) Streak.milestones = true
                    <-> App.messages n <> None) as Htable.
  { intros n. unfold App.messages, Streak.milestones. cbn [existsb].
    destruct (n =? 3), (n =? 7), (n =? 14), (n =? 30), (n =? 50), (n =? 100);
      cbn; split; congruence. }
  split.
  - intros n. rewrite <- Htable, existsb_exists. split.
    + intros Hn. exists n. split; [exact Hn | apply Z.eqb_refl].
    + intros (m & Hm & Heq). apply Z.eqb_eq in Heq. subst m. exact Hm.
  - unfold Streak.checkStreak.
    destruct (lastVisit (Streak.data s)) as [iso |].
    + destruct (Storage.isToday _ _).
      { exists s, []. split; [reflexivity |].
        split; [symmetry; apply app_nil_r | constructor]. }
      destruct (_ =? 1).
      { rewrite incrementStreak_eq.
        eexists. eexists. split; [reflexivity |].
        rewrite celebrateMilestone_dispatched. split; [reflexivity |].
        destruct (existsb _ _) eqn:E; [| constructor].
        constructor; [| constructor]. cbn. apply Htable. exact E. }
      destruct (_ >? 1).
      { rewrite resetStreak_eq.
        eexists. exists []. split; [reflexivity |].
        split; [symmetry; apply app_nil_r | constructor]. }
      exists s, []. split; [reflexivity |].
      split; [symmetry; apply app_nil_r | constructor].
    + rewrite startStreak_eq.
      eexists. exists []. split; [reflexivity |].
      split; [symmetry; apply app_nil_r | constructor].
Qed.

(** ** Timer *)

Lemma complete_eq_changeMode x x' :
  Timer.complete x = Return x' ->
  exists y m,
    x' = Timer.changeMode y m /\
    Timer.durations y = Timer.durations x /\
    Timer.state y = Timer.state (Timer.pause x).
Proof.
  unfold Timer.complete.
  assert (Timer.durations (Timer.pause x) = Timer.durations x) as Hdur
    by (rewrite pause_eq; destruct (Timer.isRunning _); reflexivity).
  destruct (Timer.mode (Timer.state (Timer.pause x))).
  - destruct (Storage.incrementSession _) as [h1 | |]; [| discriminate ..].
    cbn [mbind Outcome_bind].
    destruct (Storage.addStudyTime _ _) as [h2 | |]; [| discriminate ..].
    cbn [mbind Outcome_bind]. unfold Timer.loadTimerData.
    destruct (Storage.getTimerData _) as [v | |]; [| discriminate ..].
    cbn [mbind Outcome_bind].
    destruct (Storage.asTimerData v) as [d | |]; [| discriminate ..].
    cbn [mbind Outcome_bind]. intros [= <-].
    eexists. exists Break. split; [reflexivity |]. split; [exact Hdur | reflexivity].
  - intros [= <-]. eexists. exists Work.
    split; [reflexivity |]. split; [exact Hdur | reflexivity].
Qed.

Local Ltac timer_cases x :=
  destruct x as [[run paused m tr iv st pt en] d c h];
  unfold timer_inv in *; cbn in *.

Lemma with_host_inv x h : timer_inv x -> timer_inv (Timer.with_host x h).
Proof. intros H. exact H. Qed.

Lemma start_inv x : timer_inv x -> timer_inv (Timer.start x).
Proof.
  unfold Timer.start. timer_cases x. intros H.
  destruct run; cbn; [exact H |].
  destruct (Timer.falsy st); cbn; repeat split; try tauto; try discriminate.
Qed.

Lemma pause_inv x : timer_inv x -> timer_inv (Timer.pause x).
Proof.
  rewrite pause_eq. timer_cases x. intros H.
  destruct run; cbn; [| exact H].
  repeat split; try tauto; try discriminate.
Qed.

Lemma changeMode_inv x mode' :
  timer_inv x -> timer_inv (Timer.changeMode x mode').
Proof.
  rewrite changeMode_eq. timer_cases x.
  intros (_ & Hiv & _ & _ & Hw & Hb). subst iv.
  repeat split; try tauto; try discriminate.
  - destruct run; reflexivity.
  - intros [H | H]; discriminate.
  - destruct mode'; cbn; lia.
Qed.

Lemma reset_inv x : timer_inv x -> timer_inv (Timer.reset x).
Proof.
  rewrite reset_eq. timer_cases x.
  intros (_ & Hiv & _ & _ & Hw & Hb). subst iv.
  repeat split; try tauto; try discriminate.
  - destruct run; reflexivity.
  - intros [H | H]; discriminate.
  - destruct m; cbn; lia.
Qed.

Lemma applySettings_inv x w b :
  timer_inv x -> timer_inv (Timer.applySettings x w b).
Proof.
  intros H. unfold Timer.applySettings.
  destruct w as [wn |], b as [bn |]; try exact H.
  destruct (wn >? 0) eqn:Ew; [| exact H].
  destruct (bn >? 0) eqn:Eb; [| exact H].
  apply Z.gtb_lt in Ew, Eb. cbn [andb].
  rewrite setDurations_eq. apply reset_inv.
  timer_cases x. repeat split; try tauto; lia.
Qed.

Lemma tick_inv x x' :
  timer_inv x -> Timer.tick x = Return x' -> timer_inv x'.
Proof.
  intros H. unfold Timer.tick.
  destruct (Timer.endTime (Timer.state x)) as [E |] eqn:HE; [| discriminate].
  set (v := Z.max 0 _).
  set (x1 := Timer.with_state x _).
  assert (timer_inv x1) as H1.
  { subst x1. assert (0 <= v) as Hv by apply Z.le_max_l.
    clearbody v. timer_cases x. repeat split; try tauto; lia. }
  destruct (Timer.timeRemaining (Timer.state x1) <=? 0).
  - intros Hdone.
    destruct (complete_eq_changeMode x1 x' Hdone) as (y & m & -> & Hdur & Hst).
    apply changeMode_inv.
    pose proof (pause_inv x1 H1) as Hp.
    unfold timer_inv in *. rewrite Hst, Hdur.
    replace (Timer.durations x1) with (Timer.durations (Timer.pause x1)).
    + exact Hp.
    + rewrite pause_eq. destruct (Timer.isRunning _); reflexivity.
  - intros [= <-]. exact H1.
Qed.

Lemma init_inv h x : Timer.init h = Return x -> timer_inv x.
Proof.
  unfold Timer.init, Timer.loadTimerData.
  destruct (Storage.getTimerData _) as [v | |]; [| discriminate ..].
  cbn [mbind Outcome_bind].
  destruct (Storage.asTimerData v) as [d | |]; [| discriminate ..].
  intros [= <-]. unfold timer_inv. cbn.
  repeat split; try discriminate; try lia.
Qed.

(** X17. In every state the buttons, the mode selector, the settings form
    and the ticks can lead to: a running timer is not paused, the interval
    is held exactly while the timer runs, a running or paused timer has an
    end time (so a tick always finds one), [timeRemaining] is not negative
    and both durations are positive. *)
Theorem operated_inv (x : Timer.t) : operated x -> timer_inv x.
Proof.
  induction 1 as [h x Hinit | x h _ IH | x _ IH | x _ IH | x _ IH
                  | x m _ IH | x w b _ IH | x x' _ IH _ Htick].
  - exact (init_inv h x Hinit).
  - exact (with_host_inv x h IH).
  - exact (start_inv x IH).
  - exact (pause_inv x IH).
  - exact (reset_inv x IH).
  - exact (changeMode_inv x m IH).
  - exact (applySettings_inv x w b IH).
  - exact (tick_inv x x' IH Htick).
Qed.

Lemma operated_inv_witness :
  operated (Timer.pause (Timer.start (idleTimer 0))) /\
  timer_inv (Timer.pause (Timer.start (idleTimer 0))).
Proof.
  assert (operated (Timer.pause (Timer.start (idleTimer 0)))) as H.
  { apply operated_pause, operated_start.
    apply (operated_init (freshHost 0 0)). reflexivity. }
  split; [exact H | exact (operated_inv _ H)].
Defined.

Lemma tick_at_time x now now' c :
  Timer.tick (Timer.at_time now'
                (Timer.with_state (Timer.at_time now x)
                   (Timer.set_timeRemaining c (Timer.state x))))
  = Timer.tick (Timer.at_time now' x).
Proof.
  unfold Timer.tick. cbn.
  destruct (Timer.endTime (Timer.state x)); reflexivity.
Qed.

(** X18. Ticks that were skipped do not matter: for a timer with an end
    time, any ticks before the end time followed by a tick at [last] give
    what the single tick at [last] gives, whether [last] is before the end
    time or the tick that completes the session. *)
Theorem tick_each_as_last_tick
  (x : Timer.t) (E : Z) (earlier : list Z) (last : Z) :
  Timer.endTime (Timer.state x) = Some E ->
  Forall (fun now => now < E) earlier ->
  tick_each (earlier ++ [last]) x = Timer.tick (Timer.at_time last x).
Proof.
  intros HE Hearlier. revert x HE.
  induction Hearlier as [| now rest Hnow _ IH]; intros x HE; cbn [app tick_each].
  - destruct (Timer.tick _); reflexivity.
  - rewrite (tick_counting _ E) by assumption. cbn [mbind Outcome_bind].
    rewrite IH by exact HE.
    exact (tick_at_time x now last
             (Timer.ceil_div (E - clock (Timer.host (Timer.at_time now x))) 1000)).
Qed.

Lemma tick_each_as_last_tick_witness :
  tick_each [1000; 7000; 1499000; 1500000] (Timer.start (idleTimer 0))
  = Timer.tick (Timer.at_time 1500000 (Timer.start (idleTimer 0))).
Proof.
  apply (tick_each_as_last_tick (Timer.start (idleTimer 0)) 1500000
           [1000; 7000; 1499000] 1500000).
  - reflexivity.
  - repeat constructor.
Defined.

(** X19. The end of a break counts nothing: a tick of a break timer at or
    after its end time leaves the store as it was, dispatches one
    [timerComplete] event for the break, and leaves the timer idle in work
    mode with the work duration to run. *)
Theorem break_completes (x : Timer.t) (E : Z) :
  Timer.mode (Timer.state x) = Break ->
  Timer.endTime (Timer.state x) = Some E ->
  E <= clock (Timer.host x) ->
  exists x',
    Timer.tick x = Return x' /\
    Timer.host x'
    = dispatchEvent (Timer.host x)
        (timerComplete Timer.breakCompleteMessage Break) /\
    localStorage (Timer.host x') = localStorage (Timer.host x) /\
    Timer.sessionsCount x' = Timer.sessionsCount x /\
    Timer.durations x' = Timer.durations x /\
    Timer.mode (Timer.state x') = Work /\
    Timer.timeRemaining (Timer.state x') = Timer.work (Timer.durations x) /\
    Timer.isRunning (Timer.state x') = false /\
    Timer.isPaused (Timer.state x') = false /\
    Timer.endTime (Timer.state x') = None.
Proof.
  intros Hmode HE Hlate.
  rewrite (tick_eq x E HE). cbv zeta.
  pose proof (ceil_div_nonpos (E - clock (Timer.host x)) 1000) as Hc.
  rewrite Z.max_l by lia. cbn [Z.leb Z.compare].
  unfold Timer.complete. rewrite pause_mode. cbn [Timer.with_state Timer.state
    Timer.set_timeRemaining Timer.mode]. rewrite Hmode.
  eexists. split; [reflexivity |].
  rewrite changeMode_eq. unfold Timer.showCompletionMessage.
  rewrite pause_eq. cbn. rewrite Hmode.
  destruct (Timer.isRunning (Timer.state x)); cbn; rewrite ?Hmode;
    repeat split; reflexivity.
Qed.

Lemma break_completes_witness :
  exists x',
    Timer.tick (Timer.at_time 300000
                  (Timer.start (Timer.changeMode (idleTimer 0) Break)))
    = Return x' /\
    Timer.mode (Timer.state x') = Work /\
    Timer.timeRemaining (Timer.state x') = 1500 /\
    localStorage (Timer.host x') = emptyStorage.
Proof.
  destruct (break_completes
              (Timer.at_time 300000
                 (Timer.start (Timer.changeMode (idleTimer 0) Break)))
              300000 eq_refl eq_refl ltac:(cbn; lia))
    as (x' & Hrun & _ & Hstore & _ & _ & Hmode & Hleft & _).
  exists x'. split; [exact Hrun |]. split; [exact Hmode |].
  split; [rewrite Hleft; reflexivity | rewrite Hstore; reflexivity].
Defined.

Lemma complete_break x :
  Timer.mode (Timer.state x) = Break ->
  Timer.complete x
  = Return (Timer.changeMode
              (Timer.showCompletionMessage (Timer.pause x)
                 Timer.breakCompleteMessage)
              Work).
Proof. intros Hmode. unfold Timer.complete. rewrite pause_mode, Hmode. reflexivity. Qed.

(** A tick at the end time is [complete] of the timer with 0 seconds left. *)
Lemma tick_at_end x E :
  Timer.endTime (Timer.state x) = Some E ->
  clock (Timer.host x) = E ->
  Timer.tick x
  = Timer.complete (Timer.with_state x (Timer.set_timeRemaining 0 (Timer.state x))).
Proof.
  intros HE Hnow. rewrite (tick_eq x E HE), Hnow, Z.sub_diag. reflexivity.
Qed.

(** X20. A whole cycle counts one session: a work timer started and ticked
    at its end time, then the break started (at any later reading of the
    clock) and ticked at its end time, on a store that accepts reads and
    writes, leaves [totalSessions] one higher and [totalMinutes] higher by
    the work duration in minutes, has dispatched the [timerComplete] of the
    work session and then that of the break, and leaves the timer idle in
    work mode with the work duration to run. *)
Theorem pomodoro_cycle_counts_one (x : Timer.t) (d : TimerData) (resumed : Z) :
  Timer.isRunning (Timer.state x) = false ->
  Timer.mode (Timer.state x) = Work ->
  operational (localStorage (Timer.host x)) ->
  stats (Timer.host x) d ->
  let workEnd := clock (Timer.host x) + Timer.timeRemaining (Timer.state x) * 1000 in
  let today := toDateString (utcOffset (Timer.host x)) workEnd in
  exists x' d',
    pomodoro_cycle x resumed = Return x' /\
    stats (Timer.host x') d' /\
    totalSessions d' = totalSessions d + 1 /\
    sessionsToday d' = next_sessionsToday d today /\
    (totalMinutes d'
     == totalMinutes d + inject_Z (Timer.work (Timer.durations x)) / 60)%Q /\
    dispatched (Timer.host x')
    = dispatched (Timer.host x)
      ++ [timerComplete Timer.workCompleteMessage Work;
          timerComplete Timer.breakCompleteMessage Break] /\
    Timer.durations x' = Timer.durations x /\
    Timer.mode (Timer.state x') = Work /\
    Timer.timeRemaining (Timer.state x') = Timer.work (Timer.durations x) /\
    Timer.isRunning (Timer.state x') = false /\
    Timer.isPaused (Timer.state x') = false.
Proof.
  intros Hidle Hmode Hop Hd workEnd today.
  unfold pomodoro_cycle. rewrite (start_eq x Hidle).
  cbn [Timer.host Timer.with_state Timer.state Timer.timeRemaining]. fold workEnd.
  set (x0 := Timer.at_time workEnd _).
  rewrite (tick_at_end x0 workEnd eq_refl eq_refl).
  set (x1 := Timer.with_state x0 _).
  destruct (complete_work x1 d Hmode Hop Hd) as (h' & Hrun & Hd' & Hlog & Hclock).
  rewrite Hrun. cbn [mbind Outcome_bind]. rewrite changeMode_eq.
  set (y := Timer.with_state _ _).
  assert (Timer.isRunning (Timer.state y) = false) as Hy by reflexivity.
  rewrite (start_eq (Timer.at_time resumed y)) by exact Hy.
  cbn [Timer.host Timer.with_state Timer.state Timer.timeRemaining Timer.at_time
       clock at_time Timer.with_host].
  set (breakEnd := resumed + _ * 1000).
  set (y0 := Timer.at_time breakEnd _).
  rewrite (tick_at_end y0 breakEnd eq_refl eq_refl).
  rewrite complete_break by reflexivity.
  rewrite changeMode_eq.
  eexists. eexists. split; [reflexivity |].
  split; [exact Hd' |].
  split; [reflexivity |]. split; [reflexivity |]. split; [reflexivity |].
  split.
  { cbn. rewrite Hlog. cbn. rewrite <- app_assoc. reflexivity. }
  rewrite pause_eq. cbn. repeat split; reflexivity.
Qed.

Lemma pomodoro_cycle_counts_one_witness :
  exists x' d',
    pomodoro_cycle (idleTimer 0) 1560000 = Return x' /\
    stats (Timer.host x') d' /\
    totalSessions d' = 1 /\
    (totalMinutes d' == 25)%Q /\
    Timer.timeRemaining (Timer.state x') = 1500.
Proof.
  destruct (pomodoro_cycle_counts_one (idleTimer 0) Storage.defaultTimerData
              1560000)
    as (x' & d' & Hrun & Hd' & Htotal & _ & Hminutes & _ & _ & _ & Hleft & _).
  - reflexivity.
  - reflexivity.
  - split; reflexivity.
  - reflexivity.
  - exists x', d'. split; [exact Hrun |]. split; [exact Hd' |].
    split; [rewrite Htotal; reflexivity |].
    split; [rewrite Hminutes; reflexivity | rewrite Hleft; reflexivity].
Defined.

(** X21. Selecting the current mode is a reset, and of two selections the
    last one decides: [changeMode] to the mode the timer is in equals
    [reset], and [changeMode] after [changeMode] equals the second alone.
    Neither touches the browser or the durations. *)
Theorem changeMode_composes (x : Timer.t) (m m' : Mode) :
  Timer.changeMode x (Timer.mode (Timer.state x)) = Timer.reset x /\
  Timer.changeMode (Timer.changeMode x m) m' = Timer.changeMode x m' /\
  Timer.host (Timer.changeMode x m) = Timer.host x /\
  Timer.durations (Timer.changeMode x m) = Timer.durations x /\
  Timer.timeRemaining (Timer.state (Timer.changeMode x m))
  = match m with
    | Work => Timer.work (Timer.durations x)
    | Break => Timer.break (Timer.durations x)
    end.
Proof.
  rewrite !changeMode_eq, reset_eq.
  destruct x as [[run paused m0 tr iv st pt en] d c h]. cbn.
  repeat split. destruct iv, run; reflexivity.
Qed.

(** X22. While it runs, the timer never shows more than it was started
    with, and never more at a later tick than at an earlier one: for a timer
    started with [R] seconds and ticks at [now1 <= now2] between the start
    and the end time, 0 < left at [now2] <= left at [now1] <= R. *)
Theorem tick_never_gains (x : Timer.t) (R now1 now2 : Z) :
  Timer.isRunning (Timer.state x) = false ->
  Timer.timeRemaining (Timer.state x) = R ->
  clock (Timer.host x) <= now1 <= now2 ->
  now2 < clock (Timer.host x) + R * 1000 ->
  exists x1 x2,
    Timer.tick (Timer.at_time now1 (Timer.start x)) = Return x1 /\
    Timer.tick (Timer.at_time now2 x1) = Return x2 /\
    0 < Timer.timeRemaining (Timer.state x2) /\
    Timer.timeRemaining (Timer.state x2) <= Timer.timeRemaining (Timer.state x1) /\
    Timer.timeRemaining (Timer.state x1) <= R /\
    Timer.isRunning (Timer.state x2) = true.
Proof.
  intros Hidle HR Hnow Hend.
  set (t0 := clock (Timer.host x)) in *.
  rewrite (start_eq x Hidle). fold t0. rewrite HR.
  rewrite (tick_counting _ (t0 + R * 1000)) by (try reflexivity; cbn; lia).
  eexists. eexists. split; [reflexivity |].
  rewrite (tick_counting _ (t0 + R * 1000)) by (try reflexivity; cbn; lia).
  split; [reflexivity |]. cbn.
  pose proof (ceil_div_bounds (t0 + R * 1000 - now1) 1000 ltac:(lia)) as H1.
  pose proof (ceil_div_bounds (t0 + R * 1000 - now2) 1000 ltac:(lia)) as H2.
  repeat split; lia.
Qed.

Lemma tick_never_gains_witness :
  exists x1 x2,
    Timer.tick (Timer.at_time 1000 (Timer.start (idleTimer 0))) = Return x1 /\
    Timer.tick (Timer.at_time 61500 x1) = Return x2 /\
    Timer.timeRemaining (Timer.state x2) <= Timer.timeRemaining (Timer.state x1) /\
    Timer.timeRemaining (Timer.state x1) <= 1500.
Proof.
  destruct (tick_never_gains (idleTimer 0) 1500 1000 61500)
    as (x1 & x2 & H1 & H2 & _ & Hle & Hstart & _).
  - reflexivity.
  - reflexivity.
  - cbn. lia.
  - cbn. lia.
  - exists x1, x2. repeat split; assumption.
Defined.

(** ** Countdown *)

Lemma update_counting c now :
  now < Countdown.targetDate c ->
  Countdown.targetDate c <> Countdown.startDate c ->
  let timeDiff := Countdown.targetDate c - now in
  let totalTime := Countdown.targetDate c - Countdown.startDate c in
  let elapsed := now - Countdown.startDate c in
  let percentage := Qmin (inject_Z elapsed / inject_Z totalTime * 100)%Q 100%Q in
  Countdown.update c now
  = Return (Countdown.with_display c
              (Countdown.mkDisplay
                 (timeDiff / msPerDay)
                 (timeDiff mod msPerDay / 3600000)
                 (timeDiff mod 3600000 / 60000)
                 (timeDiff mod 60000 / 1000)
                 percentage
                 (Countdown.StudyPeriod (elapsed / msPerDay)
                    (totalTime / msPerDay - elapsed / msPerDay) percentage))).
Proof.
  intros Hleft Hne. cbv zeta. unfold Countdown.update, Countdown.updateProgress.
  replace (Countdown.targetDate c - now <=? 0) with false
    by (symmetry; apply Z.leb_gt; lia).
  replace (Countdown.targetDate c - Countdown.startDate c =? 0) with false
    by (symmetry; apply Z.eqb_neq; lia).
  rewrite !Z.rem_mod_nonneg by lia.
  reflexivity.
Qed.

(** X23. While time is left, the four counters are the time left split into
    days, hours, minutes and seconds: hours are below 24, minutes and
    seconds below 60, none is negative, and together they stand for the time
    left to within the second they round down. The interval keeps running. *)
Theorem update_splits_time_left (c : Countdown.t) (now : Z) :
  now < Countdown.targetDate c ->
  Countdown.targetDate c <> Countdown.startDate c ->
  exists c',
    Countdown.update c now = Return c' /\
    0 <= Countdown.days (Countdown.display c') /\
    0 <= Countdown.hours (Countdown.display c') < 24 /\
    0 <= Countdown.minutes (Countdown.display c') < 60 /\
    0 <= Countdown.seconds (Countdown.display c') < 60 /\
    shown_time (Countdown.display c') <= Countdown.targetDate c - now
    < shown_time (Countdown.display c') + 1000 /\
    Countdown.scheduled c' = Countdown.scheduled c /\
    Countdown.interval c' = Countdown.interval c.
Proof.
  intros Hleft Hne. rewrite (update_counting c now Hleft Hne).
  eexists. split; [reflexivity |]. unfold shown_time. cbn.
  set (t := Countdown.targetDate c - now).
  assert (0 < t) as Ht by (unfold t; lia).
  change msPerDay with 86400000.
  pose proof (Z.div_mod t 86400000 ltac:(lia)) as Hd.
  pose proof (Z.mod_pos_bound t 86400000 ltac:(lia)) as Hdr.
  pose proof (Z.div_mod t 3600000 ltac:(lia)) as Hh.
  pose proof (Z.mod_pos_bound t 3600000 ltac:(lia)) as Hhr.
  pose proof (Z.div_mod t 60000 ltac:(lia)) as Hm.
  pose proof (Z.mod_pos_bound t 60000 ltac:(lia)) as Hmr.
  pose proof (Z.div_mod (t mod 86400000) 3600000 ltac:(lia)) as Hd1.
  pose proof (Z.mod_pos_bound (t mod 86400000) 3600000 ltac:(lia)) as Hd1r.
  pose proof (Z.div_mod (t mod 3600000) 60000 ltac:(lia)) as Hh1.
  pose proof (Z.mod_pos_bound (t mod 3600000) 60000 ltac:(lia)) as Hh1r.
  pose proof (Z.div_mod (t mod 60000) 1000 ltac:(lia)) as Hm1.
  pose proof (Z.mod_pos_bound (t mod 60000) 1000 ltac:(lia)) as Hm1r.
  assert ((t mod 86400000) mod 3600000 = t mod 3600000) as E1.
  { apply Z.mod_mod_divide. exists 24. reflexivity. }
  assert ((t mod 3600000) mod 60000 = t mod 60000) as E2.
  { apply Z.mod_mod_divide. exists 60. reflexivity. }
  rewrite E1 in Hd1. rewrite E2 in Hh1.
  assert (0 <= t / 86400000) by (apply Z.div_pos; lia).
  repeat split; try lia.
Qed.

Lemma update_splits_time_left_witness :
  exists c',
    Countdown.update
      (Countdown.mk ninetyDays 0 (Some 0%nat) {[0%nat]} 1%nat
                    (Countdown.display Countdown.initial))
      1500
    = Return c' /\
    shown_time (Countdown.display c') <= ninetyDays - 1500
    < shown_time (Countdown.display c') + 1000.
Proof.
  destruct (update_splits_time_left
              (Countdown.mk ninetyDays 0 (Some 0%nat) {[0%nat]} 1%nat
                            (Countdown.display Countdown.initial))
              1500 eq_refl ltac:(discriminate))
    as (c' & Hrun & _ & _ & _ & _ & Hshown & _).
  exists c'. split; [exact Hrun | exact Hshown].
Defined.

(** X24. At and after the target date the countdown shows zeros and the
    test-day text, cancels the interval it holds, and stays as it is: any
    later update, should one come, changes nothing. *)
Theorem update_completes (c : Countdown.t) (now later : Z) :
  Countdown.targetDate c <= now ->
  now <= later ->
  exists c',
    Countdown.update c now = Return c' /\
    Countdown.display c'
    = Countdown.mkDisplay 0 0 0 0 100%Q Countdown.TestDay /\
    (forall id, Countdown.interval c = Some id ->
                id ∉ Countdown.scheduled c') /\
    Countdown.scheduled c' ⊆ Countdown.scheduled c /\
    Countdown.update c' later = Return c'.
Proof.
  intros Hover Hlater. unfold Countdown.update.
  replace (Countdown.targetDate c - now <=? 0) with true
    by (symmetry; apply Z.leb_le; lia).
  eexists. split; [reflexivity |].
  destruct c as [target start iv sched next disp]. cbn in *.
  assert ((target - later <=? 0) = true) as Hl by (apply Z.leb_le; lia).
  destruct iv as [id |]; cbn; rewrite Hl; cbn.
  - assert (sched ∖ {[id]} ∖ {[id]} = sched ∖ {[id]}) as Htwice
      by (apply set_eq; intros k; rewrite !elem_of_difference; tauto).
    split; [reflexivity |].
    split.
    { intros id' [= <-]. rewrite elem_of_difference, elem_of_singleton. tauto. }
    split; [apply subseteq_difference_l; reflexivity |].
    rewrite Htwice. reflexivity.
  - split; [reflexivity |].
    split; [discriminate |]. split; reflexivity.
Qed.

Lemma update_completes_witness :
  exists c',
    Countdown.update
      (Countdown.mk ninetyDays 0 (Some 0%nat) {[0%nat]} 1%nat
                    (Countdown.display Countdown.initial))
      ninetyDays
    = Return c' /\
    Countdown.scheduled c' = ∅.
Proof.
  destruct (update_completes
              (Countdown.mk ninetyDays 0 (Some 0%nat) {[0%nat]} 1%nat
                            (Countdown.display Countdown.initial))
              ninetyDays ninetyDays ltac:(cbn; lia) ltac:(lia))
    as (c' & Hrun & _ & Hcancelled & Hsub & _).
  exists c'. split; [exact Hrun |].
  specialize (Hcancelled 0%nat eq_refl). cbn in Hsub.
  apply set_eq. intros k. rewrite elem_of_empty. split; [| tauto].
  intros Hk. pose proof (Hsub k Hk) as Hk0.
  apply elem_of_singleton in Hk0. subst k. exact (Hcancelled Hk).
Defined.

(** X25. [getDaysUntil] rounds the time left up to whole days where the
    display rounds it down: while time is left it is at least 1, and one
    more than the days shown unless the time left is a whole number of days;
    at and after the target date it is 0 or negative. *)
Theorem getDaysUntil_rounds_up (c : Countdown.t) (now : Z) :
  (now < Countdown.targetDate c ->
   Countdown.targetDate c <> Countdown.startDate c ->
   exists c',
     Countdown.update c now = Return c' /\
     1 <= Countdown.getDaysUntil c now /\
     Countdown.getDaysUntil c now
     = Countdown.days (Countdown.display c')
       + (if (Countdown.targetDate c - now) mod msPerDay =? 0 then 0 else 1)) /\
  (Countdown.targetDate c <= now -> Countdown.getDaysUntil c now <= 0).
Proof.
  pose proof msPerDay_pos as HD.
  unfold Countdown.getDaysUntil. change (1000 * 60 * 60 * 24) with msPerDay.
  split.
  - intros Hleft Hne. rewrite (update_counting c now Hleft Hne).
    eexists. split; [reflexivity |]. cbn [Countdown.display Countdown.with_display
      Countdown.days].
    set (t := Countdown.targetDate c - now).
    assert (0 < t) as Ht by (unfold t; lia).
    split; [pose proof (ceil_div_pos t msPerDay HD Ht); lia |].
    pose proof (Z.div_mod t msPerDay ltac:(lia)) as Hdm.
    pose proof (Z.mod_pos_bound t msPerDay HD) as Hr.
    apply ceil_div_unique; [exact HD |].
    destruct (t mod msPerDay =? 0) eqn:E.
    + apply Z.eqb_eq in E. lia.
    + apply Z.eqb_neq in E. lia.
  - intros Hover. apply ceil_div_nonpos; lia.
Qed.

Lemma getDaysUntil_rounds_up_witness :
  Countdown.getDaysUntil
    (Countdown.mk ninetyDays 0 (Some 0%nat) {[0%nat]} 1%nat
                  (Countdown.display Countdown.initial)) 1500
  = 91.
Proof.
  destruct (getDaysUntil_rounds_up
              (Countdown.mk ninetyDays 0 (Some 0%nat) {[0%nat]} 1%nat
                            (Countdown.display Countdown.initial)) 1500)
    as [H _].
  destruct (H eq_refl ltac:(discriminate)) as (c' & Hrun & _ & Hdays).
  rewrite Hdays. injection Hrun as <-. reflexivity.
Defined.

(** X26. Between the start of the countdown and the target date the
    progress bar is at least 0% and below 100%, the days completed are not
    negative, and the days remaining in the progress text are the days of
    the counter or one more. *)
Theorem update_progress_bounds (c : Countdown.t) (now : Z) :
  Countdown.startDate c <= now < Countdown.targetDate c ->
  exists c' daysElapsed daysRemaining percentage,
    Countdown.update c now = Return c' /\
    Countdown.progressText (Countdown.display c')
    = Countdown.StudyPeriod daysElapsed daysRemaining percentage /\
    Countdown.progressBar (Countdown.display c') = percentage /\
    (0 <= percentage)%Q /\ (percentage < 100)%Q /\
    0 <= daysElapsed /\
    (daysRemaining = Countdown.days (Countdown.display c') \/
     daysRemaining = Countdown.days (Countdown.display c') + 1).
Proof.
  intros [Hstart Hleft].
  rewrite (update_counting c now Hleft) by lia.
  eexists. eexists. eexists. eexists. split; [reflexivity |].
  cbn [Countdown.display Countdown.with_display Countdown.progressText
       Countdown.progressBar Countdown.days].
  split; [reflexivity |]. split; [reflexivity |].
  set (total := Countdown.targetDate c - Countdown.startDate c).
  set (elapsed := now - Countdown.startDate c).
  assert (0 <= elapsed < total) as He by (unfold elapsed, total; lia).
  set (q := (inject_Z elapsed / inject_Z total * 100)%Q).
  assert (0 < inject_Z total)%Q as Htotal
    by (change 0%Q with (inject_Z 0); rewrite <- Zlt_Qlt; lia).
  assert (0 <= inject_Z elapsed / inject_Z total)%Q as Hratio0.
  { apply Qle_shift_div_l; [exact Htotal |].
    rewrite Qmult_0_l. change 0%Q with (inject_Z 0). rewrite <- Zle_Qle. lia. }
  assert (inject_Z elapsed / inject_Z total < 1)%Q as Hratio1.
  { apply Qlt_shift_div_r; [exact Htotal |].
    rewrite Qmult_1_l. rewrite <- Zlt_Qlt. lia. }
  assert (0 <= q)%Q as Hq0
    by (apply Qmult_le_0_compat; [exact Hratio0 | discriminate]).
  assert (q < 100)%Q as Hq1.
  { exact (Qmult_lt_compat_r _ 1 100 eq_refl Hratio1). }
  assert (Qmin q 100 == q)%Q as Hmin
    by (apply Q.min_l; apply Qlt_le_weak; exact Hq1).
  split; [rewrite Hmin; exact Hq0 |].
  split; [rewrite Hmin; exact Hq1 |].
  pose proof msPerDay_pos as HD.
  split; [apply Z.div_pos; lia |].
  pose proof (Z.div_mod total msPerDay ltac:(lia)) as Ht.
  pose proof (Z.mod_pos_bound total msPerDay HD) as Htr.
  pose proof (Z.div_mod elapsed msPerDay ltac:(lia)) as Hel.
  pose proof (Z.mod_pos_bound elapsed msPerDay HD) as Her.
  pose proof (Z.div_mod (Countdown.targetDate c - now) msPerDay ltac:(lia)) as Hl.
  pose proof (Z.mod_pos_bound (Countdown.targetDate c - now) msPerDay HD) as Hlr.
  assert (Countdown.targetDate c - now = total - elapsed) as Hsplit
    by (unfold total, elapsed; lia).
  rewrite Hsplit in *.
  nia.
Qed.

Lemma update_progress_bounds_witness :
  exists c' daysElapsed daysRemaining percentage,
    Countdown.update
      (Countdown.mk ninetyDays 0 (Some 0%nat) {[0%nat]} 1%nat
                    (Countdown.display Countdown.initial))
      (20 * 3600000)
    = Return c' /\
    Countdown.progressText (Countdown.display c')
    = Countdown.StudyPeriod daysElapsed daysRemaining percentage /\
    (daysRemaining = Countdown.days (Countdown.display c') \/
     daysRemaining = Countdown.days (Countdown.display c') + 1).
Proof.
  destruct (update_progress_bounds
              (Countdown.mk ninetyDays 0 (Some 0%nat) {[0%nat]} 1%nat
                            (Countdown.display Countdown.initial))
              (20 * 3600000)
              ltac:(unfold ninetyDays, msPerDay; cbn; lia))
    as (c' & e & r & p & Hrun & Htext & _ & _ & _ & _ & Hdays).
  exists c', e, r, p. split; [exact Hrun |]. split; [exact Htext | exact Hdays].
Defined.

Lemma init_eq c lsatDate now :
  exists d,
    Countdown.init c lsatDate now
    = Return (Countdown.mk lsatDate now (Some (Countdown.nextHandle c))
                (Countdown.scheduled
                   (if lsatDate - now <=? 0
                    then Countdown.clearInterval c (Countdown.interval c)
                    else c)
                 ∪ {[Countdown.nextHandle c]})
                (S (Countdown.nextHandle c)) d).
Proof.
  unfold Countdown.init, Countdown.update, Countdown.updateProgress.
  cbn [Countdown.targetDate Countdown.startDate].
  destruct (lsatDate - now <=? 0) eqn:Hover.
  - cbn [mbind Outcome_bind]. eexists.
    destruct c as [t0 s0 [id |] sched next disp]; reflexivity.
  - apply Z.leb_gt in Hover.
    replace (lsatDate - now =? 0) with false by (symmetry; apply Z.eqb_neq; lia).
    cbn [mbind Outcome_bind]. eexists. reflexivity.
Qed.

(** X27. [restart] leaves one interval running: for a countdown whose only
    scheduled interval is the one it holds, [restart] returns with the new
    dates, cancels that interval and schedules exactly one new one. [init]
    alone does not cancel: called again on a running countdown with a date
    still ahead, it leaves the old interval scheduled beside the new one. *)
Theorem restart_one_interval (c : Countdown.t) (newDate now : Z) :
  tidy c ->
  (exists c',
     Countdown.restart c newDate now = Return c' /\
     Countdown.targetDate c' = newDate /\
     Countdown.startDate c' = now /\
     Countdown.interval c' = Some (Countdown.nextHandle c) /\
     Countdown.scheduled c' = {[Countdown.nextHandle c]} /\
     tidy c') /\
  (forall id,
     Countdown.interval c = Some id -> id ∈ Countdown.scheduled c ->
     now < newDate ->
     exists c',
       Countdown.init c newDate now = Return c' /\
       id ∈ Countdown.scheduled c' /\
       Countdown.nextHandle c ∈ Countdown.scheduled c' /\
       id <> Countdown.nextHandle c).
Proof.
  intros [Hheld Hbelow]. split.
  - unfold Countdown.restart.
    destruct (init_eq (Countdown.stop c) newDate now) as (d & ->).
    assert (Countdown.nextHandle (Countdown.stop c) = Countdown.nextHandle c)
      as Hnext by (unfold Countdown.stop; destruct (Countdown.interval c);
                   reflexivity).
    assert (Countdown.interval (Countdown.stop c) = None) as Hstopped
      by (unfold Countdown.stop;
          destruct (Countdown.interval c) eqn:Hiv; [reflexivity | exact Hiv]).
    assert (Countdown.scheduled (Countdown.stop c) = ∅) as Hempty.
    { apply set_eq. intros k. rewrite elem_of_empty. split; [| tauto].
      unfold Countdown.stop.
      destruct (Countdown.interval c) as [id |] eqn:Hiv; cbn; intros Hk.
      - apply elem_of_difference in Hk as [Hk Hne].
        apply Hheld in Hk. injection Hk as ->.
        apply Hne, elem_of_singleton. reflexivity.
      - apply Hheld in Hk. discriminate Hk. }
    assert (Countdown.scheduled
              (if newDate - now <=? 0
               then Countdown.clearInterval (Countdown.stop c)
                      (Countdown.interval (Countdown.stop c))
               else Countdown.stop c) = ∅) as Hnone.
    { rewrite Hstopped. cbn [Countdown.clearInterval].
      destruct (newDate - now <=? 0); exact Hempty. }
    rewrite Hnone, Hnext. eexists. split; [reflexivity |].
    cbn. repeat split.
    + apply set_eq. intros k. rewrite elem_of_union, elem_of_empty. tauto.
    + intros id Hid. cbn in Hid |- *.
      rewrite elem_of_union, elem_of_empty, elem_of_singleton in Hid.
      destruct Hid as [[] | ->]. reflexivity.
    + intros id. cbn. intros [= <-]. lia.
  - intros id Hiv Hid Hleft.
    destruct (init_eq c newDate now) as (d & ->).
    replace (newDate - now <=? 0) with false by (symmetry; apply Z.leb_gt; lia).
    eexists. split; [reflexivity |]. cbn.
    split; [apply elem_of_union; left; exact Hid |].
    split; [apply elem_of_union; right; apply elem_of_singleton; reflexivity |].
    specialize (Hbelow id Hiv). lia.
Qed.

Lemma restart_one_interval_witness :
  exists c',
    Countdown.restart
      (Countdown.mk ninetyDays 0 (Some 0%nat) {[0%nat]} 1%nat
                    (Countdown.display Countdown.initial))
      (2 * ninetyDays) 5000
    = Return c' /\
    Countdown.scheduled c' = {[1%nat]}.
Proof.
  destruct (restart_one_interval
              (Countdown.mk ninetyDays 0 (Some 0%nat) {[0%nat]} 1%nat
                            (Countdown.display Countdown.initial))
              (2 * ninetyDays) 5000) as [(c' & Hrun & _ & _ & _ & Hone & _) _].
  - split; cbn.
    + intros id Hid. apply elem_of_singleton in Hid. congruence.
    + intros id [= <-]. lia.
  - exists c'. split; [exact Hrun | exact Hone].
Defined.

(** ** Questions *)

Lemma toDateString_shift offset instant k :
  toDateString offset (instant + k * msPerDay) = toDateString offset instant + k.
Proof.
  unfold toDateString.
  replace (instant + k * msPerDay + offset)
    with (instant + offset + k * msPerDay) by lia.
  apply Z.div_add. discriminate.
Qed.

Lemma daysSinceEpoch_eq h offsetJan1 :
  (clock h - Questions.epochStart offsetJan1) / (1000 * 60 * 60 * 24)
  = toDateString offsetJan1 (clock h) - 19723.
Proof.
  unfold Questions.epochStart, new_Date, toDateString.
  change (1000 * 60 * 60 * 24) with msPerDay.
  replace (clock h - (19723 * msPerDay - offsetJan1))
    with (clock h + offsetJan1 + (- 19723) * msPerDay) by lia.
  rewrite Z.div_add by discriminate. lia.
Qed.

(** X28. The question of the day is decided by the number of full 24-hour
    periods since the local midnight of January 1, 2024: with [n > 0]
    questions the index is that number modulo [n], so from that midnight on
    it is within the list, the same throughout each period, and one further
    (cyclically) 24 hours later. The periods are the calendar days counted
    at the offset of January 1: the calendar days of the browser when its
    offset today is that one, and days that begin an hour off midnight under
    daylight-saving time. Before that date the index is 0 or negative, and
    with no question it is not a number. *)
Theorem getDailyQuestionIndex_by_day (h : Host) (offsetJan1 n : Z) :
  0 < n ->
  let epoch := Questions.epochStart offsetJan1 in
  let periods := (clock h - epoch) / msPerDay in
  (0 <= periods ->
   Questions.getDailyQuestionIndex h offsetJan1 n = Some (periods mod n) /\
   0 <= periods mod n < n /\
   Questions.getDailyQuestionIndex (advance msPerDay h) offsetJan1 n
   = Some ((periods mod n + 1) mod n)) /\
  (periods < 0 ->
   exists i, Questions.getDailyQuestionIndex h offsetJan1 n = Some i /\
             - n < i <= 0) /\
  epoch + periods * msPerDay <= clock h < epoch + (periods + 1) * msPerDay /\
  (forall now,
     epoch + periods * msPerDay <= now < epoch + (periods + 1) * msPerDay ->
     Questions.getDailyQuestionIndex (at_time now h) offsetJan1 n
     = Questions.getDailyQuestionIndex h offsetJan1 n) /\
  periods = toDateString offsetJan1 (clock h) - 19723 /\
  (offsetJan1 = utcOffset h -> periods = Storage.getTodayString h - 19723) /\
  Questions.getDailyQuestionIndex h offsetJan1 0 = None.
Proof.
  intros Hn epoch periods.
  pose proof msPerDay_pos as HD.
  assert (forall h0, Questions.getDailyQuestionIndex h0 offsetJan1 n
                     = Some (Z.rem ((clock h0 - epoch) / msPerDay) n)) as Hidx.
  { intros h0. unfold Questions.getDailyQuestionIndex.
    replace (n =? 0) with false by (symmetry; apply Z.eqb_neq; lia).
    reflexivity. }
  assert (epoch + periods * msPerDay <= clock h
          < epoch + (periods + 1) * msPerDay) as Hwindow.
  { pose proof (Z.div_mod (clock h - epoch) msPerDay ltac:(lia)) as Hdm.
    pose proof (Z.mod_pos_bound (clock h - epoch) msPerDay HD) as Hr.
    fold periods in Hdm. nia. }
  split; [| split; [| split; [| split; [| split; [| split]]]]].
  - intros Hday. rewrite !Hidx. fold periods.
    rewrite Z.rem_mod_nonneg by lia.
    split; [reflexivity |].
    split; [apply Z.mod_pos_bound; lia |].
    cbn [advance at_time clock].
    replace (clock h + msPerDay - epoch)
      with (clock h - epoch + 1 * msPerDay) by lia.
    rewrite Z.div_add by lia. fold periods.
    rewrite Z.rem_mod_nonneg by lia.
    rewrite Zplus_mod_idemp_l. reflexivity.
  - intros Hday. rewrite Hidx. fold periods. eexists. split; [reflexivity |].
    pose proof (Z.rem_bound_pos_neg periods n ltac:(lia) ltac:(lia)) as Hb.
    lia.
  - exact Hwindow.
  - intros now Hnow. rewrite !Hidx. cbn [at_time clock]. fold periods.
    replace ((now - epoch) / msPerDay) with periods; [reflexivity |].
    apply (Z.div_unique_pos (now - epoch) msPerDay periods
             (now - epoch - periods * msPerDay)); lia.
  - apply daysSinceEpoch_eq.
  - intros ->. apply daysSinceEpoch_eq.
  - reflexivity.
Qed.

Lemma getDailyQuestionIndex_by_day_witness :
  Questions.getDailyQuestionIndex (freshHost (midnight 0 19730 + 3600000) 0) 0 5
  = Some 2 /\
  Questions.getDailyQuestionIndex newYorkJuly (-18000000) 5 = Some 1 /\
  Questions.getDailyQuestionIndex (advance 1800000 newYorkJuly) (-18000000) 5
  = Some 2 /\
  Storage.getTodayString (advance 1800000 newYorkJuly)
  = Storage.getTodayString newYorkJuly.
Proof.
  split; [| split; [| split]].
  - destruct (getDailyQuestionIndex_by_day
                (freshHost (midnight 0 19730 + 3600000) 0) 0 5 eq_refl)
      as ((Hidx & _) & _).
    + vm_compute. discriminate.
    + rewrite Hidx. reflexivity.
  - destruct (getDailyQuestionIndex_by_day newYorkJuly (-18000000) 5 eq_refl)
      as ((Hidx & _) & _).
    + vm_compute. discriminate.
    + rewrite Hidx. reflexivity.
  - destruct (getDailyQuestionIndex_by_day (advance 1800000 newYorkJuly)
                (-18000000) 5 eq_refl) as ((Hidx & _) & _).
    + vm_compute. discriminate.
    + rewrite Hidx. reflexivity.
  - reflexivity.
Defined.

(** X29. The date shown for a question is named after its distance from the
    question of the day: "Today" for the question of the day, "Yesterday"
    for the one before, "Tomorrow" for the one after, and the calendar date
    that many days from today for any other. *)
Theorem formatDate_of_question (h : Host) (offsetJan1 n index todayIndex : Z) :
  Questions.getDailyQuestionIndex h offsetJan1 n = Some todayIndex ->
  exists date,
    Questions.getQuestionDate h offsetJan1 n index = Some date /\
    Questions.formatDate h date
    = if index =? todayIndex then Questions.Today
      else if index =? todayIndex - 1 then Questions.Yesterday
      else if index =? todayIndex + 1 then Questions.Tomorrow
      else Questions.LocaleDate
             (Storage.getTodayString h + (index - todayIndex)).
Proof.
  intros Htoday. unfold Questions.getQuestionDate. rewrite Htoday.
  eexists. split; [reflexivity |].
  unfold Questions.formatDate.
  replace (clock h - msPerDay) with (clock h + (-1) * msPerDay) by lia.
  replace (clock h + msPerDay) with (clock h + 1 * msPerDay) by lia.
  rewrite !toDateString_shift. fold (Storage.getTodayString h).
  set (day := Storage.getTodayString h).
  destruct (index =? todayIndex) eqn:E0.
  { apply Z.eqb_eq in E0.
    replace (day + (index - todayIndex) =? day) with true
      by (symmetry; apply Z.eqb_eq; lia).
    reflexivity. }
  apply Z.eqb_neq in E0.
  replace (day + (index - todayIndex) =? day) with false
    by (symmetry; apply Z.eqb_neq; lia).
  destruct (index =? todayIndex - 1) eqn:E1.
  { apply Z.eqb_eq in E1.
    replace (day + (index - todayIndex) =? day + -1) with true
      by (symmetry; apply Z.eqb_eq; lia).
    reflexivity. }
  apply Z.eqb_neq in E1.
  replace (day + (index - todayIndex) =? day + -1) with false
    by (symmetry; apply Z.eqb_neq; lia).
  destruct (index =? todayIndex + 1) eqn:E2.
  { apply Z.eqb_eq in E2.
    replace (day + (index - todayIndex) =? day + 1) with true
      by (symmetry; apply Z.eqb_eq; lia).
    reflexivity. }
  apply Z.eqb_neq in E2.
  replace (day + (index - todayIndex) =? day + 1) with false
    by (symmetry; apply Z.eqb_neq; lia).
  reflexivity.
Qed.

Lemma formatDate_of_question_witness :
  exists date,
    Questions.getQuestionDate (freshHost (midnight 0 19730 + 3600000) 0) 0 5 3
    = Some date /\
    Questions.formatDate (freshHost (midnight 0 19730 + 3600000) 0) date
    = Questions.Tomorrow.
Proof.
  destruct (formatDate_of_question
              (freshHost (midnight 0 19730 + 3600000) 0) 0 5 3 2 eq_refl)
    as (date & Hdate & Hlabel).
  exists date. split; [exact Hdate | exact Hlabel].
Defined.
